(** * Archive conversion subsystem of Universal-Converter

    A shallow embedding of [converters/archive_converters.py].  The Python
    functions run against a filesystem, a handful of archive libraries
    (zipfile, tarfile, py7zr, rarfile, pyminizip) and external command-line
    tools (7-Zip, rar).  The embedding threads an explicit [world] (the
    filesystem, the log of external calls, the module-level settings)
    through a state-and-exception monad in which, as in Python, the effects
    made before an exception is raised are kept.

    Paths are kept as their [pathlib] parts (a list of components below the
    filesystem root); they are rendered back to strings where the source
    builds a command line or an error message. *)

From Stdlib Require Import Floats Ascii String DecimalString DecimalNat.
From stdpp Require Import gmap strings list fin_maps sorting.

Open Scope string_scope.
Open Scope list_scope.
Open Scope Z_scope.

(** ** Strings as Python uses them *)

Module PyStr.

(** [str.lower()], on the ASCII range. *)
Definition lower_ascii (c : ascii) : ascii :=
  let n := nat_of_ascii c in
  if ((65 <=? n)%nat && (n <=? 90)%nat)%bool then ascii_of_nat (n + 32) else c.

Fixpoint lower (s : string) : string :=
  match s with
  | EmptyString => EmptyString
  | String c s' => String (lower_ascii c) (lower s')
  end.

(** [s.startswith(p)] *)
Fixpoint startswith (s p : string) : bool :=
  match p, s with
  | EmptyString, _ => true
  | String _ _, EmptyString => false
  | String a p', String b s' => if Ascii.eqb a b then startswith s' p' else false
  end.

Definition rev (s : string) : string :=
  string_of_list_ascii (List.rev (list_ascii_of_string s)).

(** [s.endswith(p)] *)
Definition endswith (s p : string) : bool := startswith (rev s) (rev p).

(** [s.rfind('.')], [None] standing for -1. *)
Fixpoint rfind_dot (s : string) : option nat :=
  match s with
  | EmptyString => None
  | String c s' =>
      match rfind_dot s' with
      | Some i => Some (S i)
      | None => if Ascii.eqb c "."%char then Some 0%nat else None
      end
  end.

(** The truth value of an optional string: [None] and [''] are false. *)
Definition truthy (o : option string) : bool :=
  match o with
  | Some s => negb (String.eqb s "")
  | None => false
  end.

(** [sep.join(l)] *)
Fixpoint join (sep : string) (l : list string) : string :=
  match l with
  | [] => ""
  | [x] => x
  | x :: l' => x +:+ sep +:+ join sep l'
  end.

(** [s.split('/')] with the empty parts dropped, as [pathlib] does. *)
Fixpoint split_slash_aux (s acc : string) : list string :=
  match s with
  | EmptyString => if String.eqb acc "" then [] else [rev acc]
  | String c s' =>
      if Ascii.eqb c "/"%char
      then (if String.eqb acc "" then [] else [rev acc]) ++ split_slash_aux s' ""
      else split_slash_aux s' (String c acc)
  end.

Definition split_slash (s : string) : list string := split_slash_aux s "".

End PyStr.

(** ** Paths *)

(** A path, as its components. *)
Abbreviation path := (list string).

Module PyPath.

(** [str(p)] of an absolute path. *)
Definition render (p : path) : string := "/" +:+ PyStr.join "/" p.

(** [str(p)] of a relative path, as an archive member name. *)
Definition render_rel (p : path) : string := PyStr.join "/" p.

(** [Path(s)] *)
Definition parse (s : string) : path := PyStr.split_slash s.

(** [Path(p).name] and [os.path.basename] of a normalised path. *)
Definition name (p : path) : string := List.last p "".

(** [Path(p).parent] *)
Definition parent (p : path) : path := List.removelast p.

(** [Path(p).suffix]: the part of the name from its last dot on, when that
    dot is neither the first nor the last character of the name. *)
Definition suffix (p : path) : string :=
  let nm := name p in
  match PyStr.rfind_dot nm with
  | Some i =>
      if ((0 <? i)%nat && (i <? String.length nm - 1)%nat)%bool
      then String.substring i (String.length nm - i) nm
      else ""
  | None => ""
  end.

(** [os.path.join(d, name)] *)
Definition join (d : path) (nm : string) : path := d ++ [nm].

(** [f"{p}{ext}"]: text appended to the last component. *)
Definition add_text (p : path) (ext : string) : path :=
  match List.rev p with
  | [] => [ext]
  | nm :: r => List.rev r ++ [nm +:+ ext]
  end.

(** [os.path.relpath(full, base)] for [full] below [base]. *)
Definition relpath (full base : path) : path := drop (length base) full.

(** The non-empty prefixes of a path, shortest first: the directories
    that [os.makedirs] walks through. *)
Fixpoint ancestors_or_self (p : path) : list path :=
  match p with
  | [] => []
  | c :: p' => [c] :: List.map (cons c) (ancestors_or_self p')
  end.

End PyPath.

(** ** Files, archives and the filesystem *)

(** The container formats the module reads or writes. *)
Inductive ArchiveKind := Zip | Tar | TarGz | SevenZip | Rar.

(** What a regular file holds.  The binary layout of the container formats
    is left to the libraries that parse and write them: an archive on disk is
    represented by what its parser gets out of it (the format, the password
    it is encrypted with, the members); any other file is raw bytes. *)
#[warnings="-register-all"]
Inductive content :=
| Raw (bs : list Byte.byte)
| Arc (k : ArchiveKind) (pw : option string) (ms : list (path * content)).

(** An archive member: its name and what it holds. *)
Abbreviation member := (list string * content)%type.

Inductive node :=
| Dir
| File (c : content).

(** The Python exceptions the module meets.  All of them derive from
    [Exception].  [LibError] stands for the exception classes of the
    third-party libraries (rarfile.Error, py7zr.Bad7zFile, lzma.LZMAError,
    ...), which the source never tells apart. *)
Inductive exn :=
| FileNotFoundError (a : string)
| FileExistsError (a : string)
| NotADirectoryError (a : string)
| IsADirectoryError (a : string)
| ValueError (msg : string)
| RuntimeError (msg : string)
| ModuleNotFoundError (msg : string)
| CalledProcessError (code : Z) (cmd : list string)
| BadZipFile (msg : string)
| ReadError (msg : string)
| LibError (lib msg : string).

(** How the read of an encrypted ZIP member ends when a wrong password gets
    past the check byte of ZipCrypto: [zipfile] then decrypts to garbage.
    The target file is open by then and holds what was copied before the
    read ended: with [BadZipFile] for a wrong CRC-32, with the error of the
    decompressor ([zlib.error]), or, when the CRC-32 happens to match, with
    no error at all. *)
Inductive garbled_read :=
| BadCrc32 (written : content)
| DecompressError (written : content) (msg : string)
| ReadsThrough (written : content).

(** Calls that leave the process: recorded with their arguments. *)
Inductive event :=
| EvSubprocess (cmd : list string) (cwd : option path)
| EvRarfileExtractall (archive out_dir : path) (pwd : option string)
| EvPy7zrRead (archive : path) (password : option string)
| EvPy7zrWrite (archive : path) (password : option string) (preset : Z)
| EvPyminizip (files prefixes : list string) (archive : path) (password : string) (level : Z).

(** The state the module runs against: the filesystem, the log of outside
    calls, the [rarfile.UNRAR_TOOL] module setting, and the member lists of
    the [zipfile.ZipFile] objects currently open for writing. *)
Record world := World {
  fs : gmap path node;
  trace : list event;
  UNRAR_TOOL : string;
  zip_open : gmap path (list member)
}.

Inductive result (A : Type) :=
| Ok (a : A)
| Raise (e : exn).
Arguments Ok {A} a.
Arguments Raise {A} e.

(** ** The monad of Python statements *)

Definition M (A : Type) : Type := world → result A * world.

#[global] Instance M_ret : MRet M := λ A a w, (Ok a, w).

#[global] Instance M_bind : MBind M := λ A B k m w,
  match m w with
  | (Ok a, w') => k a w'
  | (Raise e, w') => (Raise e, w')
  end.

Definition raise {A} (e : exn) : M A := λ w, (Raise e, w).

(** [try: m  except Exception as e: h e] *)
Definition try_except {A} (m : M A) (h : exn → M A) : M A :=
  λ w, match m w with
       | (Ok a, w') => (Ok a, w')
       | (Raise e, w') => h e w'
       end.

Definition gets {A} (f : world → A) : M A := λ w, (Ok (f w), w).

(** [try: m  finally: cleanup], which is also what leaving a [with] block
    does: the cleanup runs on every exit, and the outcome of [m] stands
    unless the cleanup itself raises. *)
Definition finally {A} (m : M A) (cleanup : M unit) : M A :=
  λ w, match m w with
       | (r, w') =>
           match cleanup w' with
           | (Ok _, w'') => (r, w'')
           | (Raise e, w'') => (Raise e, w'')
           end
       end.

Definition modify_fs (f : gmap path node → gmap path node) : M unit :=
  λ w, (Ok tt, World (f (fs w)) (trace w) (UNRAR_TOOL w) (zip_open w)).

Definition log (ev : event) : M unit :=
  λ w, (Ok tt, World (fs w) (trace w ++ [ev]) (UNRAR_TOOL w) (zip_open w)).

Definition set_UNRAR_TOOL (s : string) : M unit :=
  λ w, (Ok tt, World (fs w) (trace w) s (zip_open w)).

Definition modify_zip_open (f : gmap path (list member) → gmap path (list member)) : M unit :=
  λ w, (Ok tt, World (fs w) (trace w) (UNRAR_TOOL w) (f (zip_open w))).

(** [for x in l: body x] *)
Fixpoint for_each {A} (l : list A) (body : A → M unit) : M unit :=
  match l with
  | [] => mret tt
  | x :: l' => body x ;; for_each l' body
  end.

(** ** The environment outside the module

    What is installed, and what the third-party libraries and the external
    tools do.  The libraries and tools are not part of the repository: each
    is taken as a function of what it is given (the file it opens, the
    password, the level) to what it produces (the members it extracts or the
    archive it writes, and whether it fails).  Extractors return the members
    they managed to write together with their failure, if any. *)
Record Env := {
  (** [shutil.which] *)
  which : string → option string;
  (** [os.environ.get] *)
  environ : string → option string;
  (** whether [import rarfile] succeeded when the module was loaded *)
  rarfile_imported : bool;
  (** whether [import pyminizip] succeeds *)
  pyminizip_importable : bool;
  (** the order in which [os.walk] meets the files *)
  walk_order : list path → list path;
  (** the check of a password by [zipfile] (ZipCrypto compares one byte):
      for a member of an archive encrypted with the first password, opened
      with the second, a different one: [None] when the check byte gives
      the password away, and how the read ends when it does not *)
  zipcrypto_slip : string → string → member → option garbled_read;
  (** the size in bytes of an archive as laid out on disk *)
  encoded_size : ArchiveKind → option string → list member → Z;
  (** [rarfile.RarFile(path).extractall(out, pwd=)], given [UNRAR_TOOL] *)
  rarfile_extractall : string → option node → option string → list member * option string;
  (** [rarfile.RarFile(path).namelist()], opening included *)
  rarfile_namelist : string → option node → list string + string;
  (** the [file_size]s of [rarfile.RarFile(path).infolist()] *)
  rarfile_infolist : string → option node → list Z + string;
  (** [py7zr.SevenZipFile(path, 'r', password).extractall(out)] *)
  py7zr_extractall : option node → option string → list member * option string;
  (** [py7zr.SevenZipFile(path, 'r').getnames()], opening included *)
  py7zr_getnames : option node → list string + string;
  (** the [uncompressed] fields of [py7zr.SevenZipFile(path, 'r').list()] *)
  py7zr_list : option node → list (option Z) + string;
  (** [py7zr.SevenZipFile(path, 'w', password, filters).writeall(src, base)] *)
  py7zr_writeall : option string → Z → string → list member → content + string;
  (** [pyminizip.compress_multiple(files, prefixes, out, password, level)] *)
  pyminizip_compress_multiple :
    list (string * content) → list string → string → Z → content + string;
  (** [7z x -y -p<password> -o<dir> archive]: exit code and files written *)
  sevenzip_x : option node → option string → Z * list member;
  (** [7z a -tzip -p<password> out src/*]: exit code and archive written *)
  sevenzip_a_zip : list member → string → option node → Z * option content;
  (** [rar a -r -ep1 -p<password> -v<size> out .]: exit code and archive written *)
  rar_a : list member → option string → option string → option node → Z * option content
}.

(** ** [os], [os.path], [shutil], [tempfile] *)

Module Os.

(** The node at a path; the root is a directory. *)
Definition node_at (m : gmap path node) (p : path) : option node :=
  match p with
  | [] => Some Dir
  | _ => m !! p
  end.

Definition stat (p : path) : M (option node) := gets (λ w, node_at (fs w) p).

(** [os.path.exists] *)
Definition exists_ (p : path) : M bool :=
  n ← stat p; mret (bool_decide (is_Some n)).

(** [os.makedirs(pre/rest, exist_ok=True)] with [pre] known to be a
    directory. *)
Fixpoint makedirs_from (pre rest : path) : M unit :=
  match rest with
  | [] => mret tt
  | c :: rest' =>
      let q := pre ++ [c] in
      n ← stat q;
      match n with
      | Some Dir => makedirs_from q rest'
      | Some (File _) =>
          match rest' with
          | [] => raise (FileExistsError (PyPath.render q))
          | c' :: _ => raise (NotADirectoryError (PyPath.render (q ++ [c'])))
          end
      | None => modify_fs (insert q Dir) ;; makedirs_from q rest'
      end
  end.

Definition makedirs (p : path) : M unit := makedirs_from [] p.

(** [open(p, 'wb').write(c)] *)
Definition write_file (p : path) (c : content) : M unit :=
  up ← stat (PyPath.parent p);
  match up with
  | None => raise (FileNotFoundError (PyPath.render p))
  | Some (File _) => raise (NotADirectoryError (PyPath.render p))
  | Some Dir =>
      n ← stat p;
      match n with
      | Some Dir => raise (IsADirectoryError (PyPath.render p))
      | _ => modify_fs (insert p (File c))
      end
  end.

(** [open(p, 'rb').read()] *)
Definition read_file (p : path) : M content :=
  n ← stat p;
  match n with
  | Some (File c) => mret c
  | Some Dir => raise (IsADirectoryError (PyPath.render p))
  | None => raise (FileNotFoundError (PyPath.render p))
  end.

(** [shutil.rmtree(p)]: [p] and everything below it go. *)
Definition rmtree (p : path) : M unit :=
  modify_fs (filter (λ kv, ¬ p `prefix_of` kv.1)).

(** Whether a node is a regular file. *)
Definition is_file (n : node) : bool :=
  match n with
  | File _ => true
  | Dir => false
  end.

(** The regular files strictly below a directory, with their full paths. *)
Definition files_below (m : gmap path node) (d : path) : list path :=
  (map_to_list (filter (λ kv, is_file kv.2 ∧ d `prefix_of` kv.1 ∧ kv.1 ≠ d) m)).*1.

(** The files that the nested loops over [os.walk(d)] visit, in the order
    [os.walk] meets them. *)
Definition walk_files (E : Env) (d : path) : M (list path) :=
  gets (λ w, walk_order E (files_below (fs w) d)).

(** The longest component of any path present. *)
Definition longest_component (m : gmap path node) : nat :=
  max_list (List.map (λ kv, max_list (List.map String.length kv.1)) (map_to_list m)).

Fixpoint x_string (n : nat) : string :=
  match n with
  | O => ""
  | S n' => String "x"%char (x_string n')
  end.

(** The directory [tempfile.mkdtemp] picks: a name under the temporary
    root that nothing on disk uses (here: one longer than every name in
    use). *)
Definition fresh_tmp (m : gmap path node) : path :=
  ["tmp"; x_string (S (longest_component m))].

(** [tempfile.mkdtemp()] *)
Definition mkdtemp : M path :=
  tmp ← gets (λ w, fresh_tmp (fs w));
  modify_fs (insert tmp Dir) ;;
  mret tmp.

(** [with tempfile.TemporaryDirectory() as tmp: body tmp] *)
Definition with_TemporaryDirectory {A} (body : path → M A) : M A :=
  tmp ← mkdtemp;
  finally (body tmp) (rmtree tmp).

(** The size of a file's content in bytes. *)
Definition byte_size (E : Env) (c : content) : Z :=
  match c with
  | Raw bs => Z.of_nat (length bs)
  | Arc k pw ms => encoded_size E k pw ms
  end.

(** [os.path.getsize] *)
Definition getsize (E : Env) (p : path) : M Z :=
  n ← stat p;
  match n with
  | Some (File c) => mret (byte_size E c)
  | Some Dir => mret 4096
  | None => raise (FileNotFoundError (PyPath.render p))
  end.

(** Writing out a member below a directory, the way the extractors of
    [zipfile] and [tarfile] do: the parent directories are made when
    missing, then the file is written. *)
Definition extract_member (out_dir : path) (m : member) : M unit :=
  let target := out_dir ++ m.1 in
  let upperdirs := PyPath.parent target in
  ex ← exists_ upperdirs;
  (if negb ex then makedirs upperdirs else mret tt) ;;
  write_file target m.2.

(** What an external tool leaves on disk: it makes the directories it
    needs and overwrites what is in its way. *)
Definition put_member (out_dir : path) (mb : member) (m : gmap path node) : gmap path node :=
  <[out_dir ++ mb.1 := File mb.2]>
    (foldr (λ q acc, <[q := Dir]> acc) m
           (PyPath.ancestors_or_self (PyPath.parent (out_dir ++ mb.1)))).

Definition put_members (out_dir : path) (ms : list member) : M unit :=
  modify_fs (λ m, foldl (λ acc mb, put_member out_dir mb acc) m ms).

End Os.

(** ** The standard-library archive readers and writers *)

Module Zipfile.

(** [zipfile.ZipFile(p, 'r')]: the password the archive is encrypted with
    and its members. *)
Definition open_r (p : path) : M (option string * list member) :=
  n ← Os.stat p;
  match n with
  | None => raise (FileNotFoundError (PyPath.render p))
  | Some Dir => raise (IsADirectoryError (PyPath.render p))
  | Some (File (Arc Zip pw ms)) => mret (pw, ms)
  | Some (File _) => raise (BadZipFile "File is not a zip file")
  end.

(** [zf.open(member, pwd=)]: a member that is not encrypted opens as it
    is, an encrypted one with the password of the archive.  Without a
    password it is refused; another password is refused when the check
    byte gives it away, and otherwise the member opens and reads as
    garbage.  The answer is [None] for a member that reads as what it
    holds.  (The first message names the member by its file name, where
    CPython prints the [ZipInfo].) *)
Definition check_password (E : Env) (enc pwd : option string) (m : member)
    : M (option garbled_read) :=
  match enc with
  | None => mret None
  | Some pw =>
      if PyStr.truthy pwd then
        if bool_decide (pwd = Some pw) then mret None
        else match zipcrypto_slip E pw (default "" pwd) m with
             | None => raise (RuntimeError ("Bad password for file '"
                                            +:+ PyPath.render_rel m.1 +:+ "'"))
             | Some g => mret (Some g)
             end
      else raise (RuntimeError ("File '" +:+ PyPath.render_rel m.1
                                +:+ "' is encrypted, password required for extraction"))
  end.

(** [shutil.copyfileobj(source, target)] on a member that reads as garbage:
    what was read reaches the target file, then the read ends as [g] says. *)
Definition copy_garbled (target : path) (nm : path) (g : garbled_read) : M unit :=
  match g with
  | BadCrc32 c =>
      Os.write_file target c ;;
      raise (BadZipFile ("Bad CRC-32 for file '" +:+ PyPath.render_rel nm +:+ "'"))
  | DecompressError c msg =>
      Os.write_file target c ;;
      raise (LibError "zlib" msg)
  | ReadsThrough c => Os.write_file target c
  end.

(** [zf._extract_member]: make the upper directories when missing, open
    the member, open the target file, copy. *)
Definition extract_one (E : Env) (enc pwd : option string) (out_dir : path) (m : member)
    : M unit :=
  let target := out_dir ++ m.1 in
  let upperdirs := PyPath.parent target in
  ex ← Os.exists_ upperdirs;
  (if negb ex then Os.makedirs upperdirs else mret tt) ;;
  r ← check_password E enc pwd m;
  match r with
  | None => Os.write_file target m.2
  | Some g => copy_garbled target m.1 g
  end.

(** [zf.extractall(out_dir)] with [zf.pwd = pwd] *)
Definition extractall (E : Env) (zf : option string * list member) (pwd : option string)
    (out_dir : path) : M unit :=
  for_each zf.2 (extract_one E zf.1 pwd out_dir).

(** [zf.namelist()] *)
Definition namelist (zf : option string * list member) : list string :=
  List.map (λ m, PyPath.render_rel m.1) zf.2.

(** [zipfile.ZipFile(p, 'w')]: the file is created empty. *)
Definition open_w (p : path) : M unit :=
  Os.write_file p (Raw []) ;;
  modify_zip_open (insert p []).

(** [zf.write(full, arcname=arc)] *)
Definition write (p full arc : path) : M unit :=
  c ← Os.read_file full;
  modify_zip_open (alter (λ ms, ms ++ [(arc, c)]) p).

(** [zf.close()]: the archive with the members written so far. *)
Definition close_w (p : path) : M unit :=
  ms ← gets (λ w, default [] (zip_open w !! p));
  modify_fs (insert p (File (Arc Zip None ms))) ;;
  modify_zip_open (delete p).

(** [with zipfile.ZipFile(p, 'w', compression=) as zf: body] *)
Definition with_ZipFile_w (p : path) (body : M unit) : M unit :=
  open_w p ;;
  finally body (close_w p).

End Zipfile.

Module Tarfile.

(** [tarfile.open(p, 'r:*')] *)
Definition open_r (p : path) : M (list member) :=
  n ← Os.stat p;
  match n with
  | None => raise (FileNotFoundError (PyPath.render p))
  | Some Dir => raise (IsADirectoryError (PyPath.render p))
  | Some (File (Arc Tar _ ms)) => mret ms
  | Some (File (Arc TarGz _ ms)) => mret ms
  | Some (File _) => raise (ReadError "file could not be opened successfully")
  end.

(** [tf.extractall(out_dir)] *)
Definition extractall (tf : list member) (out_dir : path) : M unit :=
  for_each tf (Os.extract_member out_dir).

End Tarfile.

(** [subprocess.run(cmd, check=True, cwd=)]: the command is recorded, the
    tool does its work, and a non-zero exit code raises. *)
Module Subprocess.

Definition run (cmd : list string) (cwd : option path) (tool : M Z) : M unit :=
  log (EvSubprocess cmd cwd) ;;
  code ← tool;
  if code =? 0 then mret tt else raise (CalledProcessError code cmd).

End Subprocess.

(** [list.insert(i, x)] *)
Definition list_insert_at {A} (i : nat) (x : A) (l : list A) : list A :=
  take i l ++ x :: drop i l.

(** [str(e)] *)
Definition str_exn (e : exn) : string :=
  match e with
  | FileNotFoundError a => "[Errno 2] No such file or directory: '" +:+ a +:+ "'"
  | FileExistsError a => "[Errno 17] File exists: '" +:+ a +:+ "'"
  | NotADirectoryError a => "[Errno 20] Not a directory: '" +:+ a +:+ "'"
  | IsADirectoryError a => "[Errno 21] Is a directory: '" +:+ a +:+ "'"
  | ValueError msg => msg
  | RuntimeError msg => msg
  | ModuleNotFoundError msg => msg
  | CalledProcessError code cmd =>
      "Command '[" +:+ PyStr.join ", " cmd +:+ "]' returned non-zero exit status"
  | BadZipFile msg => msg
  | ReadError msg => msg
  | LibError _ msg => msg
  end.

(** A Python number: [int] or [float]. *)
Inductive pynum :=
| PyInt (z : Z)
| PyFloat (f : float).

(** [float(z)] for a file size (exact below 2^53). *)
Definition float_of_size (z : Z) : float := PrimFloat.of_uint63 (Uint63.of_Z z).

(** The dictionary [analyze_archive_info] returns; ['error'] is present only
    after a failure. *)
Record info := Info {
  format : string;
  size : Z;
  files : list string;
  compression_ratio : pynum;
  total_uncompressed : Z;
  error : option string
}.

Definition set_files (l : list string) (i : info) : info :=
  Info (format i) (size i) l (compression_ratio i) (total_uncompressed i) (error i).
Definition set_total_uncompressed (z : Z) (i : info) : info :=
  Info (format i) (size i) (files i) (compression_ratio i) z (error i).
Definition set_compression_ratio (r : pynum) (i : info) : info :=
  Info (format i) (size i) (files i) r (total_uncompressed i) (error i).
Definition set_error (s : string) (i : info) : info :=
  Info (format i) (size i) (files i) (compression_ratio i) (total_uncompressed i) (Some s).

(** The statements of a [try] block that update a local dictionary, run in
    order: the dictionary as it stands when the block is left, and the
    exception that ended it, if any. *)
Fixpoint try_block {S} (stmts : list (S → M S)) (s : S) : M (S * option exn) :=
  match stmts with
  | [] => mret (s, None)
  | st :: rest =>
      λ w, match st s w with
           | (Ok s', w') => try_block rest s' w'
           | (Raise e, w') => (Ok (s, Some e), w')
           end
  end.

(** ** The module [archive_converters] *)

Section archive_converters.

Context (E : Env).

(** *** The third-party libraries and the tools, as the module calls them *)

(** The members of the files below a directory: their paths relative to
    it and their contents. *)
Definition members_below (m : gmap path node) (d : path) : list member :=
  omap (λ full, match m !! full with
                | Some (File c) => Some (PyPath.relpath full d, c)
                | _ => None
                end) (walk_order E (Os.files_below m d)).

(** [rf = rarfile.RarFile(p); rf.extractall(out_dir, pwd=)] *)
Definition RarFile_extractall (p out_dir : path) (pwd : option string) : M unit :=
  log (EvRarfileExtractall p out_dir pwd) ;;
  n ← gets (λ w, fs w !! p);
  tool ← gets UNRAR_TOOL;
  let r := rarfile_extractall E tool n pwd in
  Os.put_members out_dir r.1 ;;
  match r.2 with
  | Some msg => raise (LibError "rarfile" msg)
  | None => mret tt
  end.

(** [with rarfile.RarFile(p) as rf: rf.namelist()] *)
Definition RarFile_namelist (p : path) : M (list string) :=
  n ← gets (λ w, fs w !! p);
  tool ← gets UNRAR_TOOL;
  match rarfile_namelist E tool n with
  | inl r => mret r
  | inr msg => raise (LibError "rarfile" msg)
  end.

(** [[f.file_size for f in rf.infolist()]] *)
Definition RarFile_infolist (p : path) : M (list Z) :=
  n ← gets (λ w, fs w !! p);
  tool ← gets UNRAR_TOOL;
  match rarfile_infolist E tool n with
  | inl r => mret r
  | inr msg => raise (LibError "rarfile" msg)
  end.

(** [with py7zr.SevenZipFile(p, mode='r', password=) as a: a.extractall(path=out_dir)] *)
Definition SevenZipFile_extractall (p : path) (password : option string)
    (out_dir : path) : M unit :=
  log (EvPy7zrRead p password) ;;
  n ← gets (λ w, fs w !! p);
  let r := py7zr_extractall E n password in
  Os.put_members out_dir r.1 ;;
  match r.2 with
  | Some msg => raise (LibError "py7zr" msg)
  | None => mret tt
  end.

(** [with py7zr.SevenZipFile(p, 'r') as a: a.getnames()] *)
Definition SevenZipFile_getnames (p : path) : M (list string) :=
  n ← gets (λ w, fs w !! p);
  match py7zr_getnames E n with
  | inl r => mret r
  | inr msg => raise (LibError "py7zr" msg)
  end.

(** [[f.uncompressed for f in a.list()]] *)
Definition SevenZipFile_list (p : path) : M (list (option Z)) :=
  n ← gets (λ w, fs w !! p);
  match py7zr_list E n with
  | inl r => mret r
  | inr msg => raise (LibError "py7zr" msg)
  end.

(** [with py7zr.SevenZipFile(p, 'w', password=, filters=[{id: LZMA2,
    preset: preset}]) as a: a.writeall(src_dir, base)]: the file is opened
    for writing, then filled. *)
Definition SevenZipFile_writeall (p : path) (password : option string) (preset : Z)
    (src_dir : path) (base : string) : M unit :=
  log (EvPy7zrWrite p password preset) ;;
  Os.write_file p (Raw []) ;;
  ms ← gets (λ w, members_below (fs w) src_dir);
  match py7zr_writeall E password preset base ms with
  | inl c => modify_fs (insert p (File c))
  | inr msg => raise (LibError "py7zr" msg)
  end.

(** [pyminizip.compress_multiple(file_list, prefix_list, out, password, level)] *)
Definition pyminizip_compress (files : list path) (file_list prefix_list : list string)
    (out : path) (password : string) (level : Z) : M unit :=
  log (EvPyminizip file_list prefix_list out password level) ;;
  srcs ← gets (λ w, omap (λ f, match fs w !! f with
                               | Some (File c) => Some (PyPath.render f, c)
                               | _ => None
                               end) files);
  match pyminizip_compress_multiple E srcs prefix_list password level with
  | inl c => Os.write_file out c
  | inr msg => raise (LibError "pyminizip" msg)
  end.

(** What [7z x] does: the files it extracts land below [out_dir]. *)
Definition sevenzip_extract (archive out_dir : path) (password : option string) : M Z :=
  n ← gets (λ w, fs w !! archive);
  let r := sevenzip_x E n password in
  Os.put_members out_dir r.2 ;;
  mret r.1.

(** What [7z a -tzip] does: the archive it writes lands at [out]. *)
Definition sevenzip_add_zip (src_dir out : path) (password : string) : M Z :=
  ms ← gets (λ w, members_below (fs w) src_dir);
  n ← gets (λ w, fs w !! out);
  let r := sevenzip_a_zip E ms password n in
  match r.2 with
  | Some c => Os.put_members [] [(out, c)]
  | None => mret tt
  end ;;
  mret r.1.

(** What [rar a] run inside [cwd] does: the archive lands at [out]. *)
Definition rar_add (cwd out : path) (password volume_size : option string) : M Z :=
  ms ← gets (λ w, members_below (fs w) cwd);
  n ← gets (λ w, fs w !! out);
  let r := rar_a E ms password volume_size n in
  match r.2 with
  | Some c => Os.put_members [] [(out, c)]
  | None => mret tt
  end ;;
  mret r.1.

(** *** Utilities *)

Definition _ensure_dir (p : path) : M unit := Os.makedirs p.

(** The first candidate that [shutil.which] finds. *)
Fixpoint _detect_tool (candidates : list string) : option string :=
  match candidates with
  | [] => None
  | name :: rest =>
      let p := which E name in
      if PyStr.truthy p then p else _detect_tool rest
  end.

Definition _zip_directory (src_dir out_zip_path : path) (compress : bool) : M path :=
  _ensure_dir (PyPath.parent out_zip_path) ;;
  Zipfile.with_ZipFile_w out_zip_path
    (fs_ ← Os.walk_files E src_dir;
     for_each fs_ (λ full,
       let arc := PyPath.relpath full src_dir in
       Zipfile.write out_zip_path full arc)) ;;
  mret out_zip_path.

Definition create_7z_archive (src_dir out_7z_path : path) (password : option string)
    (compression_level : Z) : M path :=
  _ensure_dir (PyPath.parent out_7z_path) ;;
  SevenZipFile_writeall out_7z_path password compression_level
    src_dir (PyPath.name src_dir) ;;
  mret out_7z_path.

Definition extract_7z_archive (archive_path out_dir : path) (password : option string)
    : M path :=
  _ensure_dir out_dir ;;
  SevenZipFile_extractall archive_path password out_dir ;;
  mret out_dir.

Definition create_password_protected_zip (src_dir out_zip_path : path)
    (password : string) (compression_level : Z) : M path :=
  (if pyminizip_importable E then mret tt
   else raise (ModuleNotFoundError "No module named 'pyminizip'")) ;;
  _ensure_dir (PyPath.parent out_zip_path) ;;
  fs_ ← Os.walk_files E src_dir;
  let file_list := List.map PyPath.render fs_ in
  let prefix_list := List.map (λ f, PyPath.render_rel (PyPath.relpath f src_dir)) fs_ in
  pyminizip_compress fs_ file_list prefix_list out_zip_path password compression_level ;;
  mret out_zip_path.

Definition create_password_zip_alternative (src_dir out_zip_path : path)
    (password : string) : M path :=
  match _detect_tool ["7z"; "7za"; "7zz"] with
  | None => raise (RuntimeError "7-Zip required for password-protected archives")
  | Some sevenz =>
      let cmd := [sevenz; "a"; "-tzip"; "-p" +:+ password;
                  PyPath.render out_zip_path; PyPath.render src_dir +:+ "/*"] in
      Subprocess.run cmd None (sevenzip_add_zip src_dir out_zip_path password) ;;
      mret out_zip_path
  end.

Definition _extract_with_7z (archive_path out_dir : path) (password : option string)
    : M path :=
  match _detect_tool ["7z"; "7za"; "7zz"] with
  | None => raise (RuntimeError "7-Zip (7z) not found. Install 7-Zip or add it to PATH.")
  | Some sevenz =>
      let cmd := [sevenz; "x"; "-y"; "-o" +:+ PyPath.render out_dir;
                  PyPath.render archive_path] in
      let cmd := match password with
                 | Some pw => if PyStr.truthy password
                              then list_insert_at 2 ("-p" +:+ pw) cmd else cmd
                 | None => cmd
                 end in
      Subprocess.run cmd None
        (sevenzip_extract archive_path out_dir
           (if PyStr.truthy password then password else None)) ;;
      mret out_dir
  end.

(** [a or b] on optional strings *)
Definition py_or (a b : option string) : option string :=
  if PyStr.truthy a then a else b.

Definition _rarfile_can_extract : M bool :=
  if negb (rarfile_imported E) then mret false
  else
    let tool_env := py_or (environ E "RARFILE_UNRAR_TOOL") (environ E "UNRAR_PATH") in
    match tool_env with
    | Some t =>
        if PyStr.truthy tool_env then
          ex ← Os.exists_ (PyPath.parse t);
          if ex : bool then set_UNRAR_TOOL t else mret tt
        else mret tt
    | None => mret tt
    end ;;
    mret true.

Definition extract_archive (file_path out_dir : path) (password : option string)
    : M path :=
  _ensure_dir out_dir ;;
  let lower := PyStr.lower (PyPath.render file_path) in
  if PyStr.endswith lower ".zip" then
    zf ← Zipfile.open_r file_path;
    Zipfile.extractall E zf (if PyStr.truthy password then password else None) out_dir ;;
    mret out_dir
  else if (PyStr.endswith lower ".tar" || PyStr.endswith lower ".tar.gz"
           || PyStr.endswith lower ".tgz")%bool then
    tf ← Tarfile.open_r file_path;
    Tarfile.extractall tf out_dir ;;
    mret out_dir
  else if PyStr.endswith lower ".rar" then
    can ← _rarfile_can_extract;
    done_ ← (if can : bool
             then try_except (RarFile_extractall file_path out_dir password ;; mret true)
                             (λ _, mret false)
             else mret false);
    if done_ : bool then mret out_dir
    else _extract_with_7z file_path out_dir password
  else
    try_except (_extract_with_7z file_path out_dir password)
      (λ _, raise (ValueError ("Unsupported archive type or missing extractor: "
                               +:+ PyPath.render file_path))).

Definition zip_to_rar (zip_path out_rar_path : path) (password volume_size : option string)
    : M path :=
  ex ← Os.exists_ zip_path;
  if negb ex then raise (FileNotFoundError (PyPath.render zip_path))
  else
    match _detect_tool ["rar"; "winrar"; "WinRAR"] with
    | None => raise (RuntimeError "RAR creation requires WinRAR (rar.exe) in PATH.")
    | Some rar_cli =>
        Os.with_TemporaryDirectory (λ tmp,
          let extract_dir := PyPath.join tmp "zip_extract" in
          _ensure_dir extract_dir ;;
          zf ← Zipfile.open_r zip_path;
          Zipfile.extractall E zf None extract_dir ;;
          let cmd := [rar_cli; "a"; "-r"; "-ep1"] in
          let cmd := match password with
                     | Some pw => if PyStr.truthy password then cmd ++ ["-p" +:+ pw] else cmd
                     | None => cmd
                     end in
          let cmd := match volume_size with
                     | Some v => if PyStr.truthy volume_size then cmd ++ ["-v" +:+ v] else cmd
                     | None => cmd
                     end in
          let cmd := cmd ++ [PyPath.render out_rar_path] in
          let cmd := cmd ++ ["."] in
          Subprocess.run cmd (Some extract_dir)
            (rar_add extract_dir out_rar_path
               (if PyStr.truthy password then password else None)
               (if PyStr.truthy volume_size then volume_size else None))) ;;
        mret out_rar_path
    end.

Definition rar_to_zip (rar_path out_zip_path : path) (password : option string) : M path :=
  ex ← Os.exists_ rar_path;
  if negb ex then raise (FileNotFoundError (PyPath.render rar_path))
  else
    Os.with_TemporaryDirectory (λ tmp,
      let extract_dir := PyPath.join tmp "extracted" in
      _ensure_dir extract_dir ;;
      can ← _rarfile_can_extract;
      extracted ← (if can : bool
                   then try_except
                          (RarFile_extractall rar_path extract_dir password ;; mret true)
                          (λ _, mret false)
                   else mret false);
      (if negb extracted
       then _extract_with_7z rar_path extract_dir password ;; mret tt
       else mret tt) ;;
      _zip_directory extract_dir out_zip_path true).

(** The first half of the body of [convert_archive_format]: extract based
    on the input format. *)
Definition convert_extract (input_ext : string) (input_path extract_dir : path)
    (password : option string) : M unit :=
  if String.eqb input_ext ".zip" then
    extract_archive input_path extract_dir password ;; mret tt
  else if String.eqb input_ext ".rar" then
    extract_archive input_path extract_dir password ;; mret tt
  else if String.eqb input_ext ".7z" then
    extract_7z_archive input_path extract_dir password ;; mret tt
  else raise (ValueError ("Unsupported input format: " +:+ input_ext)).

(** The second half: create the archive in the output format. *)
Definition convert_create (output_ext : string) (extract_dir output_path : path)
    (password : option string) (compression_level : Z) : M path :=
  if String.eqb output_ext ".zip" then
    match password with
    | Some pw =>
        if PyStr.truthy password
        then create_password_protected_zip extract_dir output_path pw compression_level
        else _zip_directory extract_dir output_path true
    | None => _zip_directory extract_dir output_path true
    end
  else if String.eqb output_ext ".7z" then
    create_7z_archive extract_dir output_path password compression_level
  else if String.eqb output_ext ".rar" then
    zip_to_rar (PyPath.add_text extract_dir ".zip") output_path password None
  else raise (ValueError ("Unsupported output format: " +:+ output_ext)).

Definition convert_archive_format (input_path output_path : path)
    (password : option string) (compression_level : Z) : M path :=
  let input_ext := PyStr.lower (PyPath.suffix input_path) in
  let output_ext := PyStr.lower (PyPath.suffix output_path) in
  Os.with_TemporaryDirectory (λ temp_dir,
    let extract_dir := PyPath.join temp_dir "extracted" in
    convert_extract input_ext input_path extract_dir password ;;
    convert_create output_ext extract_dir output_path password compression_level).

(** The ratio line: [(1 - size / total_uncompressed) * 100], in floats. *)
Definition ratio_of (sz total : Z) : pynum :=
  PyFloat ((1 - float_of_size sz / float_of_size total) * 100)%float.

(** [info['total_uncompressed'] += u if u else 0] *)
Definition add_uncompressed (i : info) (u : option Z) : info :=
  set_total_uncompressed
    (total_uncompressed i + match u with
                            | Some z => if z =? 0 then 0 else z
                            | None => 0
                            end) i.

(** The statements of the branch of the [try] block that matches the
    format.  The test of the [.rar] branch calls [_rarfile_can_extract],
    which never raises. *)
Definition analyze_branch (fmt : string) (archive_path : path)
    : M (list (info → M info)) :=
  if String.eqb fmt ".zip" then
    mret [λ i, zf ← Zipfile.open_r archive_path;
               let i := set_files (Zipfile.namelist zf) i in
               mret (set_total_uncompressed
                       (foldr Z.add 0 (List.map (λ m, Os.byte_size E m.2) zf.2)) i)]
  else if String.eqb fmt ".7z" then
    mret [λ i, names ← SevenZipFile_getnames archive_path;
               mret (set_files names i);
          λ i, us ← SevenZipFile_list archive_path;
               mret (foldl add_uncompressed i us)]
  else if String.eqb fmt ".rar" then
    can ← _rarfile_can_extract;
    if can : bool then
      mret [λ i, names ← RarFile_namelist archive_path;
                 mret (set_files names i);
            λ i, sizes ← RarFile_infolist archive_path;
                 mret (set_total_uncompressed (foldr Z.add 0 sizes) i)]
    else mret []
  else mret [].

(** The last statement of the [try] block. *)
Definition analyze_ratio (i : info) : M info :=
  if 0 <? total_uncompressed i
  then mret (set_compression_ratio (ratio_of (size i) (total_uncompressed i)) i)
  else mret i.

Definition analyze_archive_info (archive_path : path) : M info :=
  let fmt := PyStr.lower (PyPath.suffix archive_path) in
  sz ← Os.getsize E archive_path;
  let info0 := Info fmt sz [] (PyInt 0) 0 None in
  read ← analyze_branch fmt archive_path;
  r ← try_block (read ++ [analyze_ratio]) info0;
  match r.2 with
  | Some e => mret (set_error (str_exn e) r.1)
  | None => mret r.1
  end.

End archive_converters.

(** ** A concrete environment

    One installation to run the module on: which tools are on the PATH and
    which libraries import is chosen by flags; the libraries and tools read
    the archives by their format and check the password by comparison.
    The check byte of ZipCrypto is played by the sum of the bytes of the
    password modulo 256: a wrong password with the sum of the right one
    gets past it and reads garbage, which ends in a wrong CRC-32. *)

Module Demo.

Definition check_byte (s : string) : Z :=
  foldr (λ a acc, Z.of_N (N_of_ascii a) + acc) 0 (list_ascii_of_string s) mod 256.

Definition unlocks (enc pwd : option string) : bool :=
  match enc with
  | None => true
  | Some pw => bool_decide (pwd = Some pw)
  end.

Record setup := Setup {
  has_7z : bool;
  has_rar_cli : bool;
  has_rarfile : bool;
  rarfile_breaks : bool;
  has_pyminizip : bool
}.

Definition env (s : setup) : Env := {|
  which nm :=
    if (String.eqb nm "7z" && has_7z s)%bool then Some "/usr/bin/7z"
    else if (String.eqb nm "rar" && has_rar_cli s)%bool then Some "/usr/bin/rar"
    else None;
  environ _ := None;
  rarfile_imported := has_rarfile s;
  pyminizip_importable := has_pyminizip s;
  walk_order l := l;
  zipcrypto_slip pw pwd _ :=
    if check_byte pw =? check_byte pwd then Some (BadCrc32 (Raw [])) else None;
  encoded_size _ _ ms := 4 * Z.of_nat (length ms);
  rarfile_extractall _ n pwd :=
    if rarfile_breaks s then ([], Some "Cannot find working tool")
    else match n with
         | Some (File (Arc Rar enc ms)) =>
             if unlocks enc pwd then (ms, None) else ([], Some "Bad password")
         | _ => ([], Some "Not a RAR file")
         end;
  rarfile_namelist _ n :=
    if rarfile_breaks s then inr "Cannot find working tool"
    else match n with
         | Some (File (Arc Rar _ ms)) => inl (List.map (λ m, PyPath.render_rel m.1) ms)
         | _ => inr "Not a RAR file"
         end;
  rarfile_infolist _ n :=
    match n with
    | Some (File (Arc Rar _ ms)) =>
        inl (List.map (λ m, match m.2 with Raw bs => Z.of_nat (length bs) | _ => 0 end) ms)
    | _ => inr "Not a RAR file"
    end;
  py7zr_extractall n pwd :=
    match n with
    | Some (File (Arc SevenZip enc ms)) =>
        if unlocks enc pwd then (ms, None) else ([], Some "Corrupt input data")
    | _ => ([], Some "not a 7z file")
    end;
  py7zr_getnames n :=
    match n with
    | Some (File (Arc SevenZip _ ms)) => inl (List.map (λ m, PyPath.render_rel m.1) ms)
    | _ => inr "not a 7z file"
    end;
  py7zr_list n :=
    match n with
    | Some (File (Arc SevenZip _ ms)) =>
        inl (List.map (λ m, match m.2 with
                            | Raw bs => Some (Z.of_nat (length bs))
                            | _ => None
                            end) ms)
    | _ => inr "not a 7z file"
    end;
  py7zr_writeall pw preset base ms :=
    if ((0 <=? preset) && (preset <=? 9))%bool
    then inl (Arc SevenZip pw (List.map (λ m, (base :: m.1, m.2)) ms))
    else inr "Invalid or unsupported options";
  pyminizip_compress_multiple srcs prefixes pw level :=
    inl (Arc Zip (Some pw)
           (List.map (λ sp, (PyPath.parse sp.2 ++ [PyPath.name (PyPath.parse sp.1.1)], sp.1.2))
                     (zip srcs prefixes)));
  sevenzip_x n pwd :=
    match n with
    | Some (File (Arc _ enc ms)) => if unlocks enc pwd then (0, ms) else (2, [])
    | _ => (2, [])
    end;
  sevenzip_a_zip ms pw _ := (0, Some (Arc Zip (Some pw) ms));
  rar_a ms pw _ _ := (0, Some (Arc Rar pw ms))
|}.

Definition all_installed : setup := Setup true true true false true.
Definition nothing_installed : setup := Setup false false false false false.

Definition hello : content := Raw (String.list_byte_of_string "hello").
Definition world_ : content := Raw (String.list_byte_of_string "world").

Definition mk_world (m : gmap path node) : world := World m [] "unrar" ∅.

(** A disk with a source tree and a few archives. *)
Definition disk : gmap path node :=
  list_to_map [
    (["tmp"], Dir);
    (["data"], Dir);
    (["data"; "src"], Dir);
    (["data"; "src"; "a.txt"], File hello);
    (["data"; "src"; "b"], Dir);
    (["data"; "src"; "b"; "c.txt"], File world_);
    (["data"; "plain.zip"], File (Arc Zip None [(["a.txt"], hello); (["b"; "c.txt"], world_)]));
    (["data"; "locked.zip"], File (Arc Zip (Some "s3cret") [(["a.txt"], hello)]));
    (["data"; "locked.7z"], File (Arc SevenZip (Some "s3cret") [(["a.txt"], hello)]));
    (["data"; "broken.7z"], File (Raw []));
    (["data"; "broken.zip"], File (Raw []));
    (["data"; "in.rar"], File (Arc Rar None [(["a.txt"], hello)]));
    (["data"; "in.tar"], File (Arc Tar None [(["a.txt"], hello)]))
  ].

Definition w0 : world := mk_world disk.

(** [rarfile] imports but its reader fails; 7-Zip is on the PATH. *)
Definition rarfile_broken : setup := Setup true false true true false.

(** 7-Zip is on the PATH; [pyminizip] is not installed. *)
Definition only_7z : setup := Setup true false false false false.


(** The disk once the directory [/out] is made. *)
Definition w_out : world := (_ensure_dir ["out"] w0).2.

End Demo.

(** ** Predicates and sample runs used in the statements *)

(** The ratio of a report follows the formula of the source. *)
Definition ratio_ok (i : info) : Prop :=
  compression_ratio i =
    if 0 <? total_uncompressed i
    then ratio_of (size i) (total_uncompressed i)
    else PyInt 0.

(** The report on a file named [.zip] that is no ZIP archive. *)
Definition broken_zip_report : result info :=
  Eval vm_compute in
    (analyze_archive_info (Demo.env Demo.all_installed) ["data"; "broken.zip"] Demo.w0).1.

(** The report on the two-member archive [plain.zip]. *)
Definition plain_zip_report : result info :=
  Eval vm_compute in
    (analyze_archive_info (Demo.env Demo.all_installed) ["data"; "plain.zip"] Demo.w0).1.

(** The filesystem is the same outside the paths in [W]. *)
Definition frame (W : path → Prop) (w w' : world) : Prop :=
  ∀ p, ¬ W p → fs w' !! p = fs w !! p.

(** Every exception but the [ValueError] that rejects an input format. *)
Definition allowed (e : exn) : Prop :=
  match e with
  | ValueError msg => PyStr.startswith msg "Unsupported input format: " = false
  | _ => True
  end.

Definition obeys {A} (W : path → Prop) (m : M A) : Prop :=
  ∀ w r w', m w = (r, w') →
    frame W w w' ∧ match r with Raise e => allowed e | Ok _ => True end.

(** At or above [d], or below it. *)
Definition along (d p : path) : Prop := p `prefix_of` d ∨ d `prefix_of` p.

(** The world as the body of [with tempfile.TemporaryDirectory()] finds
    it: the new directory is there. *)
Definition entered (w : world) : world :=
  World (<[Os.fresh_tmp (fs w) := Dir]> (fs w)) (trace w) (UNRAR_TOOL w) (zip_open w).

(** The staging directory of a conversion started in [w]. *)
Definition staging_dir (w : world) : path :=
  PyPath.join (Os.fresh_tmp (fs w)) "extracted".

(** The first attempt of [extract_archive] on a RAR archive, as it stands
    in the source: the in-process reader when [rarfile] is there, any
    exception of which is swallowed. *)
Definition rar_in_process_attempt (E : Env) (file_path out_dir : path)
    (password : option string) : M bool :=
  can ← _rarfile_can_extract E;
  if can : bool
  then try_except (RarFile_extractall E file_path out_dir password ;; mret true)
                  (λ _, mret false)
  else mret false.

(** The external commands among the recorded calls. *)
Definition subprocess_calls (t : list event) : list (list string) :=
  omap (λ ev, match ev with EvSubprocess cmd _ => Some cmd | _ => None end) t.

(** The command line [7z x [-p<password>] -y -o<dir> <archive>]. *)
Definition sevenzip_x_cmd (sevenz : string) (archive out_dir : path)
    (password : option string) : list string :=
  [sevenz; "x"]
  ++ match password with
     | Some pw => if PyStr.truthy password then ["-p" +:+ pw] else []
     | None => []
     end
  ++ ["-y"; "-o" +:+ PyPath.render out_dir; PyPath.render archive].

(** The tool-missing errors of the module. *)
Definition is_tool_not_found (e : exn) : bool :=
  match e with
  | RuntimeError msg =>
      (String.eqb msg "7-Zip (7z) not found. Install 7-Zip or add it to PATH."
       || String.eqb msg "7-Zip required for password-protected archives"
       || String.eqb msg "RAR creation requires WinRAR (rar.exe) in PATH.")%bool
  | _ => false
  end.

(** The world with another filesystem. *)
Definition with_fs (m : gmap path node) (w : world) : world :=
  World m (trace w) (UNRAR_TOOL w) (zip_open w).

(** The content of the regular file at a path, if there is one. *)
Definition file_at (m : gmap path node) (p : path) : option content :=
  match m !! p with
  | Some (File c) => Some c
  | _ => None
  end.

(** A filesystem in which everything lives in a directory: what is above an
    existing path is a directory. *)
Definition fs_wf (m : gmap path node) : Prop :=
  ∀ p q, is_Some (m !! p) → q `prefix_of` p → q ≠ p → q ≠ [] → m !! q = Some Dir.

(** No regular file is in the way of making the directory [d]. *)
Definition creatable (m : gmap path node) (d : path) : Prop :=
  ∀ q c, q `prefix_of` d → m !! q ≠ Some (File c).

(** Nothing is at [d] nor below it. *)
Definition vacant (m : gmap path node) (d : path) : Prop :=
  ∀ p, d `prefix_of` p → m !! p = None.

(** Member names as the files of one directory tree have them: not empty,
    and none of them above another one. *)
Definition names_ok (ms : list member) : Prop :=
  NoDup (ms.*1)
  ∧ (∀ m, m ∈ ms → m.1 ≠ [])
  ∧ (∀ m1 m2, m1 ∈ ms → m2 ∈ ms → m1.1 `prefix_of` m2.1 → m1.1 = m2.1).

(** A password that opens an archive encrypted with [enc]. *)
Definition unlocks (enc pwd : option string) : Prop :=
  match enc with
  | None => True
  | Some pw => pwd = Some pw ∧ pw ≠ ""
  end.

(** The state of the disk while members are being extracted below [out]:
    outside [out] it is as in [m1]; below [out], the regular files are the
    members extracted so far and the directories are those above them. *)
Definition extracting (out : path) (m1 : gmap path node) (done_ : list member)
    (m : gmap path node) : Prop :=
  (∀ p, ¬ out `prefix_of` p → m !! p = m1 !! p)
  ∧ (∀ rel c, m !! (out ++ rel) = Some (File c) ↔ (rel, c) ∈ done_)
  ∧ (∀ rel, m !! (out ++ rel) = Some Dir
            ↔ rel = [] ∨ ∃ mb, mb ∈ done_ ∧ rel `prefix_of` mb.1 ∧ rel ≠ mb.1).

(** Executable forms of the conditions on a disk, to check a given one. *)
Definition is_dir_opt (o : option node) : bool :=
  match o with
  | Some Dir => true
  | _ => false
  end.

Definition is_file_opt (o : option node) : bool :=
  match o with
  | Some (File _) => true
  | _ => false
  end.

Definition fs_wf_b (m : gmap path node) : bool :=
  forallb (λ kv, forallb (λ q, is_dir_opt (m !! q))
                   (PyPath.ancestors_or_self (PyPath.parent kv.1)))
          (map_to_list m).

Definition creatable_b (m : gmap path node) (d : path) : bool :=
  forallb (λ q, negb (is_file_opt (m !! q))) ([] :: PyPath.ancestors_or_self d).

Definition vacant_b (m : gmap path node) (d : path) : bool :=
  match map_to_list (filter (λ kv, d `prefix_of` kv.1) m) with
  | [] => true
  | _ => false
  end.



(** ** Names that extraction takes as they are *)

(** A member name that extraction takes as it is: no component of it is
    empty, [.] or [..], and none holds a separator. *)
Definition plain_component (c : string) : bool :=
  negb (String.eqb c "") && negb (String.eqb c ".") && negb (String.eqb c "..")
  && forallb (λ a, negb (Ascii.eqb a "/"%char)) (list_ascii_of_string c).

Definition plain_names (ms : list member) : Prop :=
  ∀ m c, m ∈ ms → c ∈ m.1 → plain_component c = true.

(** The names that [extract_archive] reads with [tarfile]. *)
Definition tar_route (p : path) : bool :=
  let lower := PyStr.lower (PyPath.render p) in
  negb (PyStr.endswith lower ".zip")
  && (PyStr.endswith lower ".tar" || PyStr.endswith lower ".tar.gz"
      || PyStr.endswith lower ".tgz").

(** Executable forms of the conditions on member names. *)
Definition names_ok_b (ms : list member) : bool :=
  bool_decide (NoDup ms.*1)
  && forallb (λ m : member, bool_decide (m.1 ≠ [])) ms
  && forallb (λ m1 : member,
       forallb (λ m2 : member, bool_decide (m1.1 `prefix_of` m2.1 → m1.1 = m2.1)) ms) ms.

Definition plain_names_b (ms : list member) : bool :=
  forallb (λ m : member, forallb plain_component m.1) ms.

(** ** Splitting an archive into parts and merging the parts *)

(** Whether a string holds nothing but dots. *)
Fixpoint all_dots (s : string) : bool :=
  match s with
  | EmptyString => true
  | String c s' => Ascii.eqb c "."%char && all_dots s'
  end.

(** [os.path.splitext] on a file name: the name is cut at its last dot,
    unless nothing but dots comes before that dot. *)
Definition splitext (nm : string) : string * string :=
  match PyStr.rfind_dot nm with
  | Some i =>
      let root := String.substring 0 i nm in
      if all_dots root then (nm, "")
      else (root, String.substring i (String.length nm - i) nm)
  | None => (nm, "")
  end.

(** [os.path.splitext(p)[0]] *)
Definition splitext_root (p : path) : path :=
  match List.rev p with
  | [] => []
  | nm :: r => List.rev r ++ [(splitext nm).1]
  end.

Fixpoint zeros (k : nat) : string :=
  match k with
  | O => ""
  | S k' => String "0"%char (zeros k')
  end.

(** [f"{n:03d}"]: the decimal digits, padded with zeros to three. *)
Definition fmt_03d (n : nat) : string :=
  let s := NilEmpty.string_of_uint (Nat.to_uint n) in
  zeros (3 - String.length s) +:+ s.

(** [f"{base_name}.{part_num:03d}"] *)
Definition part_name (base_name : path) (part_num : nat) : path :=
  PyPath.add_text base_name ("." +:+ fmt_03d part_num).

(** The order in which [sorted] puts path strings: by code points. *)
Definition path_le (p q : path) : Prop :=
  String.leb (PyPath.render p) (PyPath.render q) = true.

#[global] Instance path_le_dec : RelDecision path_le :=
  λ p q, decide (String.leb (PyPath.render p) (PyPath.render q) = true).

Section split_merge.

(** The bytes of an archive as it lies on disk, which its writer chose. *)
Context (arc_bytes : ArchiveKind → option string → list member → list Byte.byte).

(** The bytes of a file. *)
Definition file_bytes (c : content) : list Byte.byte :=
  match c with
  | Raw bs => bs
  | Arc k pw ms => arc_bytes k pw ms
  end.

(** [open(p, 'rb')] *)
Definition open_rb (p : path) : M unit :=
  n ← Os.stat p;
  match n with
  | Some (File _) => mret tt
  | Some Dir => raise (IsADirectoryError (PyPath.render p))
  | None => raise (FileNotFoundError (PyPath.render p))
  end.

(** The bytes of the file at a path, as they are on disk. *)
Definition bytes_at (m : gmap path node) (p : path) : list Byte.byte :=
  match Os.node_at m p with
  | Some (File c) => file_bytes c
  | _ => []
  end.

(** [source.read(size)] on the file open at [p], [pos] bytes of which have
    been read: a size below -1 is refused, -1 asks for all that is left.
    The file is read as it is on disk at that moment. *)
Definition read_at (p : path) (pos : nat) (size : Z) : M (list Byte.byte) :=
  if size <? -1 then raise (ValueError "read length must be non-negative or -1")
  else
    rest ← gets (λ w, drop pos (bytes_at (fs w) p));
    mret (if size =? -1 then rest else take (Z.to_nat size) rest).

(** The [while True] loop of [split_archive].  It is left when a read
    returns nothing, which comes after one round per byte of the file at
    most; [rounds] is that bound. *)
Fixpoint split_loop (rounds : nat) (archive_path base_name : path) (part_size : Z)
    (pos part_num : nat) (part_files : list path) : M (list path) :=
  match rounds with
  | O => mret part_files
  | S rounds' =>
      chunk ← read_at archive_path pos part_size;
      match chunk with
      | [] => mret part_files
      | _ :: _ =>
          let part_path := part_name base_name part_num in
          Os.write_file part_path (Raw chunk) ;;
          split_loop rounds' archive_path base_name part_size
            (pos + length chunk) (S part_num) (part_files ++ [part_path])
      end
  end.

Definition split_archive (archive_path : path) (part_size_mb : Z) : M (list path) :=
  let part_size := part_size_mb * 1024 * 1024 in
  let base_name := splitext_root archive_path in
  open_rb archive_path ;;
  rounds ← gets (λ w, S (length (bytes_at (fs w) archive_path)));
  split_loop rounds archive_path base_name part_size 0 1 [].

(** [output.write(bs)] on the file open for writing at [out] *)
Definition append_bytes (out : path) (bs : list Byte.byte) : M unit :=
  modify_fs (alter (λ n, match n with
                         | File c => File (Raw (file_bytes c ++ bs))
                         | Dir => Dir
                         end) out).

Definition merge_archive_parts (part_files : list path) (output_path : path) : M path :=
  _ensure_dir (PyPath.parent output_path) ;;
  Os.write_file output_path (Raw []) ;;
  for_each (merge_sort path_le part_files) (λ part_file,
    c ← Os.read_file part_file;
    append_bytes output_path (file_bytes c)) ;;
  mret output_path.

End split_merge.

(** A layout to run the splitting on: every archive is four bytes a
    member. *)
Definition sample_arc_bytes (k : ArchiveKind) (pw : option string) (ms : list member)
    : list Byte.byte :=
  List.concat (List.map (λ _, String.list_byte_of_string "arch") ms).

(** ** Extracting chosen files, and creating an archive by its extension *)

Section more_of_the_module.

Context (E : Env).

(** [py7zr.SevenZipFile(p, 'r', password=).extract(targets=, path=)]: the
    members written and the error raised, if any. *)
Context (py7zr_extract : option node → option string → list string
                         → list member * option string).

(** [rarfile.RarFile(p).extract(name, out, pwd=)], given [UNRAR_TOOL] *)
Context (rarfile_extract : string → option node → string → option string
                           → list member * option string).

(** [tarfile.open(out, mode)] followed by [tf.add(files_dir, arcname=".")],
    given whether the mode is [w:gz], what is at [files_dir] and the files
    below it: what the output file holds in the end, and the exception
    raised, if any. *)
Context (tarfile_add : bool → option node → list member → content * option exn).

(** [zf.getinfo(name)]: the last entry under that name. *)
Definition zip_getinfo (zf : option string * list member) (name : string) : option member :=
  List.find (λ m, String.eqb (PyPath.render_rel m.1) name) (List.rev zf.2).

(** [zf.extract(name, out_dir)] *)
Definition zip_extract (zf : option string * list member) (pwd : option string)
    (name : string) (out_dir : path) : M unit :=
  match zip_getinfo zf name with
  | Some m => Zipfile.extract_one E zf.1 pwd out_dir m
  | None => raise (LibError "zipfile" ("There is no item named '" +:+ name
                                       +:+ "' in the archive"))
  end.

Definition SevenZipFile_extract (p : path) (password : option string)
    (targets : list string) (out_dir : path) : M unit :=
  n ← gets (λ w, fs w !! p);
  let r := py7zr_extract n password targets in
  Os.put_members out_dir r.1 ;;
  match r.2 with
  | Some msg => raise (LibError "py7zr" msg)
  | None => mret tt
  end.

Definition RarFile_extract (p : path) (name : string) (out_dir : path)
    (pwd : option string) : M unit :=
  n ← gets (λ w, fs w !! p);
  tool ← gets UNRAR_TOOL;
  let r := rarfile_extract tool n name pwd in
  Os.put_members out_dir r.1 ;;
  match r.2 with
  | Some msg => raise (LibError "rarfile" msg)
  | None => mret tt
  end.

Definition extract_specific_files (archive_path : path) (file_list : list string)
    (out_dir : path) (password : option string) : M path :=
  _ensure_dir out_dir ;;
  let ext := PyStr.lower (PyPath.suffix archive_path) in
  (if String.eqb ext ".zip" then
     zf ← Zipfile.open_r archive_path;
     let pwd := if PyStr.truthy password then password else None in
     for_each file_list (λ file_name,
       if bool_decide (file_name ∈ Zipfile.namelist zf)
       then zip_extract zf pwd file_name out_dir
       else mret tt)
   else if String.eqb ext ".7z" then
     SevenZipFile_extract archive_path password file_list out_dir
   else if String.eqb ext ".rar" then
     can ← _rarfile_can_extract E;
     if can : bool then
       names ← RarFile_namelist E archive_path;
       for_each file_list (λ file_name,
         if bool_decide (file_name ∈ names)
         then RarFile_extract archive_path file_name out_dir password
         else mret tt)
     else mret tt
   else mret tt) ;;
  mret out_dir.

(** [with tarfile.open(out, mode) as tf: tf.add(files_dir, arcname=".")] *)
Definition TarFile_add (out : path) (gz : bool) (files_dir : path) : M unit :=
  Os.write_file out (Raw []) ;;
  n ← gets (λ w, fs w !! files_dir);
  ms ← gets (λ w, members_below E (fs w) files_dir);
  let r := tarfile_add gz n ms in
  modify_fs (insert out (File r.1)) ;;
  match r.2 with
  | Some e => raise e
  | None => mret tt
  end.

Definition create_archive (files_dir out_path : path) : M path :=
  let ext := PyStr.lower (PyPath.suffix out_path) in
  let parent := PyPath.parent out_path in
  _ensure_dir parent ;;
  if String.eqb ext ".zip" then
    _zip_directory E files_dir out_path true
  else if (String.eqb ext ".tar" || String.eqb ext ".gz" || String.eqb ext ".tgz")%bool then
    let gz := (String.eqb ext ".gz" || String.eqb ext ".tgz"
               || PyStr.endswith (PyPath.render out_path) ".tar.gz")%bool in
    TarFile_add out_path gz files_dir ;;
    mret out_path
  else raise (ValueError ("Unsupported archive extension: " +:+ ext)).

End more_of_the_module.

(** * Properties *)

(** ** Reasoning about runs *)

Ltac munfold :=
  unfold mbind, mret, M_bind, M_ret, raise, gets, modify_fs, log, set_UNRAR_TOOL,
    modify_zip_open, try_except, finally in *.

(** Splits a run of [x ← m; k] or of a [match] on a run into its cases. *)
Ltac mstep :=
  match goal with
  | H : context [match ?m ?w with (r, w') => _ end] |- _ =>
      let r := fresh "r" in let w1 := fresh "w" in let Hm := fresh "Hrun" in
      destruct (m w) as [r w1] eqn:Hm; try destruct r
  | |- context [match ?m ?w with (r, w') => _ end] =>
      let r := fresh "r" in let w1 := fresh "w" in let Hm := fresh "Hrun" in
      destruct (m w) as [r w1] eqn:Hm; try destruct r
  end.

(** *** The compression ratio *)

Section ratio.

Context (E : Env).


Lemma analyze_ratio_ok i w r w' :
  compression_ratio i = PyInt 0 →
  analyze_ratio i w = (r, w') → ∃ i', r = Ok i' ∧ ratio_ok i' ∧ w' = w.
Proof.
  unfold analyze_ratio, ratio_ok. intros H0 Hrun.
  destruct (0 <? total_uncompressed i) eqn:Hpos; munfold; simplify_eq; eexists;
    (split; [reflexivity|]); simpl; rewrite ?Hpos; auto.
Qed.

End ratio.

Section analysis.

Context (E : Env).

Lemma try_block_total {S} (stmts : list (S → M S)) (s : S) (w : world) :
  ∃ s' oe w', try_block stmts s w = (Ok (s', oe), w').
Proof.
  revert s w. induction stmts as [|st rest IH]; intros s w; simpl.
  - by eexists _, _, _.
  - destruct (st s w) as [[s'|e] w'].
    + apply IH.
    + by eexists _, _, _.
Qed.

Lemma try_block_app {S} (l1 l2 : list (S → M S)) (s : S) (w : world) :
  try_block (l1 ++ l2) s w =
    match try_block l1 s w with
    | (Ok (s', None), w') => try_block l2 s' w'
    | other => other
    end.
Proof.
  revert s w. induction l1 as [|st rest IH]; intros s w; simpl; [done|].
  destruct (st s w) as [[s'|e] w']; [apply IH | done].
Qed.

Lemma foldl_add_uncompressed_keeps (us : list (option Z)) (i : info) :
  compression_ratio (foldl add_uncompressed i us) = compression_ratio i
  ∧ size (foldl add_uncompressed i us) = size i
  ∧ format (foldl add_uncompressed i us) = format i
  ∧ error (foldl add_uncompressed i us) = error i.
Proof.
  revert i. induction us as [|u us IH]; intros i; simpl; [done|].
  destruct (IH (add_uncompressed i u)) as (-> & -> & -> & ->). done.
Qed.

(** While the statements that read the archive run, the ratio is still the
    initial [0]; and when one of them raises, so is the total. *)
Lemma analyze_branch_keeps fmt p sz w read w1 i oe w2 :
  analyze_branch E fmt p w = (Ok read, w1) →
  try_block read (Info fmt sz [] (PyInt 0) 0 None) w1 = (Ok (i, oe), w2) →
  compression_ratio i = PyInt 0 ∧ size i = sz ∧ format i = fmt ∧ error i = None
  ∧ (is_Some oe → total_uncompressed i = 0).
Proof.
  unfold analyze_branch. intros Hb Ht.
  repeat case_match; munfold; simplify_eq; simpl in *;
    repeat (first [ case_match | mstep | progress munfold ]; simplify_eq; simpl in *);
    try (by repeat split; try done; intros [? ?]).
  match goal with
  | |- context [foldl add_uncompressed ?i ?us] =>
      destruct (foldl_add_uncompressed_keeps us i) as (-> & -> & -> & ->)
  end.
  repeat split; done.
Qed.


Lemma getsize_file p w c :
  Os.node_at (fs w) p = Some (File c) → Os.getsize E p w = (Ok (Os.byte_size E c), w).
Proof. intros H. unfold Os.getsize, Os.stat. munfold. by rewrite H. Qed.

Lemma _rarfile_can_extract_total w :
  ∃ w', _rarfile_can_extract E w = (Ok (rarfile_imported E), w') ∧ fs w' = fs w
        ∧ trace w' = trace w ∧ zip_open w' = zip_open w.
Proof.
  unfold _rarfile_can_extract, Os.exists_, Os.stat. munfold.
  destruct (rarfile_imported E); simpl; [|by eexists].
  destruct (py_or _ _) as [t|]; simpl; [|by eexists].
  destruct (String.eqb t ""); simpl; [by eexists|].
  destruct (bool_decide _); simpl; by eexists.
Qed.

Lemma analyze_branch_total fmt p w :
  ∃ read w', analyze_branch E fmt p w = (Ok read, w').
Proof.
  unfold analyze_branch. repeat case_match; munfold; try by eexists _, _.
  destruct (_rarfile_can_extract_total w) as (w' & -> & _).
  case_match; by eexists _, _.
Qed.

(** What [analyze_archive_info] returns once the size of the file is
    known: a report with the format and the size, whose ratio follows the
    formula, and whose error is the text of the exception that ended the
    reading, when there is one. *)
Lemma analyze_archive_info_spec p w sz :
  Os.getsize E p w = (Ok sz, w) →
  ∃ i w', analyze_archive_info E p w = (Ok i, w')
          ∧ format i = PyStr.lower (PyPath.suffix p)
          ∧ size i = sz
          ∧ ratio_ok i
          ∧ (error i = None ∨ ∃ e, error i = Some (str_exn e) ∧ total_uncompressed i = 0).
Proof.
  intros Hf. unfold analyze_archive_info.
  unfold mbind at 1, M_bind at 1. rewrite Hf.
  destruct (analyze_branch_total (PyStr.lower (PyPath.suffix p)) p w) as (read & w1 & Hb).
  unfold mbind at 1, M_bind at 1. rewrite Hb.
  unfold mbind at 1, M_bind at 1. rewrite try_block_app.
  set (i0 := Info _ _ _ _ _ _).
  destruct (try_block_total read i0 w1) as (i1 & oe & w2 & Ht). rewrite Ht.
  destruct (analyze_branch_keeps _ _ _ _ _ _ _ _ _ Hb Ht) as (Hr & Hs & Hfm & He & Htot).
  destruct oe as [e|].
  - simpl. munfold. eexists _, _. split; [reflexivity|]. simpl.
    repeat split; try done.
    + unfold ratio_ok. simpl. rewrite Hr, Htot by done. done.
    + right. exists e. split; [done|]. by apply Htot.
  - simpl. destruct (analyze_ratio i1 w2) as [r w3] eqn:Hrat.
    destruct (analyze_ratio_ok _ _ _ _ Hr Hrat) as (i2 & -> & Hok & ->).
    munfold. eexists _, _. split; [reflexivity|]. simpl.
    assert (format i2 = format i1 ∧ size i2 = size i1 ∧ error i2 = error i1) as (-> & -> & ->).
    { unfold analyze_ratio in Hrat. case_match; munfold; simplify_eq; done. }
    repeat split; try done. by left.
Qed.


End analysis.

(** What the readers of the [try] block return. *)

Section reading.

Context (E : Env).

Lemma SevenZipFile_getnames_run p w :
  SevenZipFile_getnames E p w
  = (match py7zr_getnames E (fs w !! p) with
     | inl r => Ok r
     | inr msg => Raise (LibError "py7zr" msg)
     end, w).
Proof. unfold SevenZipFile_getnames. munfold. by destruct (py7zr_getnames E _). Qed.

Lemma SevenZipFile_list_run p w :
  SevenZipFile_list E p w
  = (match py7zr_list E (fs w !! p) with
     | inl r => Ok r
     | inr msg => Raise (LibError "py7zr" msg)
     end, w).
Proof. unfold SevenZipFile_list. munfold. by destruct (py7zr_list E _). Qed.

Lemma RarFile_namelist_run p w :
  RarFile_namelist E p w
  = (match rarfile_namelist E (UNRAR_TOOL w) (fs w !! p) with
     | inl r => Ok r
     | inr msg => Raise (LibError "rarfile" msg)
     end, w).
Proof. unfold RarFile_namelist. munfold. by destruct (rarfile_namelist E _ _). Qed.

Lemma RarFile_infolist_run p w :
  RarFile_infolist E p w
  = (match rarfile_infolist E (UNRAR_TOOL w) (fs w !! p) with
     | inl r => Ok r
     | inr msg => Raise (LibError "rarfile" msg)
     end, w).
Proof. unfold RarFile_infolist. munfold. by destruct (rarfile_infolist E _ _). Qed.

Lemma analyze_ratio_run i w :
  ∃ i', analyze_ratio i w = (Ok i', w) ∧ error i' = error i.
Proof. unfold analyze_ratio. destruct (0 <? _); by eexists. Qed.

(** The last lines of [analyze_archive_info], after a [try] block that
    ended without an exception or with the exception [e]. *)
Lemma try_block_last (i : info) (w : world) :
  ∃ i', try_block [analyze_ratio] i w = (Ok (i', None), w) ∧ error i' = error i.
Proof.
  destruct (analyze_ratio_run i w) as (i' & Hr & He). exists i'. split; [|done].
  cbn [try_block]. by rewrite Hr.
Qed.

End reading.

Lemma try_block_cons {S} (st : S → M S) (rest : list (S → M S)) (s : S) (w : world) :
  try_block (st :: rest) s w
  = match st s w with
    | (Ok s', w') => try_block rest s' w'
    | (Raise e, w') => (Ok (s, Some e), w')
    end.
Proof. reflexivity. Qed.

Ltac last_step :=
  match goal with
  | |- context [try_block [analyze_ratio] ?j ?v] =>
      let i' := fresh "i'" in let He := fresh "He" in
      destruct (try_block_last j v) as (i' & -> & He);
      cbn [fst snd mret M_ret]; intros [= <- <-]; rewrite He
  end.

(** C6.  On every path that holds a regular file, [analyze_archive_info]
    returns a report and raises nothing: the format is the lowered suffix of
    the path, the size is the size of the file on disk, and a failure to
    open or list the archive is recorded under ['error'] as the text of its
    exception.  The entry is there exactly when a reader of the branch for
    the format failed: for [.zip] when the file is no ZIP archive, for
    [.7z] when [py7zr] fails to open the file, to give its names or to
    list it, for [.rar], with [rarfile] at hand, when [rarfile] fails to
    give the names or the sizes; a format that no branch reads has no error
    entry. *)
Theorem analyze_archive_info_never_raises (E : Env) (p : path) (w : world) (c : content) :
  Os.node_at (fs w) p = Some (File c) →
  let fmt := PyStr.lower (PyPath.suffix p) in
  ∃ i w', analyze_archive_info E p w = (Ok i, w')
          ∧ format i = fmt
          ∧ size i = Os.byte_size E c
          ∧ error i =
              if String.eqb fmt ".zip" then
                match c with
                | Arc Zip _ _ => None
                | _ => Some "File is not a zip file"
                end
              else if String.eqb fmt ".7z" then
                match py7zr_getnames E (Some (File c)), py7zr_list E (Some (File c)) with
                | inr msg, _ => Some msg
                | inl _, inr msg => Some msg
                | inl _, inl _ => None
                end
              else if (String.eqb fmt ".rar" && rarfile_imported E)%bool then
                match rarfile_namelist E (UNRAR_TOOL w') (Some (File c)),
                      rarfile_infolist E (UNRAR_TOOL w') (Some (File c)) with
                | inr msg, _ => Some msg
                | inl _, inr msg => Some msg
                | inl _, inl _ => None
                end
              else None.
Proof.
  intros Hf fmt.
  assert (p ≠ []) as Hne by (by intros ->).
  assert (fs w !! p = Some (File c)) as Hp by (by destruct p).
  destruct (analyze_archive_info_spec E p w _ (getsize_file E p w c Hf))
    as (i & w' & Hrun & Hfmt & Hsz & _ & _).
  exists i, w'. split; [done|]. split; [done|]. split; [done|].
  revert Hrun. unfold analyze_archive_info. fold fmt. unfold mbind at 1, M_bind at 1.
  rewrite (getsize_file E p w c Hf).
  set (i0 := Info fmt (Os.byte_size E c) [] (PyInt 0) 0 None).
  unfold analyze_branch.
  destruct (String.eqb fmt ".zip").
  { unfold mbind at 1, M_bind at 1. cbn [mret M_ret app].
    unfold mbind at 1, M_bind at 1. rewrite try_block_cons.
    unfold mbind at 1, M_bind at 1. unfold Zipfile.open_r, Os.stat.
    unfold mbind at 1, M_bind at 1. unfold gets. rewrite Hf.
    destruct c as [bs|[] pw ms]; cbn [raise mret M_ret fst snd];
      try (intros [= <- <-]; done).
    cbv beta.
    last_step. done. }
  destruct (String.eqb fmt ".7z").
  { unfold mbind at 1, M_bind at 1. cbn [mret M_ret app].
    unfold mbind at 1, M_bind at 1. rewrite try_block_cons.
    unfold mbind at 1, M_bind at 1. rewrite SevenZipFile_getnames_run, Hp.
    destruct (py7zr_getnames E (Some (File c))) as [names|msg]; cbn [fst snd].
    2:{ intros [= <- <-]. done. }
    cbn [mret M_ret]. rewrite try_block_cons.
    unfold mbind at 1, M_bind at 1. rewrite SevenZipFile_list_run, Hp.
    destruct (py7zr_list E (Some (File c))) as [us|msg]; cbn [fst snd].
    2:{ intros [= <- <-]. done. }
    cbn [mret M_ret].
    last_step.
    assert (∀ j, error (foldl add_uncompressed j us) = error j) as Hkeep.
    { clear. induction us as [|u us IH]; intros j; [done|]. cbn [foldl]. by rewrite IH. }
    by rewrite Hkeep. }
  destruct (String.eqb fmt ".rar"); cbn [andb].
  2:{ unfold mbind at 1, M_bind at 1. cbn [mret M_ret app].
      unfold mbind at 1, M_bind at 1.
      last_step. done. }
  unfold mbind at 1, M_bind at 1. unfold mbind at 1, M_bind at 1.
  destruct (_rarfile_can_extract_total E w) as (w1 & -> & Hfs1 & _).
  destruct (rarfile_imported E).
  2:{ cbn [mret M_ret app]. unfold mbind at 1, M_bind at 1.
      last_step. done. }
  cbn [mret M_ret app].
  unfold mbind at 1, M_bind at 1. rewrite try_block_cons.
  unfold mbind at 1, M_bind at 1. rewrite RarFile_namelist_run, Hfs1, Hp.
  destruct (rarfile_namelist E (UNRAR_TOOL w1) (Some (File c))) as [names|msg] eqn:Hnames;
    cbn [fst snd].
  2:{ intros [= <- <-]. by rewrite Hnames. }
  cbn [mret M_ret]. rewrite try_block_cons.
  unfold mbind at 1, M_bind at 1. rewrite RarFile_infolist_run, Hfs1, Hp.
  destruct (rarfile_infolist E (UNRAR_TOOL w1) (Some (File c))) as [sizes|msg] eqn:Hsizes;
    cbn [fst snd].
  2:{ intros [= <- <-]. by rewrite Hnames, Hsizes. }
  cbn [mret M_ret].
  last_step. by rewrite Hnames, Hsizes.
Qed.

Lemma analyze_archive_info_never_raises_witness :
  Os.node_at (fs Demo.w0) ["data"; "broken.zip"] = Some (File (Raw []))
  ∧ let fmt := PyStr.lower (PyPath.suffix ["data"; "broken.zip"]) in
    ∃ i w', analyze_archive_info (Demo.env Demo.all_installed) ["data"; "broken.zip"] Demo.w0
            = (Ok i, w')
            ∧ format i = fmt
            ∧ size i = Os.byte_size (Demo.env Demo.all_installed) (Raw [])
            ∧ error i =
                if String.eqb fmt ".zip" then
                  match Raw [] with
                  | Arc Zip _ _ => None
                  | _ => Some "File is not a zip file"
                  end
                else if String.eqb fmt ".7z" then
                  match py7zr_getnames (Demo.env Demo.all_installed) (Some (File (Raw []))),
                        py7zr_list (Demo.env Demo.all_installed) (Some (File (Raw []))) with
                  | inr msg, _ => Some msg
                  | inl _, inr msg => Some msg
                  | inl _, inl _ => None
                  end
                else if (String.eqb fmt ".rar"
                         && rarfile_imported (Demo.env Demo.all_installed))%bool then
                  match rarfile_namelist (Demo.env Demo.all_installed) (UNRAR_TOOL w')
                          (Some (File (Raw []))),
                        rarfile_infolist (Demo.env Demo.all_installed) (UNRAR_TOOL w')
                          (Some (File (Raw []))) with
                  | inr msg, _ => Some msg
                  | inl _, inr msg => Some msg
                  | inl _, inl _ => None
                  end
                else None.
Proof.
  assert (Os.node_at (fs Demo.w0) ["data"; "broken.zip"] = Some (File (Raw []))) as H1
    by (vm_compute; reflexivity).
  split; [assumption|].
  exact (analyze_archive_info_never_raises (Demo.env Demo.all_installed)
           ["data"; "broken.zip"] Demo.w0 (Raw []) H1).
Defined.

Example broken_zip_report_error :
  broken_zip_report = Ok (Info ".zip" 0 [] (PyInt 0) 0 (Some "File is not a zip file")).
Proof. reflexivity. Qed.




(** *** Temporary directories *)

Lemma x_string_length n : String.length (Os.x_string n) = n.
Proof. induction n as [|n IH]; simpl; [done|]. by rewrite IH. Qed.

Lemma longest_component_bound (m : gmap path node) (p : path) (c : string) :
  is_Some (m !! p) → c ∈ p → (String.length c ≤ Os.longest_component m)%nat.
Proof.
  intros [n Hn] Hc. unfold Os.longest_component.
  etrans; [|apply max_list_elem_of_le].
  - apply (max_list_elem_of_le (String.length c) (List.map String.length p)).
    apply list_elem_of_fmap. by exists c.
  - apply list_elem_of_fmap. exists (p, n). split; [done|].
    by apply elem_of_map_to_list.
Qed.

(** The directory that [mkdtemp] picks is new: nothing is there, nor below. *)
Lemma fresh_tmp_fresh (m : gmap path node) (p : path) :
  Os.fresh_tmp m `prefix_of` p → m !! p = None.
Proof.
  intros [k ->]. destruct (m !! _) as [n|] eqn:Hn; [|done]. exfalso.
  pose proof (longest_component_bound m _ (Os.x_string (S (Os.longest_component m)))
                (mk_is_Some _ _ Hn)) as Hb.
  rewrite x_string_length in Hb.
  assert (S (Os.longest_component m) ≤ Os.longest_component m)%nat; [|lia].
  apply Hb. unfold Os.fresh_tmp. set_solver.
Qed.

Lemma rmtree_run p w :
  Os.rmtree p w = (Ok tt, World (filter (λ kv, ¬ p `prefix_of` kv.1) (fs w))
                             (trace w) (UNRAR_TOOL w) (zip_open w)).
Proof. done. Qed.

(** Leaving a [with tempfile.TemporaryDirectory()] block, however it is
    left, removes the directory and all that is below it. *)
Lemma with_TemporaryDirectory_cleans {A} (body : path → M A) w r w' :
  Os.with_TemporaryDirectory body w = (r, w') →
  ∀ p, Os.fresh_tmp (fs w) `prefix_of` p → fs w' !! p = None.
Proof.
  unfold Os.with_TemporaryDirectory, Os.mkdtemp. munfold. simpl.
  intros Hrun p Hp.
  destruct (body _ _) as [r1 w1]. simplify_eq. simpl.
  apply map_lookup_filter_None. right. intros n _ Hn. by apply Hn.
Qed.

(** Inside the block the directory exists. *)
Lemma with_TemporaryDirectory_body {A} (body : path → M A) w :
  ∃ w1, fs w1 = <[Os.fresh_tmp (fs w) := Dir]> (fs w) ∧ trace w1 = trace w
        ∧ Os.with_TemporaryDirectory body w
          = finally (body (Os.fresh_tmp (fs w))) (Os.rmtree (Os.fresh_tmp (fs w))) w1.
Proof.
  eexists (World _ _ _ _). split; [reflexivity|]. split; [reflexivity|].
  reflexivity.
Qed.

Section cleanup.

Context (E : Env).

Lemma convert_archive_format_cleans input output pw lvl w r w' :
  convert_archive_format E input output pw lvl w = (r, w') →
  ∀ p, Os.fresh_tmp (fs w) `prefix_of` p → fs w' !! p = None.
Proof. apply with_TemporaryDirectory_cleans. Qed.

Lemma exists_run p w : Os.exists_ p w = (Ok (bool_decide (is_Some (Os.node_at (fs w) p))), w).
Proof. done. Qed.

Lemma rar_to_zip_cleans rar out pw w r w' :
  rar_to_zip E rar out pw w = (r, w') →
  ∀ p, Os.fresh_tmp (fs w) `prefix_of` p → fs w' !! p = None.
Proof.
  unfold rar_to_zip. unfold mbind at 1, M_bind at 1. rewrite exists_run.
  destruct (negb _).
  - intros [= <- <-] p Hp. by apply fresh_tmp_fresh.
  - apply with_TemporaryDirectory_cleans.
Qed.

Lemma zip_to_rar_cleans zip out pw vol w r w' :
  zip_to_rar E zip out pw vol w = (r, w') →
  ∀ p, Os.fresh_tmp (fs w) `prefix_of` p → fs w' !! p = None.
Proof.
  unfold zip_to_rar. unfold mbind at 1, M_bind at 1. rewrite exists_run.
  destruct (negb _).
  { intros [= <- <-] p Hp. by apply fresh_tmp_fresh. }
  destruct (_detect_tool _ _) as [rar_cli|].
  2:{ intros [= <- <-] p Hp. by apply fresh_tmp_fresh. }
  unfold mbind at 1, M_bind at 1.
  destruct (Os.with_TemporaryDirectory _ w) as [r1 w1] eqn:Hwith.
  intros Hrun p Hp.
  pose proof (with_TemporaryDirectory_cleans _ _ _ _ Hwith p Hp) as Hnone.
  destruct r1; munfold; by simplify_eq.
Qed.

End cleanup.

(** C1.  Each of [convert_archive_format], [rar_to_zip] and [zip_to_rar]
    leaves nothing of its temporary staging directory behind, whether it
    returns or raises, and whichever stage raised: after the call, no path
    at or below the directory that the call's [TemporaryDirectory] picks
    exists on disk. *)
Theorem staging_directory_removed_on_every_exit (E : Env) (w : world) (p : path) :
  Os.fresh_tmp (fs w) `prefix_of` p →
  (∀ input output pw lvl,
     fs (convert_archive_format E input output pw lvl w).2 !! p = None)
  ∧ (∀ rar out pw, fs (rar_to_zip E rar out pw w).2 !! p = None)
  ∧ (∀ zip out pw vol, fs (zip_to_rar E zip out pw vol w).2 !! p = None).
Proof.
  intros Hp. repeat split; intros.
  - eapply convert_archive_format_cleans; [apply surjective_pairing | done].
  - eapply rar_to_zip_cleans; [apply surjective_pairing | done].
  - eapply zip_to_rar_cleans; [apply surjective_pairing | done].
Qed.

Lemma staging_directory_removed_on_every_exit_witness :
  Os.fresh_tmp (fs Demo.w0) `prefix_of` Os.fresh_tmp (fs Demo.w0) ++ ["extracted"; "a.txt"]
  ∧ (∀ input output pw lvl,
       fs (convert_archive_format (Demo.env Demo.all_installed) input output pw lvl Demo.w0).2
         !! (Os.fresh_tmp (fs Demo.w0) ++ ["extracted"; "a.txt"]) = None)
  ∧ (∀ rar out pw,
       fs (rar_to_zip (Demo.env Demo.all_installed) rar out pw Demo.w0).2
         !! (Os.fresh_tmp (fs Demo.w0) ++ ["extracted"; "a.txt"]) = None)
  ∧ (∀ zip out pw vol,
       fs (zip_to_rar (Demo.env Demo.all_installed) zip out pw vol Demo.w0).2
         !! (Os.fresh_tmp (fs Demo.w0) ++ ["extracted"; "a.txt"]) = None).
Proof.
  split; [exists ["extracted"; "a.txt"]; reflexivity|].
  apply (staging_directory_removed_on_every_exit (Demo.env Demo.all_installed) Demo.w0).
  exists ["extracted"; "a.txt"]; reflexivity.
Defined.


(** *** What a computation may write and raise

    [obeys W m]: running [m] changes the filesystem only at the paths in
    [W], and when it raises, the exception is not the [ValueError] with which
    [convert_archive_format] rejects an input format. *)

Lemma frame_refl W w : frame W w w.
Proof. by intros p _. Qed.

Lemma frame_trans W w1 w2 w3 : frame W w1 w2 → frame W w2 w3 → frame W w1 w3.
Proof. intros H12 H23 p Hp. rewrite H23, H12; done. Qed.

Lemma frame_mono (W W' : path → Prop) w w' :
  (∀ p, W p → W' p) → frame W w w' → frame W' w w'.
Proof. intros HW Hf p Hp. apply Hf. naive_solver. Qed.

Section obeys.

Context (W : path → Prop).

Lemma obeys_ret {A} (a : A) : obeys W (mret a).
Proof. intros w r w' [= <- <-]. split; [apply frame_refl | done]. Qed.

Lemma obeys_raise {A} (e : exn) : allowed e → obeys W (raise (A:=A) e).
Proof. intros He w r w' [= <- <-]. split; [apply frame_refl | done]. Qed.

Lemma obeys_bind {A B} (m : M A) (k : A → M B) :
  obeys W m → (∀ a, obeys W (k a)) → obeys W (m ≫= k).
Proof.
  intros Hm Hk w r w'. unfold mbind, M_bind.
  destruct (m w) as [[a|e] w1] eqn:Hrun; intros Hr.
  - destruct (Hm _ _ _ Hrun) as [Hf1 _]. destruct (Hk a _ _ _ Hr) as [Hf2 Hr2].
    split; [by eapply frame_trans | done].
  - simplify_eq. by apply (Hm _ _ _ Hrun).
Qed.

Lemma obeys_try_except {A} (m : M A) (h : exn → M A) :
  (∀ w r w', m w = (r, w') → frame W w w') → (∀ e, obeys W (h e)) →
  obeys W (try_except m h).
Proof.
  intros Hm Hh w r w'. unfold try_except.
  destruct (m w) as [[a|e] w1] eqn:Hrun; intros Hr.
  - simplify_eq. split; [by eapply Hm | done].
  - destruct (Hh e _ _ _ Hr) as [Hf2 Hr2].
    split; [eapply frame_trans; [by eapply Hm | done] | done].
Qed.

Lemma obeys_frame {A} (m : M A) w r w' : obeys W m → m w = (r, w') → frame W w w'.
Proof. intros Hm Hrun. by apply (Hm _ _ _ Hrun). Qed.

Lemma obeys_finally {A} (m : M A) (c : M unit) :
  obeys W m → obeys W c → obeys W (finally m c).
Proof.
  intros Hm Hc w r w'. unfold finally.
  destruct (m w) as [r1 w1] eqn:Hrun. destruct (c w1) as [[[]|e] w2] eqn:Hrun2;
    intros ?; simplify_eq;
    destruct (Hm _ _ _ Hrun) as [Hf1 Hr1]; destruct (Hc _ _ _ Hrun2) as [Hf2 Hr2];
    (split; [by eapply frame_trans | done]).
Qed.

Lemma obeys_for_each {A} (l : list A) (body : A → M unit) :
  (∀ x, obeys W (body x)) → obeys W (for_each l body).
Proof.
  intros Hb. induction l as [|x l IH]; simpl; [apply obeys_ret|].
  apply obeys_bind; [done|]. by intros _.
Qed.

Lemma obeys_gets {A} (f : world → A) : obeys W (gets f).
Proof. intros w r w' [= <- <-]. split; [apply frame_refl | done]. Qed.

Lemma obeys_log ev : obeys W (log ev).
Proof. intros w r w' [= <- <-]. split; [by intros p _ | done]. Qed.

Lemma obeys_set_UNRAR_TOOL s : obeys W (set_UNRAR_TOOL s).
Proof. intros w r w' [= <- <-]. split; [by intros p _ | done]. Qed.

Lemma obeys_modify_zip_open f : obeys W (modify_zip_open f).
Proof. intros w r w' [= <- <-]. split; [by intros p _ | done]. Qed.

Lemma obeys_modify_fs (f : gmap path node → gmap path node) :
  (∀ m p, ¬ W p → f m !! p = m !! p) → obeys W (modify_fs f).
Proof. intros Hf w r w' [= <- <-]. split; [|done]. intros p Hp. by apply Hf. Qed.

Lemma obeys_insert p n : W p → obeys W (modify_fs (insert p n)).
Proof.
  intros Hp. apply obeys_modify_fs. intros m q Hq.
  apply lookup_insert_ne. by intros ->.
Qed.

End obeys.

Ltac obeys_step :=
  lazymatch goal with
  | |- obeys _ (mbind _ _) => apply obeys_bind; [|intros ?]
  | |- obeys _ (mret _) => apply obeys_ret
  | |- obeys _ (raise _) => apply obeys_raise; done
  | |- obeys _ (gets _) => apply obeys_gets
  | |- obeys _ (log _) => apply obeys_log
  | |- obeys _ (set_UNRAR_TOOL _) => apply obeys_set_UNRAR_TOOL
  | |- obeys _ (modify_zip_open _) => apply obeys_modify_zip_open
  | |- obeys _ (for_each _ _) => apply obeys_for_each; intros ?
  | |- obeys _ (finally _ _) => apply obeys_finally
  | |- obeys _ (try_except _ _) =>
      apply obeys_try_except; [intros ???; apply obeys_frame | intros ?]
  | |- obeys _ (if ?b then _ else _) => destruct b
  | |- obeys _ (match ?x with _ => _ end) => destruct x
  | |- obeys _ (let x := _ in _) => cbv zeta
  end.

Section obeys_os.

Context (W : path → Prop).

Lemma obeys_stat p : obeys W (Os.stat p).
Proof. apply obeys_gets. Qed.

Lemma obeys_exists p : obeys W (Os.exists_ p).
Proof. unfold Os.exists_. repeat obeys_step. apply obeys_stat. Qed.

Lemma obeys_read_file p : obeys W (Os.read_file p).
Proof. unfold Os.read_file. repeat obeys_step. apply obeys_stat. Qed.

Lemma obeys_write_file p c : W p → obeys W (Os.write_file p c).
Proof.
  intros Hp. unfold Os.write_file.
  repeat first [ apply obeys_stat | by apply obeys_insert | obeys_step ].
Qed.

Lemma obeys_makedirs_from pre rest :
  (∀ k, (0 < k ≤ length rest)%nat → W (pre ++ take k rest)) →
  obeys W (Os.makedirs_from pre rest).
Proof.
  revert pre. induction rest as [|c rest IH]; intros pre HW; simpl; [apply obeys_ret|].
  assert (W (pre ++ [c])) as Hc by (apply (HW 1%nat); simpl; lia).
  assert (∀ k, (0 < k ≤ length rest)%nat → W ((pre ++ [c]) ++ take k rest)) as Hrest.
  { intros k Hk. rewrite <- (assoc_L (++)). apply (HW (S k)). simpl. lia. }
  repeat first [ apply obeys_stat | by apply obeys_insert | by apply IH | obeys_step ].
Qed.

Lemma obeys_makedirs p : (∀ q, q `prefix_of` p → q ≠ [] → W q) → obeys W (Os.makedirs p).
Proof.
  intros HW. apply obeys_makedirs_from. intros k Hk. simpl. apply HW.
  - apply prefix_take.
  - destruct p, k; simpl in *; try done; lia.
Qed.

End obeys_os.

Lemma ancestors_or_self_prefix (p q : path) :
  q ∈ PyPath.ancestors_or_self p → q `prefix_of` p.
Proof.
  revert q. induction p as [|c p IH]; intros q; simpl; [by intros ?%elem_of_nil|].
  intros [->|Hq]%elem_of_cons.
  - by exists p.
  - apply list_elem_of_fmap in Hq as (q' & -> & Hq'). by apply prefix_cons, IH.
Qed.

Lemma parent_prefix (p : path) : PyPath.parent p `prefix_of` p.
Proof.
  unfold PyPath.parent. induction p as [|c p IH]; simpl; [done|].
  destruct p; [by apply prefix_nil | by apply prefix_cons].
Qed.

Lemma prefix_app_along (d rel q : path) : q `prefix_of` d ++ rel → along d q.
Proof.
  intros Hq. unfold along.
  destruct (prefix_weak_total q d (d ++ rel)); auto. by apply prefix_app_r.
Qed.

Section obeys_below.

(** [W] holds of the directory [d], of what is above it and of what may
    come below it. *)
Context (W : path → Prop) (d : path).
Context (HW : ∀ q rel, q `prefix_of` d ++ rel → W q).

Lemma W_below rel : W (d ++ rel).
Proof. by apply (HW _ rel). Qed.

Lemma W_above q : q `prefix_of` d → W q.
Proof. intros Hq. apply (HW _ []). by rewrite (right_id_L [] (++)). Qed.

Lemma obeys_ensure_dir : obeys W (_ensure_dir d).
Proof. apply obeys_makedirs. intros q Hq _. by apply W_above. Qed.

Lemma put_member_frame (mb : member) (m : gmap path node) (p : path) :
  ¬ W p → Os.put_member d mb m !! p = m !! p.
Proof.
  intros Hp. unfold Os.put_member.
  rewrite lookup_insert_ne by (intros <-; apply Hp, W_below).
  generalize (ancestors_or_self_prefix (PyPath.parent (d ++ mb.1))).
  induction (PyPath.ancestors_or_self _) as [|q qs IH]; intros Hqs; simpl; [done|].
  rewrite lookup_insert_ne.
  - apply IH. intros q' Hq'. apply Hqs. by right.
  - intros <-. apply Hp. apply (HW _ mb.1).
    etrans; [apply Hqs; by left | apply parent_prefix].
Qed.

Lemma obeys_put_members ms : obeys W (Os.put_members d ms).
Proof.
  apply obeys_modify_fs. intros m p Hp. revert m.
  induction ms as [|mb ms IH]; intros m; simpl; [done|].
  rewrite IH. by apply put_member_frame.
Qed.

Lemma obeys_upperdirs rel : obeys W (Os.makedirs (PyPath.parent (d ++ rel))).
Proof.
  apply obeys_makedirs. intros q Hq _. apply (HW _ rel).
  etrans; [done | apply parent_prefix].
Qed.

Lemma obeys_extract_member mb : obeys W (Os.extract_member d mb).
Proof.
  unfold Os.extract_member.
  repeat first [ apply obeys_exists | apply obeys_upperdirs
               | apply obeys_write_file, W_below | obeys_step ].
Qed.

Lemma obeys_zip_open_r p : obeys W (Zipfile.open_r p).
Proof. unfold Zipfile.open_r. repeat first [ apply obeys_stat | obeys_step ]. Qed.

Lemma obeys_check_password E enc pwd mb : obeys W (Zipfile.check_password E enc pwd mb).
Proof. unfold Zipfile.check_password. repeat obeys_step. Qed.

Lemma obeys_zip_extractall E zf pwd : obeys W (Zipfile.extractall E zf pwd d).
Proof.
  unfold Zipfile.extractall, Zipfile.extract_one, Zipfile.copy_garbled.
  repeat first [ apply obeys_exists | apply obeys_upperdirs | apply obeys_check_password
               | apply obeys_write_file, W_below | obeys_step ].
Qed.

Lemma obeys_tar_open_r p : obeys W (Tarfile.open_r p).
Proof. unfold Tarfile.open_r. repeat first [ apply obeys_stat | obeys_step ]. Qed.

Lemma obeys_tar_extractall tf : obeys W (Tarfile.extractall tf d).
Proof. unfold Tarfile.extractall. obeys_step. apply obeys_extract_member. Qed.

Lemma obeys_subprocess_run cmd cwd (tool : M Z) :
  obeys W tool → obeys W (Subprocess.run cmd cwd tool).
Proof. intros Ht. unfold Subprocess.run. repeat first [ apply Ht | obeys_step ]. Qed.

Context (E : Env).

Lemma obeys_RarFile_extractall p pwd : obeys W (RarFile_extractall E p d pwd).
Proof.
  unfold RarFile_extractall. repeat first [ apply obeys_put_members | obeys_step ].
Qed.

Lemma obeys_SevenZipFile_extractall p pw : obeys W (SevenZipFile_extractall E p pw d).
Proof.
  unfold SevenZipFile_extractall. repeat first [ apply obeys_put_members | obeys_step ].
Qed.

Lemma obeys_sevenzip_extract p pw : obeys W (sevenzip_extract E p d pw).
Proof.
  unfold sevenzip_extract. repeat first [ apply obeys_put_members | obeys_step ].
Qed.

Lemma obeys_extract_with_7z p pw : obeys W (_extract_with_7z E p d pw).
Proof.
  unfold _extract_with_7z.
  repeat first [ apply obeys_subprocess_run, obeys_sevenzip_extract | obeys_step ].
Qed.

Lemma obeys_rarfile_can_extract : obeys W (_rarfile_can_extract E).
Proof.
  unfold _rarfile_can_extract. repeat first [ apply obeys_exists | obeys_step ].
Qed.

Lemma obeys_extract_archive p pw : obeys W (extract_archive E p d pw).
Proof.
  unfold extract_archive.
  repeat first [ apply obeys_ensure_dir | apply obeys_zip_open_r | apply obeys_zip_extractall
               | apply obeys_tar_open_r | apply obeys_tar_extractall
               | apply obeys_rarfile_can_extract | apply obeys_RarFile_extractall
               | apply obeys_extract_with_7z | obeys_step ].
Qed.

Lemma obeys_extract_7z_archive p pw : obeys W (extract_7z_archive E p d pw).
Proof.
  unfold extract_7z_archive.
  repeat first [ apply obeys_ensure_dir | apply obeys_SevenZipFile_extractall | obeys_step ].
Qed.

(** The extraction stage of a conversion whose input format is accepted. *)
Lemma obeys_convert_extract ext p pw :
  ext ∈ [".zip"; ".rar"; ".7z"] → obeys W (convert_extract E ext p d pw).
Proof.
  intros Hext.
  repeat (apply elem_of_cons in Hext as [->|Hext]); [..|by apply elem_of_nil in Hext];
    unfold convert_extract; simpl;
    repeat first [ apply obeys_extract_archive | apply obeys_extract_7z_archive | obeys_step ].
Qed.

End obeys_below.

(** The creation stage, and the conversion as a whole, with no limit on
    where they write. *)
Section obeys_anywhere.

Context (E : Env).

Let anywhere : path → Prop := λ _, True.

Lemma anywhere_below (d q rel : path) : q `prefix_of` d ++ rel → anywhere q.
Proof. done. Qed.

Lemma obeys_any_modify_fs f : obeys anywhere (modify_fs f).
Proof. apply obeys_modify_fs. intros m p Hp. by destruct Hp. Qed.

Lemma obeys_walk_files d : obeys anywhere (Os.walk_files E d).
Proof. apply obeys_gets. Qed.

Lemma obeys_with_ZipFile_w p body :
  obeys anywhere body → obeys anywhere (Zipfile.with_ZipFile_w p body).
Proof.
  intros Hb. unfold Zipfile.with_ZipFile_w, Zipfile.open_w, Zipfile.close_w.
  repeat first [ apply Hb | by apply obeys_write_file | apply obeys_any_modify_fs
               | obeys_step ].
Qed.

Lemma obeys_zip_directory src out compress : obeys anywhere (_zip_directory E src out compress).
Proof.
  unfold _zip_directory, Zipfile.write.
  repeat first [ apply (obeys_ensure_dir anywhere _ (anywhere_below _))
               | apply obeys_with_ZipFile_w | apply obeys_walk_files
               | apply obeys_read_file | obeys_step ].
Qed.

Lemma obeys_create_7z_archive src out pw lvl :
  obeys anywhere (create_7z_archive E src out pw lvl).
Proof.
  unfold create_7z_archive, SevenZipFile_writeall.
  repeat first [ apply (obeys_ensure_dir anywhere _ (anywhere_below _))
               | by apply obeys_write_file | apply obeys_any_modify_fs | obeys_step ].
Qed.

Lemma obeys_create_password_protected_zip src out pw lvl :
  obeys anywhere (create_password_protected_zip E src out pw lvl).
Proof.
  unfold create_password_protected_zip, pyminizip_compress.
  repeat first [ apply (obeys_ensure_dir anywhere _ (anywhere_below _))
               | apply obeys_walk_files
               | by apply obeys_write_file | obeys_step ].
Qed.

Lemma obeys_with_TemporaryDirectory {A} (body : path → M A) :
  (∀ tmp, obeys anywhere (body tmp)) → obeys anywhere (Os.with_TemporaryDirectory body).
Proof.
  intros Hb. unfold Os.with_TemporaryDirectory, Os.mkdtemp, Os.rmtree.
  repeat first [ apply Hb | apply obeys_any_modify_fs | obeys_step ].
Qed.

Lemma obeys_zip_to_rar zip out pw vol : obeys anywhere (zip_to_rar E zip out pw vol).
Proof.
  unfold zip_to_rar, rar_add.
  repeat first [ apply obeys_exists | apply obeys_with_TemporaryDirectory; intros ?
               | apply (obeys_ensure_dir anywhere _ (anywhere_below _))
               | apply obeys_zip_open_r
               | apply (obeys_zip_extractall anywhere _ (anywhere_below _))
               | apply obeys_subprocess_run
               | apply (obeys_put_members anywhere _ (anywhere_below _))
               | obeys_step ].
Qed.

Lemma obeys_convert_create ext dir out pw lvl :
  obeys anywhere (convert_create E ext dir out pw lvl).
Proof.
  unfold convert_create.
  repeat first [ apply obeys_zip_directory | apply obeys_create_7z_archive
               | apply obeys_create_password_protected_zip | apply obeys_zip_to_rar
               | obeys_step ].
Qed.

Lemma obeys_convert_archive_format input output pw lvl :
  PyStr.lower (PyPath.suffix input) ∈ [".zip"; ".rar"; ".7z"] →
  obeys anywhere (convert_archive_format E input output pw lvl).
Proof.
  intros Hext. unfold convert_archive_format.
  repeat first [ apply obeys_with_TemporaryDirectory; intros ?
               | by apply (obeys_convert_extract anywhere _ (anywhere_below _))
               | apply obeys_convert_create | obeys_step ].
Qed.

End obeys_anywhere.

Lemma startswith_app (p s : string) : PyStr.startswith (p +:+ s) p = true.
Proof.
  induction p as [|c p IH]; simpl; [by destruct s|].
  rewrite Ascii.eqb_refl. exact IH.
Qed.

(** What a conversion does when its input format is none of the three. *)
Lemma convert_archive_format_unsupported_input (E : Env) input output pw lvl w :
  PyStr.lower (PyPath.suffix input) ∉ [".zip"; ".rar"; ".7z"] →
  (convert_archive_format E input output pw lvl w).1
  = Raise (ValueError ("Unsupported input format: " +:+ PyStr.lower (PyPath.suffix input))).
Proof.
  intros Hext. unfold convert_archive_format, convert_extract.
  assert (∀ s, s ∈ [".zip"; ".rar"; ".7z"] →
               String.eqb (PyStr.lower (PyPath.suffix input)) s = false) as Hne.
  { intros s Hs. apply String.eqb_neq. intros Heq. apply Hext. by rewrite Heq. }
  rewrite !Hne by set_solver.
  unfold Os.with_TemporaryDirectory, Os.mkdtemp, Os.rmtree. munfold. done.
Qed.

(** *** Which formats a conversion takes *)

(** C9 (as amended).  [convert_archive_format] decides on the lowered suffix
    of the input path alone whether it takes the input: it raises
    [ValueError("Unsupported input format: <suffix>")] exactly when that
    suffix is none of [.zip], [.rar] and [.7z].  The suffixes of the TAR
    kinds are among those it rejects. *)
Theorem convert_archive_format_input_formats (E : Env) (input output : path)
    (pw : option string) (lvl : Z) (w : world) :
  (convert_archive_format E input output pw lvl w).1
  = Raise (ValueError ("Unsupported input format: " +:+ PyStr.lower (PyPath.suffix input)))
  ↔ PyStr.lower (PyPath.suffix input) ∉ [".zip"; ".rar"; ".7z"].
Proof.
  split.
  - intros Hrun Hext.
    destruct (convert_archive_format E input output pw lvl w) as [r w'] eqn:Hc.
    simpl in Hrun. subst r.
    destruct (obeys_convert_archive_format E input output pw lvl Hext _ _ _ Hc) as [_ Hal].
    simpl in Hal. by rewrite startswith_app in Hal.
  - apply convert_archive_format_unsupported_input.
Qed.

(** A TAR archive, which [extract_archive] extracts, is refused as the input
    of a conversion. *)
Lemma convert_archive_format_rejects_tar :
  (extract_archive (Demo.env Demo.all_installed) ["data"; "in.tar"] ["out"] None Demo.w0).1
  = Ok ["out"]
  ∧ (convert_archive_format (Demo.env Demo.all_installed)
       ["data"; "in.tar"] ["out"; "x.zip"] None 5 Demo.w0).1
    = Raise (ValueError "Unsupported input format: .tar").
Proof. split; vm_compute; reflexivity. Qed.

Example convert_archive_format_takes_zip :
  (convert_archive_format (Demo.env Demo.all_installed)
     ["data"; "plain.zip"] ["out"; "x.7z"] None 5 Demo.w0).1 = Ok ["out"; "x.7z"].
Proof. vm_compute; reflexivity. Qed.

(** *** Converting to RAR *)

Lemma add_text_join (d : path) (nm ext : string) :
  PyPath.add_text (PyPath.join d nm) ext = d ++ [nm +:+ ext].
Proof.
  unfold PyPath.add_text, PyPath.join. rewrite rev_app_distr. simpl.
  by rewrite rev_involutive.
Qed.

Lemma string_app_nonempty_ne (s t : string) : t ≠ "" → s +:+ t ≠ s.
Proof.
  intros Ht. induction s as [|c s IH]; simpl; [done|]. intros [= H]. by apply IH.
Qed.

(** The path [<extract_dir>.zip] lies neither above nor below [extract_dir]. *)
Lemma add_text_not_along (d : path) (nm ext : string) :
  ext ≠ "" → ¬ along (PyPath.join d nm) (PyPath.add_text (PyPath.join d nm) ext).
Proof.
  intros Hext. rewrite add_text_join. unfold along, PyPath.join.
  assert (d ++ [nm +:+ ext] ≠ d ++ [nm]) as Hne.
  { intros [= H]%app_inv_head. by apply (string_app_nonempty_ne nm ext). }
  intros [H|H]; apply prefix_length_eq in H; rewrite ?length_app; simpl; try lia; done.
Qed.

Lemma convert_extract_ok_format (E : Env) ext input d pw w w1 :
  convert_extract E ext input d pw w = (Ok tt, w1) → ext ∈ [".zip"; ".rar"; ".7z"].
Proof.
  unfold convert_extract. intros Hrun.
  destruct (String.eqb_spec ext ".zip") as [->|_]; [set_solver|].
  destruct (String.eqb_spec ext ".rar") as [->|_]; [set_solver|].
  destruct (String.eqb_spec ext ".7z") as [->|_]; [set_solver|].
  done.
Qed.

(** After an extraction stage that returned, nothing is at [<extract_dir>.zip]. *)
Lemma convert_extract_leaves_no_zip (E : Env) ext input pw w w1 :
  convert_extract E ext input (staging_dir w) pw (entered w) = (Ok tt, w1) →
  fs w1 !! PyPath.add_text (staging_dir w) ".zip" = None.
Proof.
  intros Hrun.
  pose proof (convert_extract_ok_format _ _ _ _ _ _ _ Hrun) as Hext.
  destruct (obeys_convert_extract (along (staging_dir w)) (staging_dir w)
              (λ q rel, prefix_app_along (staging_dir w) rel q) E ext input pw Hext _ _ _ Hrun) as [Hfr _].
  rewrite Hfr by (by apply add_text_not_along).
  unfold staging_dir. rewrite add_text_join. unfold entered. cbn [fs].
  rewrite lookup_insert_ne.
  - apply fresh_tmp_fresh. by apply prefix_app_r.
  - intros Heq. apply (f_equal length) in Heq. rewrite length_app in Heq. simpl in Heq. lia.
Qed.

Lemma zip_to_rar_missing (E : Env) zip out pw vol w :
  zip ≠ [] → fs w !! zip = None →
  zip_to_rar E zip out pw vol w = (Raise (FileNotFoundError (PyPath.render zip)), w).
Proof.
  intros Hne Hnone. unfold zip_to_rar. unfold mbind at 1, M_bind at 1.
  rewrite exists_run. destruct zip; [done|]. cbn [Os.node_at]. rewrite Hnone.
  rewrite bool_decide_eq_false_2 by (by intros [? ?]). done.
Qed.

(** C10 (as amended).  When the output suffix is [.rar], the outcome of
    [convert_archive_format] is decided by its extraction stage alone,
    whatever tools are installed: if that stage raises, its exception is
    what the caller gets; if it returns, the conversion raises
    [FileNotFoundError] for [<extract_dir>.zip], which the extraction stage
    never creates.  Either way the conversion does not return. *)
Theorem convert_to_rar_outcome (E : Env) (input output : path) (pw : option string)
    (lvl : Z) (w : world) :
  PyStr.lower (PyPath.suffix output) = ".rar" →
  (convert_archive_format E input output pw lvl w).1
  = match (convert_extract E (PyStr.lower (PyPath.suffix input)) input
             (staging_dir w) pw (entered w)).1 with
    | Ok _ => Raise (FileNotFoundError (PyPath.render (PyPath.add_text (staging_dir w) ".zip")))
    | Raise e => Raise e
    end.
Proof.
  intros Hout. unfold convert_archive_format, Os.with_TemporaryDirectory, Os.mkdtemp.
  munfold. simpl. fold (entered w). fold (staging_dir w).
  destruct (convert_extract E _ input (staging_dir w) pw (entered w))
    as [[[]|e] w1] eqn:Hrun; simpl; [|done].
  unfold convert_create. rewrite Hout. simpl.
  rewrite zip_to_rar_missing; [done| |by eapply convert_extract_leaves_no_zip].
  unfold staging_dir. rewrite add_text_join. by destruct (Os.fresh_tmp (fs w)).
Qed.

Lemma convert_to_rar_outcome_witness :
  PyStr.lower (PyPath.suffix ["out"; "x.rar"]) = ".rar"
  ∧ (convert_archive_format (Demo.env Demo.all_installed)
       ["data"; "plain.zip"] ["out"; "x.rar"] None 5 Demo.w0).1
    = match (convert_extract (Demo.env Demo.all_installed)
               (PyStr.lower (PyPath.suffix ["data"; "plain.zip"])) ["data"; "plain.zip"]
               (staging_dir Demo.w0) None (entered Demo.w0)).1 with
      | Ok _ => Raise (FileNotFoundError
                         (PyPath.render (PyPath.add_text (staging_dir Demo.w0) ".zip")))
      | Raise e => Raise e
      end.
Proof.
  split; [reflexivity|].
  apply (convert_to_rar_outcome (Demo.env Demo.all_installed)
           ["data"; "plain.zip"] ["out"; "x.rar"] None 5 Demo.w0).
  reflexivity.
Defined.

(** With every tool installed, a ZIP converted to RAR ends in the missing
    intermediate file. *)
Example convert_zip_to_rar_run :
  (convert_archive_format (Demo.env Demo.all_installed)
     ["data"; "plain.zip"] ["out"; "x.rar"] None 5 Demo.w0).1
  = Raise (FileNotFoundError "/tmp/xxxxxxxxxxx/extracted.zip").
Proof. vm_compute; reflexivity. Qed.

(** With no tool installed, a RAR converted to RAR ends in the error of the
    extraction stage, which is no [FileNotFoundError]. *)
Lemma convert_rar_to_rar_without_tools :
  (convert_archive_format (Demo.env Demo.nothing_installed)
     ["data"; "in.rar"] ["out"; "x.rar"] None 5 Demo.w0).1
  = Raise (RuntimeError "7-Zip (7z) not found. Install 7-Zip or add it to PATH.").
Proof. vm_compute; reflexivity. Qed.

(** *** Extracting a RAR archive *)

Lemma endswith_rar_only (s : string) :
  PyStr.endswith s ".rar" = true →
  PyStr.endswith s ".zip" = false
  ∧ (PyStr.endswith s ".tar" || PyStr.endswith s ".tar.gz" || PyStr.endswith s ".tgz")%bool
    = false.
Proof.
  unfold PyStr.endswith. generalize (PyStr.rev s). intros t.
  change (PyStr.rev ".rar") with "rar.". change (PyStr.rev ".zip") with "piz.".
  change (PyStr.rev ".tar") with "rat.". change (PyStr.rev ".tar.gz") with "zg.rat.".
  change (PyStr.rev ".tgz") with "zgt.".
  destruct t as [|c1 t]; [done|]. cbn [PyStr.startswith].
  destruct (Ascii.eqb_spec "r" c1) as [<-|]; [|done].
  destruct t as [|c2 t]; [done|]. cbn [PyStr.startswith].
  destruct (Ascii.eqb_spec "a" c2) as [<-|]; [|done].
  destruct t as [|c3 t]; [done|]. cbn [PyStr.startswith].
  destruct (Ascii.eqb_spec "r" c3) as [<-|]; [|done].
  intros _. split; reflexivity.
Qed.

Section rar.

Context (E : Env).

Lemma _extract_with_7z_no_tool p out pw w :
  _detect_tool E ["7z"; "7za"; "7zz"] = None →
  _extract_with_7z E p out pw w
  = (Raise (RuntimeError "7-Zip (7z) not found. Install 7-Zip or add it to PATH."), w).
Proof. intros H. unfold _extract_with_7z. by rewrite H. Qed.

Lemma sevenzip_x_cmd_eq sevenz p out pw :
  match pw with
  | Some s => if PyStr.truthy pw
              then list_insert_at 2 ("-p" +:+ s)
                     [sevenz; "x"; "-y"; "-o" +:+ PyPath.render out; PyPath.render p]
              else [sevenz; "x"; "-y"; "-o" +:+ PyPath.render out; PyPath.render p]
  | None => [sevenz; "x"; "-y"; "-o" +:+ PyPath.render out; PyPath.render p]
  end = sevenzip_x_cmd sevenz p out pw.
Proof. unfold sevenzip_x_cmd. destruct pw as [s|]; [|done]. by destruct (PyStr.truthy _). Qed.

(** With a 7-Zip on the PATH: the command that is run, and the outcome by
    its exit code. *)
Lemma _extract_with_7z_tool p out pw w sevenz :
  _detect_tool E ["7z"; "7za"; "7zz"] = Some sevenz →
  let cmd := sevenzip_x_cmd sevenz p out pw in
  let code := (sevenzip_x E (fs w !! p) (if PyStr.truthy pw then pw else None)).1 in
  (_extract_with_7z E p out pw w).1
  = (if code =? 0 then Ok out else Raise (CalledProcessError code cmd))
  ∧ trace (_extract_with_7z E p out pw w).2 = trace w ++ [EvSubprocess cmd None].
Proof.
  intros H. unfold _extract_with_7z. rewrite H. rewrite sevenzip_x_cmd_eq.
  unfold Subprocess.run, sevenzip_extract, Os.put_members. munfold. simpl.
  destruct (_ =? 0); done.
Qed.

Lemma rar_in_process_attempt_run p out pw w :
  ∃ tried w2,
    rar_in_process_attempt E p out pw w = (Ok tried, w2)
    ∧ (tried = true ↔
         rarfile_imported E = true
         ∧ (rarfile_extractall E (UNRAR_TOOL w2) (fs w !! p) pw).2 = None)
    ∧ subprocess_calls (trace w2) = subprocess_calls (trace w).
Proof.
  unfold rar_in_process_attempt. unfold mbind at 1, M_bind at 1.
  destruct (_rarfile_can_extract_total E w) as (w1 & -> & Hfs & Htr & _).
  destruct (rarfile_imported E).
  2:{ exists false, w1. munfold. rewrite Htr. repeat split; try done. by intros [? _]. }
  unfold RarFile_extractall, Os.put_members. munfold. simpl. rewrite Hfs, Htr.
  destruct (rarfile_extractall E (UNRAR_TOOL w1) (fs w !! p) pw) as [ms [msg|]] eqn:Hr; simpl.
  - eexists false, _. split; [done|]. simpl. rewrite Hr. split.
    + split; [done|]. by intros [_ ?].
    + unfold subprocess_calls. rewrite omap_app. simpl. by rewrite (right_id_L [] (++)).
  - eexists true, _. split; [done|]. simpl. rewrite Hr. split.
    + done.
    + unfold subprocess_calls. rewrite omap_app. simpl. by rewrite (right_id_L [] (++)).
Qed.

Lemma extract_archive_rar p out pw w w1 :
  PyStr.endswith (PyStr.lower (PyPath.render p)) ".rar" = true →
  _ensure_dir out w = (Ok tt, w1) →
  extract_archive E p out pw w
  = match rar_in_process_attempt E p out pw w1 with
    | (Ok true, w2) => (Ok out, w2)
    | (Ok false, w2) => _extract_with_7z E p out pw w2
    | (Raise e, w2) => (Raise e, w2)
    end.
Proof.
  intros Hrar Hdir. destruct (endswith_rar_only _ Hrar) as [Hzip Htar].
  unfold extract_archive. unfold mbind at 1, M_bind at 1. rewrite Hdir.
  cbv zeta. rewrite Hzip, Htar, Hrar.
  unfold rar_in_process_attempt. munfold.
  destruct (_rarfile_can_extract E w1) as [[can|e] w2]; [|done].
  destruct can; [|done].
  destruct (RarFile_extractall E p out pw w2) as [[[]|e] w3]; done.
Qed.

End rar.

(** C2.  On a path that ends in [.rar], once the destination directory is
    there, [extract_archive] first tries the in-process [rarfile] reader,
    when the module is imported; that attempt never raises.  If the reader
    reports no failure the call returns and no external command is run.  If
    the reader fails or is not there, the call is the 7-Zip fallback: with no
    7-Zip on the PATH it raises the tool-not-found [RuntimeError]; with one,
    it runs [7z x [-p<password>] -y -o<out_dir> <archive>] and returns when
    the exit code is zero, and raises [CalledProcessError] otherwise.  The
    exception of the reader is never the one that is raised. *)
Theorem extract_archive_rar_fallback (E : Env) (p out : path) (pw : option string)
    (w w1 : world) :
  PyStr.endswith (PyStr.lower (PyPath.render p)) ".rar" = true →
  _ensure_dir out w = (Ok tt, w1) →
  ∃ tried w2,
    rar_in_process_attempt E p out pw w1 = (Ok tried, w2)
    ∧ (tried = true ↔
         rarfile_imported E = true
         ∧ (rarfile_extractall E (UNRAR_TOOL w2) (fs w1 !! p) pw).2 = None)
    ∧ (tried = true →
         extract_archive E p out pw w = (Ok out, w2)
         ∧ subprocess_calls (trace w2) = subprocess_calls (trace w1))
    ∧ (tried = false →
         match _detect_tool E ["7z"; "7za"; "7zz"] with
         | None =>
             ∃ e, extract_archive E p out pw w = (Raise e, w2)
                  ∧ e = RuntimeError "7-Zip (7z) not found. Install 7-Zip or add it to PATH."
                  ∧ is_tool_not_found e = true
         | Some sevenz =>
             let cmd := sevenzip_x_cmd sevenz p out pw in
             let code := (sevenzip_x E (fs w2 !! p) (if PyStr.truthy pw then pw else None)).1 in
             (extract_archive E p out pw w).1
             = (if code =? 0 then Ok out else Raise (CalledProcessError code cmd))
             ∧ trace (extract_archive E p out pw w).2 = trace w2 ++ [EvSubprocess cmd None]
         end).
Proof.
  intros Hrar Hdir.
  destruct (rar_in_process_attempt_run E p out pw w1) as (tried & w2 & Hrun & Hiff & Htr).
  exists tried, w2. split; [done|]. split; [done|].
  rewrite (extract_archive_rar E p out pw w w1 Hrar Hdir), Hrun.
  split.
  - intros ->. done.
  - intros ->. destruct (_detect_tool E _) as [sevenz|] eqn:Htool.
    + by apply _extract_with_7z_tool.
    + eexists. split; [by apply _extract_with_7z_no_tool|]. done.
Qed.

Lemma extract_archive_rar_fallback_witness :
  PyStr.endswith (PyStr.lower (PyPath.render ["data"; "in.rar"])) ".rar" = true
  ∧ _ensure_dir ["out"] Demo.w0 = (Ok tt, Demo.w_out)
  ∧ ∃ tried w2,
      rar_in_process_attempt (Demo.env Demo.rarfile_broken) ["data"; "in.rar"] ["out"] None
        Demo.w_out = (Ok tried, w2)
      ∧ (tried = true ↔
           rarfile_imported (Demo.env Demo.rarfile_broken) = true
           ∧ (rarfile_extractall (Demo.env Demo.rarfile_broken) (UNRAR_TOOL w2)
                (fs Demo.w_out !! ["data"; "in.rar"]) None).2 = None)
      ∧ (tried = true →
           extract_archive (Demo.env Demo.rarfile_broken) ["data"; "in.rar"] ["out"] None Demo.w0
           = (Ok ["out"], w2)
           ∧ subprocess_calls (trace w2) = subprocess_calls (trace Demo.w_out))
      ∧ (tried = false →
           match _detect_tool (Demo.env Demo.rarfile_broken) ["7z"; "7za"; "7zz"] with
           | None =>
               ∃ e, extract_archive (Demo.env Demo.rarfile_broken)
                      ["data"; "in.rar"] ["out"] None Demo.w0 = (Raise e, w2)
                    ∧ e = RuntimeError "7-Zip (7z) not found. Install 7-Zip or add it to PATH."
                    ∧ is_tool_not_found e = true
           | Some sevenz =>
               let cmd := sevenzip_x_cmd sevenz ["data"; "in.rar"] ["out"] None in
               let code := (sevenzip_x (Demo.env Demo.rarfile_broken)
                              (fs w2 !! ["data"; "in.rar"])
                              (if PyStr.truthy None then None else None)).1 in
               (extract_archive (Demo.env Demo.rarfile_broken)
                  ["data"; "in.rar"] ["out"] None Demo.w0).1
               = (if code =? 0 then Ok ["out"] else Raise (CalledProcessError code cmd))
               ∧ trace (extract_archive (Demo.env Demo.rarfile_broken)
                          ["data"; "in.rar"] ["out"] None Demo.w0).2
                 = trace w2 ++ [EvSubprocess cmd None]
           end).
Proof.
  split; [reflexivity|]. split; [vm_compute; reflexivity|].
  apply (extract_archive_rar_fallback (Demo.env Demo.rarfile_broken)
           ["data"; "in.rar"] ["out"] None Demo.w0 Demo.w_out).
  - reflexivity.
  - vm_compute; reflexivity.
Defined.

(** The reader fails, 7-Zip takes over: the archive is extracted by the one
    command [7z x -y -o/out /data/in.rar]. *)
Example extract_rar_by_fallback_run :
  let r := extract_archive (Demo.env Demo.rarfile_broken)
             ["data"; "in.rar"] ["out"] (Some "pw") Demo.w0 in
  r.1 = Ok ["out"]
  ∧ subprocess_calls (trace r.2) = [["/usr/bin/7z"; "x"; "-ppw"; "-y"; "-o/out"; "/data/in.rar"]]
  ∧ fs r.2 !! ["out"; "a.txt"] = Some (File Demo.hello).
Proof. vm_compute. repeat split; reflexivity. Qed.

(** Neither the reader nor 7-Zip: the tool-not-found error. *)
Example extract_rar_without_tools_run :
  (extract_archive (Demo.env Demo.nothing_installed) ["data"; "in.rar"] ["out"] None Demo.w0).1
  = Raise (RuntimeError "7-Zip (7z) not found. Install 7-Zip or add it to PATH.").
Proof. vm_compute; reflexivity. Qed.

(** *** Password-protected ZIP *)

Section password_zip.

Context (E : Env).

Lemma create_password_protected_zip_no_module src out pw lvl w :
  pyminizip_importable E = false →
  create_password_protected_zip E src out pw lvl w
  = (Raise (ModuleNotFoundError "No module named 'pyminizip'"), w).
Proof. intros H. unfold create_password_protected_zip. by rewrite H. Qed.

Lemma create_password_zip_alternative_no_tool src out pw w :
  _detect_tool E ["7z"; "7za"; "7zz"] = None →
  create_password_zip_alternative E src out pw w
  = (Raise (RuntimeError "7-Zip required for password-protected archives"), w).
Proof. intros H. unfold create_password_zip_alternative. by rewrite H. Qed.

Lemma create_password_zip_alternative_tool src out pw w sevenz :
  _detect_tool E ["7z"; "7za"; "7zz"] = Some sevenz →
  let cmd := [sevenz; "a"; "-tzip"; "-p" +:+ pw; PyPath.render out;
              PyPath.render src +:+ "/*"] in
  trace (create_password_zip_alternative E src out pw w).2 = trace w ++ [EvSubprocess cmd None]
  ∧ ((create_password_zip_alternative E src out pw w).1 = Ok out
     ∨ ∃ code, (create_password_zip_alternative E src out pw w).1
               = Raise (CalledProcessError code cmd)).
Proof.
  intros H. unfold create_password_zip_alternative. rewrite H.
  unfold Subprocess.run, sevenzip_add_zip, Os.put_members. munfold. simpl.
  destruct (sevenzip_a_zip E _ pw _) as [code [c|]]; simpl;
    (destruct (code =? 0); simpl; (split; [done|]); [by left | right; by eexists]).
Qed.

End password_zip.

(** C8 (as amended).  In a conversion to [.zip] a non-empty password selects
    [create_password_protected_zip], no password the plain [_zip_directory].
    The password path needs the in-process encoder [pyminizip] and has no
    fallback: without the module it raises [ModuleNotFoundError] at once,
    leaving the world as it was, 7-Zip or not.  The 7-Zip route is the
    separate function [create_password_zip_alternative]: it runs
    [7z a -tzip -p<password> <out> <src>/*], and raises the tool-not-found
    [RuntimeError] exactly when no 7-Zip executable is on the PATH. *)
Theorem password_zip_paths (E : Env) (src out : path) (pw : string) (lvl : Z) (w : world) :
  (pw ≠ "" →
     convert_create E ".zip" src out (Some pw) lvl
     = create_password_protected_zip E src out pw lvl)
  ∧ convert_create E ".zip" src out None lvl = _zip_directory E src out true
  ∧ (pyminizip_importable E = false →
       create_password_protected_zip E src out pw lvl w
       = (Raise (ModuleNotFoundError "No module named 'pyminizip'"), w))
  ∧ ((create_password_zip_alternative E src out pw w).1
       = Raise (RuntimeError "7-Zip required for password-protected archives")
     ↔ _detect_tool E ["7z"; "7za"; "7zz"] = None)
  ∧ (∀ sevenz, _detect_tool E ["7z"; "7za"; "7zz"] = Some sevenz →
       trace (create_password_zip_alternative E src out pw w).2
       = trace w ++ [EvSubprocess [sevenz; "a"; "-tzip"; "-p" +:+ pw; PyPath.render out;
                                   PyPath.render src +:+ "/*"] None]).
Proof.
  split; [|split; [|split; [|split]]].
  - intros Hpw. unfold convert_create. simpl.
    by destruct (String.eqb_spec pw "").
  - done.
  - apply create_password_protected_zip_no_module.
  - destruct (_detect_tool E _) as [sevenz|] eqn:Htool.
    + destruct (create_password_zip_alternative_tool E src out pw w sevenz Htool)
        as [_ [Hr|[code Hr]]]; rewrite Hr; split; done.
    + by rewrite create_password_zip_alternative_no_tool.
  - intros sevenz Htool.
    by destruct (create_password_zip_alternative_tool E src out pw w sevenz Htool).
Qed.

Lemma password_zip_paths_witness :
  ("s3cret" ≠ "" →
     convert_create (Demo.env Demo.only_7z) ".zip" ["data"; "src"] ["out"; "x.zip"]
       (Some "s3cret") 6
     = create_password_protected_zip (Demo.env Demo.only_7z) ["data"; "src"] ["out"; "x.zip"]
         "s3cret" 6)
  ∧ convert_create (Demo.env Demo.only_7z) ".zip" ["data"; "src"] ["out"; "x.zip"] None 6
    = _zip_directory (Demo.env Demo.only_7z) ["data"; "src"] ["out"; "x.zip"] true
  ∧ (pyminizip_importable (Demo.env Demo.only_7z) = false →
       create_password_protected_zip (Demo.env Demo.only_7z) ["data"; "src"] ["out"; "x.zip"]
         "s3cret" 6 Demo.w0
       = (Raise (ModuleNotFoundError "No module named 'pyminizip'"), Demo.w0))
  ∧ ((create_password_zip_alternative (Demo.env Demo.only_7z) ["data"; "src"] ["out"; "x.zip"]
        "s3cret" Demo.w0).1
       = Raise (RuntimeError "7-Zip required for password-protected archives")
     ↔ _detect_tool (Demo.env Demo.only_7z) ["7z"; "7za"; "7zz"] = None)
  ∧ (∀ sevenz, _detect_tool (Demo.env Demo.only_7z) ["7z"; "7za"; "7zz"] = Some sevenz →
       trace (create_password_zip_alternative (Demo.env Demo.only_7z)
                ["data"; "src"] ["out"; "x.zip"] "s3cret" Demo.w0).2
       = trace Demo.w0 ++ [EvSubprocess [sevenz; "a"; "-tzip"; "-p" +:+ "s3cret";
                                         PyPath.render ["out"; "x.zip"];
                                         PyPath.render ["data"; "src"] +:+ "/*"] None]).
Proof.
  exact (password_zip_paths (Demo.env Demo.only_7z) ["data"; "src"] ["out"; "x.zip"]
           "s3cret" 6 Demo.w0).
Defined.

(** 7-Zip is installed and [pyminizip] is not: converting to a ZIP with a
    password fails on the missing module, and 7-Zip is never run. *)
Lemma password_zip_without_pyminizip :
  _detect_tool (Demo.env Demo.only_7z) ["7z"; "7za"; "7zz"] = Some "/usr/bin/7z"
  ∧ (convert_archive_format (Demo.env Demo.only_7z)
       ["data"; "plain.zip"] ["out"; "x.zip"] (Some "s3cret") 6 Demo.w0).1
    = Raise (ModuleNotFoundError "No module named 'pyminizip'")
  ∧ subprocess_calls
      (trace (convert_archive_format (Demo.env Demo.only_7z)
                ["data"; "plain.zip"] ["out"; "x.zip"] (Some "s3cret") 6 Demo.w0).2) = [].
Proof. repeat split; vm_compute; reflexivity. Qed.

(** The separate 7-Zip route, run on the sample tree. *)
Example create_password_zip_alternative_run :
  let r := create_password_zip_alternative (Demo.env Demo.only_7z)
             ["data"; "src"] ["out"; "x.zip"] "s3cret" Demo.w_out in
  r.1 = Ok ["out"; "x.zip"]
  ∧ subprocess_calls (trace r.2)
    = [["/usr/bin/7z"; "a"; "-tzip"; "-ps3cret"; "/out/x.zip"; "/data/src/*"]].
Proof. vm_compute. split; reflexivity. Qed.

(** *** The compression level *)

Lemma makedirs_from_trace pre rest w r w' :
  Os.makedirs_from pre rest w = (r, w') → trace w' = trace w.
Proof.
  revert pre w. induction rest as [|c rest IH]; intros pre w; simpl.
  { by intros [= <- <-]. }
  unfold Os.stat. munfold. simpl.
  destruct (Os.node_at (fs w) (pre ++ [c])) as [[|f]|].
  - apply IH.
  - destruct rest; by intros [= <- <-].
  - intros H. by apply IH in H.
Qed.

Lemma _ensure_dir_trace p w r w' : _ensure_dir p w = (r, w') → trace w' = trace w.
Proof. apply makedirs_from_trace. Qed.

Lemma write_file_trace p c w r w' : Os.write_file p c w = (r, w') → trace w' = trace w.
Proof.
  unfold Os.write_file, Os.stat. munfold. simpl.
  repeat case_match; by intros [= <- <-].
Qed.

Section level.

Context (E : Env).

(** The preset that [py7zr] is opened with is the level as given. *)
Lemma create_7z_archive_preset src out pw lvl w w1 :
  _ensure_dir (PyPath.parent out) w = (Ok tt, w1) →
  trace (create_7z_archive E src out pw lvl w).2 = trace w ++ [EvPy7zrWrite out pw lvl].
Proof.
  intros Hdir. unfold create_7z_archive. unfold mbind at 1, M_bind at 1. rewrite Hdir.
  rewrite <- (_ensure_dir_trace _ _ _ _ Hdir).
  unfold SevenZipFile_writeall. munfold. simpl.
  destruct (Os.write_file out (Raw []) _) as [[[]|e] w2] eqn:Hw;
    apply write_file_trace in Hw; simpl in Hw; [|done].
  destruct (py7zr_writeall E pw lvl _ _); done.
Qed.

(** So is the level that [pyminizip] is called with. *)
Lemma create_password_protected_zip_level src out pw lvl w w1 :
  pyminizip_importable E = true →
  _ensure_dir (PyPath.parent out) w = (Ok tt, w1) →
  ∃ fl pl, trace (create_password_protected_zip E src out pw lvl w).2
           = trace w ++ [EvPyminizip fl pl out pw lvl].
Proof.
  intros Himp Hdir. unfold create_password_protected_zip. rewrite Himp.
  unfold mbind at 1, M_bind at 1. unfold mret at 1, M_ret at 1.
  unfold mbind at 1, M_bind at 1. rewrite Hdir.
  rewrite <- (_ensure_dir_trace _ _ _ _ Hdir).
  unfold pyminizip_compress, Os.walk_files. munfold. simpl.
  eexists _, _.
  destruct (pyminizip_compress_multiple E _ _ pw lvl); [|done].
  destruct (Os.write_file out _ _) as [[[]|e] w2] eqn:Hw;
    apply write_file_trace in Hw; simpl in *; congruence.
Qed.

End level.

(** C5 (as amended).  The compression level is handed to the backend as it
    is given, neither clamped nor mapped: [create_7z_archive] opens [py7zr]
    with the LZMA2 preset equal to the level, [create_password_protected_zip]
    calls [pyminizip] with the level, and the plain ZIP path takes no level
    at all.  What becomes of a level outside the backend's range is the
    backend's doing. *)
Theorem compression_level_passed_verbatim (E : Env) (src out : path) (lvl : Z)
    (w w1 : world) :
  _ensure_dir (PyPath.parent out) w = (Ok tt, w1) →
  (∀ pw, trace (create_7z_archive E src out pw lvl w).2
         = trace w ++ [EvPy7zrWrite out pw lvl])
  ∧ (∀ pw, pyminizip_importable E = true →
       ∃ fl pl, trace (create_password_protected_zip E src out pw lvl w).2
                = trace w ++ [EvPyminizip fl pl out pw lvl])
  ∧ convert_create E ".zip" src out None lvl = _zip_directory E src out true.
Proof.
  intros Hdir. split; [|split].
  - intros pw. by eapply create_7z_archive_preset.
  - intros pw Himp. by eapply create_password_protected_zip_level.
  - done.
Qed.

Lemma compression_level_passed_verbatim_witness :
  _ensure_dir (PyPath.parent ["out"; "x.7z"]) Demo.w0 = (Ok tt, Demo.w_out)
  ∧ (∀ pw, trace (create_7z_archive (Demo.env Demo.all_installed)
                    ["data"; "src"] ["out"; "x.7z"] pw 12 Demo.w0).2
           = trace Demo.w0 ++ [EvPy7zrWrite ["out"; "x.7z"] pw 12])
  ∧ (∀ pw, pyminizip_importable (Demo.env Demo.all_installed) = true →
       ∃ fl pl, trace (create_password_protected_zip (Demo.env Demo.all_installed)
                         ["data"; "src"] ["out"; "x.7z"] pw 12 Demo.w0).2
                = trace Demo.w0 ++ [EvPyminizip fl pl ["out"; "x.7z"] pw 12])
  ∧ convert_create (Demo.env Demo.all_installed) ".zip" ["data"; "src"] ["out"; "x.7z"] None 12
    = _zip_directory (Demo.env Demo.all_installed) ["data"; "src"] ["out"; "x.7z"] true.
Proof.
  split; [vm_compute; reflexivity|].
  apply (compression_level_passed_verbatim (Demo.env Demo.all_installed)
           ["data"; "src"] ["out"; "x.7z"] 12 Demo.w0 Demo.w_out).
  vm_compute; reflexivity.
Defined.

(** Level 12 reaches [py7zr] as preset 12, above the LZMA2 presets 0 to 9;
    in an installation whose [py7zr] refuses such a preset, as liblzma does,
    the compression fails. *)
Lemma level_above_range_not_clamped :
  trace (create_7z_archive (Demo.env Demo.all_installed)
           ["data"; "src"] ["out"; "x.7z"] None 12 Demo.w0).2
  = [EvPy7zrWrite ["out"; "x.7z"] None 12]
  ∧ (create_7z_archive (Demo.env Demo.all_installed)
       ["data"; "src"] ["out"; "x.7z"] None 12 Demo.w0).1
    = Raise (LibError "py7zr" "Invalid or unsupported options")
  ∧ (create_7z_archive (Demo.env Demo.all_installed)
       ["data"; "src"] ["out"; "x.7z"] None 9 Demo.w0).1 = Ok ["out"; "x.7z"].
Proof. repeat split; vm_compute; reflexivity. Qed.

(** *** Making directories and writing files *)

Lemma node_at_ne (m : gmap path node) (p : path) : p ≠ [] → Os.node_at m p = m !! p.
Proof. by destruct p. Qed.

Lemma with_fs_same w : with_fs (fs w) w = w.
Proof. by destruct w. Qed.

Lemma makedirs_from_ok pre rest w :
  (∀ r c, r `prefix_of` rest → r ≠ [] → fs w !! (pre ++ r) ≠ Some (File c)) →
  ∃ m', Os.makedirs_from pre rest w = (Ok tt, with_fs m' w)
        ∧ (∀ r, r `prefix_of` rest → r ≠ [] → m' !! (pre ++ r) = Some Dir)
        ∧ (∀ q, (∀ r, r `prefix_of` rest → r ≠ [] → q ≠ pre ++ r) → m' !! q = fs w !! q).
Proof.
  revert pre w. induction rest as [|c rest IH]; intros pre w Hpre.
  { exists (fs w). rewrite with_fs_same. split; [done|]. split; [|done].
    intros r Hr Hne. apply prefix_nil_inv in Hr. done. }
  simpl. unfold Os.stat. munfold.
  assert (pre ++ [c] ≠ []) as Hq0 by (by destruct pre).
  rewrite (node_at_ne _ _ Hq0).
  assert (∀ r, r `prefix_of` c :: rest → r ≠ [] → ∃ r', r = c :: r' ∧ r' `prefix_of` rest)
    as Hsplit.
  { intros [|c' r'] Hr Hne; [done|]. apply prefix_cons_inv_1 in Hr as Hc. subst c'.
    apply prefix_cons_inv_2 in Hr. by exists r'. }
  destruct (fs w !! (pre ++ [c])) as [[|f]|] eqn:Hq.
  - destruct (IH (pre ++ [c]) w) as (m' & Hrun & Hdirs & Hframe).
    { intros r f Hr Hne. rewrite <- (assoc_L (++)). apply Hpre; [by apply prefix_cons|done]. }
    exists m'. split; [done|]. split.
    + intros r Hr Hne. destruct (Hsplit r Hr Hne) as (r' & -> & Hr').
      destruct r' as [|c' r'].
      * rewrite Hframe; [done|]. intros r Hr2 Hne2 Heq.
        apply (f_equal length) in Heq. rewrite !length_app in Heq. simpl in Heq.
        destruct r; [done|]. simpl in Heq. lia.
      * rewrite (cons_middle c pre (c' :: r')), (assoc_L (++)). by apply Hdirs.
    + intros q Hq'. apply Hframe. intros r Hr Hne. rewrite <- (assoc_L (++)).
      apply Hq'; [by apply prefix_cons|done].
  - exfalso. apply (Hpre [c] f); [apply prefix_cons, prefix_nil | done | done].
  - simpl.
    destruct (IH (pre ++ [c]) (with_fs (<[pre ++ [c] := Dir]> (fs w)) w))
      as (m' & Hrun & Hdirs & Hframe).
    { intros r f Hr Hne. simpl. rewrite lookup_insert_ne.
      - rewrite <- (assoc_L (++)). apply Hpre; [by apply prefix_cons|done].
      - intros Heq. apply (f_equal length) in Heq. rewrite !length_app in Heq.
        destruct r; [done|]. simpl in Heq. lia. }
    exists m'. split; [done|]. split.
    + intros r Hr Hne. destruct (Hsplit r Hr Hne) as (r' & -> & Hr').
      destruct r' as [|c' r'].
      * rewrite Hframe; [simpl; by rewrite lookup_insert_eq|]. intros r Hr2 Hne2 Heq.
        apply (f_equal length) in Heq. rewrite !length_app in Heq. simpl in Heq.
        destruct r; [done|]. simpl in Heq. lia.
      * rewrite (cons_middle c pre (c' :: r')), (assoc_L (++)). by apply Hdirs.
    + intros q Hq'. rewrite Hframe.
      * simpl. apply lookup_insert_ne. intros <-.
        apply (Hq' [c]); [apply prefix_cons, prefix_nil | done | done].
      * intros r Hr Hne. rewrite <- (assoc_L (++)).
        apply Hq'; [by apply prefix_cons|done].
Qed.

(** [os.makedirs(d, exist_ok=True)] when no regular file is in the way: the
    directory and what is above it are directories afterwards, and nothing
    else has changed. *)
Lemma makedirs_ok d w :
  creatable (fs w) d →
  ∃ m', Os.makedirs d w = (Ok tt, with_fs m' w)
        ∧ (∀ q, q `prefix_of` d → q ≠ [] → m' !! q = Some Dir)
        ∧ (∀ q, ¬ q `prefix_of` d ∨ q = [] → m' !! q = fs w !! q).
Proof.
  intros Hc. destruct (makedirs_from_ok [] d w) as (m' & Hrun & Hdirs & Hframe).
  { intros r c Hr _. by apply Hc. }
  exists m'. split; [done|]. split; [done|].
  intros q Hq. apply Hframe. intros r Hr Hne ->. simpl in Hq. by destruct Hq.
Qed.

Lemma write_file_ok p c w :
  p ≠ [] →
  Os.node_at (fs w) (PyPath.parent p) = Some Dir →
  fs w !! p ≠ Some Dir →
  Os.write_file p c w = (Ok tt, with_fs (<[p := File c]> (fs w)) w).
Proof.
  intros Hne Hup Hp. unfold Os.write_file, Os.stat. munfold. rewrite Hup.
  rewrite (node_at_ne _ _ Hne). by destruct (fs w !! p) as [[|f]|].
Qed.

Lemma parent_app (d rel : path) : rel ≠ [] → PyPath.parent (d ++ rel) = d ++ PyPath.parent rel.
Proof. intros Hne. unfold PyPath.parent. by apply removelast_app. Qed.

Lemma parent_strict (p : path) : p ≠ [] → PyPath.parent p ≠ p.
Proof.
  intros Hne Heq. apply (f_equal length) in Heq.
  unfold PyPath.parent in Heq. destruct (exists_last Hne) as (l & a & ->).
  rewrite removelast_last, length_app in Heq. simpl in Heq. lia.
Qed.

Lemma parent_last (l : path) (a : string) : PyPath.parent (l ++ [a]) = l.
Proof. apply removelast_last. Qed.

(** *** Extracting members into a new directory *)

Lemma check_password_ok E enc pwd mb w :
  unlocks enc pwd → Zipfile.check_password E enc pwd mb w = (Ok None, w).
Proof.
  unfold unlocks, Zipfile.check_password. destruct enc as [pw|]; [|done].
  intros [-> Hne]. simpl. destruct (String.eqb_spec pw ""); [done|]. simpl.
  by rewrite bool_decide_eq_true_2.
Qed.

Lemma prefix_parent (r rel : path) :
  rel ≠ [] → r `prefix_of` PyPath.parent rel ↔ r `prefix_of` rel ∧ r ≠ rel.
Proof.
  intros Hne. destruct (exists_last Hne) as (l & a & ->). rewrite parent_last. split.
  - intros Hr. split; [by apply prefix_app_r|]. intros ->.
    apply prefix_length in Hr. rewrite length_app in Hr. simpl in Hr. lia.
  - intros [[k Hk] Hneq]. destruct (decide (k = [])) as [->|Hk0].
    + by rewrite (right_id_L [] (++)) in Hk.
    + destruct (exists_last Hk0) as (k' & b & ->). rewrite (assoc_L (++)) in Hk.
      apply app_inj_tail in Hk as [-> _]. by exists k'.
Qed.

Section extracting.

Context (out : path) (m1 : gmap path node).
Context (Hout : out ≠ []).
Context (Hroot : ∀ c, m1 !! [] ≠ Some (File c)).
Context (Habove : ∀ q, q `prefix_of` out → q ≠ out → q ≠ [] → m1 !! q = Some Dir).

Lemma out_app_ne rel : out ++ rel ≠ [].
Proof. by destruct out. Qed.

Lemma not_below_above (q : path) (r : path) :
  q `prefix_of` out ++ r → ¬ out `prefix_of` q → q `prefix_of` out ∧ q ≠ out.
Proof.
  intros Hq Hn. destruct (prefix_weak_total q out (out ++ r) Hq (prefix_app_r _ _ _ (reflexivity _)))
    as [H|H]; [|done].
  split; [done|]. intros ->. by apply Hn.
Qed.

(** One more member: it is written, and the state is again as described. *)
Lemma extract_one_ok E enc pwd done_ m mb w :
  unlocks enc pwd →
  extracting out m1 done_ m →
  mb.1 ≠ [] →
  (∀ mb', mb' ∈ done_ → ¬ mb.1 `prefix_of` mb'.1 ∧ ¬ mb'.1 `prefix_of` mb.1) →
  ∃ m', Zipfile.extract_one E enc pwd out mb (with_fs m w) = (Ok tt, with_fs m' w)
        ∧ extracting out m1 (done_ ++ [mb]) m'.
Proof.
  destruct mb as [rel c]. simpl. intros Hpw (HF & HI1 & HI2) Hrel Hinc.
  set (target := out ++ rel). set (upper := out ++ PyPath.parent rel).
  assert (Hdirs_above : ∀ q, q `prefix_of` out → q ≠ [] → m !! q = Some Dir).
  { intros q Hq Hne. destruct (decide (q = out)) as [->|Hqo].
    - rewrite <- (right_id_L [] (++) out). apply HI2. by left.
    - rewrite HF; [by apply Habove|]. intros Hoq. apply Hqo. by apply (anti_symm prefix). }
  assert (Hnofile : ∀ r c', r `prefix_of` PyPath.parent rel → m !! (out ++ r) ≠ Some (File c')).
  { intros r c' Hr Hf. apply HI1 in Hf. apply (prefix_parent _ _ Hrel) in Hr as [Hr _].
    by destruct (Hinc _ Hf) as [_ []]. }
  (* the directories above the target *)
  assert (∃ md, Os.exists_ upper (with_fs m w) = (Ok (bool_decide (is_Some (m !! upper))), with_fs m w)
                ∧ (if negb (bool_decide (is_Some (m !! upper)))
                   then Os.makedirs upper else mret tt) (with_fs m w) = (Ok tt, with_fs md w)
                ∧ (∀ q, q `prefix_of` upper → q ≠ [] → md !! q = Some Dir)
                ∧ (∀ q, ¬ q `prefix_of` upper ∨ q = [] → md !! q = m !! q))
    as (md & Hex & Hmk & HD1 & HD2).
  { destruct (m !! upper) as [n|] eqn:Hup.
    - exists m. split.
      { rewrite exists_run. simpl. rewrite (node_at_ne m upper (out_app_ne _)). by rewrite Hup. }
      rewrite bool_decide_eq_true_2 by done. simpl. split; [done|]. split; [|done].
      intros q Hq Hne.
      destruct (decide (out `prefix_of` q)) as [[r ->]|Hnb].
      + apply prefix_app_inv in Hq. apply HI2.
        destruct (decide (r = [])) as [->|Hr]; [by left|]. right.
        destruct n as [|f]; [|by destruct (Hnofile (PyPath.parent rel) f)].
        apply HI2 in Hup as [Hup|(mb' & Hin & Hpre & Hneq)].
        * rewrite Hup in Hq. by apply prefix_nil_inv in Hq.
        * exists mb'. split; [done|]. split; [by etrans|]. intros ->.
          apply Hneq. by apply (anti_symm prefix).
      + apply Hdirs_above; [|done]. by apply (not_below_above _ _ Hq).
    - destruct (makedirs_ok upper (with_fs m w)) as (md & Hrun & HD1 & HD2).
      { intros q c' Hq Hf. simpl in Hf.
        destruct (decide (out `prefix_of` q)) as [[r ->]|Hnb].
        - apply prefix_app_inv in Hq. by apply (Hnofile r c').
        - destruct (decide (q = [])) as [->|Hq0].
          + rewrite HF in Hf; [by apply (Hroot c')|]. intros Ho. by apply prefix_nil_inv in Ho.
          + destruct (not_below_above _ _ Hq Hnb) as [Hq1 _].
            by rewrite (Hdirs_above q Hq1 Hq0) in Hf. }
      exists md. split.
      { rewrite exists_run. simpl. rewrite (node_at_ne m upper (out_app_ne _)). by rewrite Hup. }
      rewrite bool_decide_eq_false_2 by (by intros [? ?]). simpl. done. }
  assert (Htarget : md !! target = m !! target).
  { apply HD2. left. intros Hp. apply prefix_app_inv in Hp.
    apply (prefix_parent _ _ Hrel) in Hp as [_ Hp]. done. }
  assert (Hnodir : m !! target ≠ Some Dir).
  { intros Hd. apply HI2 in Hd as [->|(mb' & Hin & Hpre & _)]; [done|].
    by destruct (Hinc _ Hin) as [[] _]. }
  exists (<[target := File c]> md). split.
  { unfold Zipfile.extract_one. cbn [fst snd]. rewrite (parent_app out rel Hrel).
    fold target. fold upper.
    unfold mbind at 1, M_bind at 1. rewrite Hex.
    unfold mbind at 1, M_bind at 1. rewrite Hmk.
    unfold mbind at 1, M_bind at 1. rewrite (check_password_ok _ _ _ _ _ Hpw).
    rewrite (write_file_ok target c (with_fs md w)); [done|apply out_app_ne| |].
    - simpl. unfold target. rewrite (parent_app out rel Hrel).
      rewrite (node_at_ne _ _ (out_app_ne _)). apply HD1; [done|apply out_app_ne].
    - simpl. by rewrite Htarget. }
  (* the state afterwards *)
  assert (Hmd : ∀ r, md !! (out ++ r) =
                     if decide (r `prefix_of` PyPath.parent rel) then Some Dir
                     else m !! (out ++ r)).
  { intros r. destruct (decide _) as [Hr|Hr].
    - apply HD1; [by apply prefix_app|apply out_app_ne].
    - apply HD2. left. intros Hp. by apply prefix_app_inv in Hp. }
  split; [|split].
  - intros p Hp. rewrite lookup_insert_ne by (intros <-; apply Hp; by apply prefix_app_r).
    destruct (decide (p `prefix_of` upper ∧ p ≠ [])) as [[Hpu Hp0]|Hn].
    + rewrite (HD1 p Hpu Hp0). destruct (not_below_above _ _ Hpu Hp) as [Hp1 Hp2].
      symmetry. by apply Habove.
    + rewrite HD2; [by apply HF|]. destruct (decide (p = [])); [by right|left]. intros Hpu. apply Hn. by split.
  - intros r c0. destruct (decide (r = rel)) as [->|Hne].
    + fold target. rewrite lookup_insert_eq. rewrite elem_of_app, list_elem_of_singleton. split.
      * intros [= ->]. by right.
      * intros [Hin|[= ->]]; [|done]. by destruct (Hinc _ Hin) as [[] _].
    + rewrite lookup_insert_ne by (unfold target; intros ?%app_inv_head; done).
      rewrite Hmd, elem_of_app, list_elem_of_singleton. destruct (decide _) as [Hr|Hr].
      * split; [done|]. intros [Hin|[= -> _]]; [|done].
        apply (prefix_parent _ _ Hrel) in Hr as [Hr _].
        by destruct (Hinc _ Hin) as [_ []].
      * rewrite HI1. split; [by left|]. intros [?|[= -> _]]; done.
  - intros r. destruct (decide (r = rel)) as [->|Hne].
    + fold target. rewrite lookup_insert_eq. split; [done|].
      intros [->|(mb' & Hin & Hpre & Hneq)]; [done|].
      apply elem_of_app in Hin as [Hin|Hin%list_elem_of_singleton].
      * by destruct (Hinc _ Hin) as [[] _].
      * subst mb'. done.
    + rewrite lookup_insert_ne by (unfold target; intros ?%app_inv_head; done).
      rewrite Hmd. destruct (decide _) as [Hr|Hr].
      * split; [|done]. intros _. destruct (decide (r = [])) as [->|Hr0]; [by left|right].
        exists (rel, c). rewrite elem_of_app, list_elem_of_singleton. split; [by right|].
        by apply (prefix_parent _ _ Hrel).
      * rewrite HI2. split.
        -- intros [->|(mb' & Hin & Hpre & Hneq)]; [by left|right].
           exists mb'. rewrite elem_of_app. split; [by left|done].
        -- intros [->|(mb' & Hin & Hpre & Hneq)]; [by left|].
           apply elem_of_app in Hin as [Hin|Hin%list_elem_of_singleton].
           ++ right. by exists mb'.
           ++ subst mb'. exfalso. apply Hr. by apply (prefix_parent _ _ Hrel).
Qed.

End extracting.

Lemma names_ok_next (done_ : list member) (mb : member) (todo : list member) :
  names_ok (done_ ++ mb :: todo) →
  mb.1 ≠ []
  ∧ ∀ mb', mb' ∈ done_ → ¬ mb.1 `prefix_of` mb'.1 ∧ ¬ mb'.1 `prefix_of` mb.1.
Proof.
  intros (Hnd & Hne & Hpre). split.
  { apply Hne. rewrite elem_of_app, elem_of_cons. by right; left. }
  intros mb' Hin.
  assert (mb.1 ≠ mb'.1) as Hneq.
  { rewrite fmap_app, fmap_cons in Hnd. apply NoDup_app in Hnd as (_ & Hnd & _).
    intros Heq. apply (Hnd mb'.1).
    - apply list_elem_of_fmap. by exists mb'.
    - rewrite Heq. by left. }
  assert (mb ∈ done_ ++ mb :: todo) as Hmb by (rewrite elem_of_app, elem_of_cons; by right; left).
  assert (mb' ∈ done_ ++ mb :: todo) as Hmb' by (rewrite elem_of_app; by left).
  split; intros Hp.
  - by apply Hneq, Hpre.
  - apply Hneq. symmetry. by apply Hpre.
Qed.

Section extractall.

Context (out : path) (m1 : gmap path node).
Context (Hout : out ≠ []).
Context (Hroot : ∀ c, m1 !! [] ≠ Some (File c)).
Context (Habove : ∀ q, q `prefix_of` out → q ≠ out → q ≠ [] → m1 !! q = Some Dir).

Lemma for_each_extract_one_ok E enc pwd todo done_ m w :
  unlocks enc pwd →
  names_ok (done_ ++ todo) →
  extracting out m1 done_ m →
  ∃ m', for_each todo (Zipfile.extract_one E enc pwd out) (with_fs m w) = (Ok tt, with_fs m' w)
        ∧ extracting out m1 (done_ ++ todo) m'.
Proof.
  intros Hpw. revert done_ m. induction todo as [|mb todo IH]; intros done_ m Hok Hinv.
  { exists m. by rewrite (right_id_L [] (++)). }
  destruct (names_ok_next _ _ _ Hok) as [Hne Hinc].
  destruct (extract_one_ok out m1 Hout Hroot Habove E enc pwd done_ m mb w Hpw Hinv Hne Hinc)
    as (m2 & Hrun & Hinv2).
  destruct (IH (done_ ++ [mb]) m2) as (m' & Hrun' & Hinv').
  { by rewrite <- (assoc_L (++)). }
  { done. }
  exists m'. split.
  - simpl. unfold mbind, M_bind. by rewrite Hrun.
  - by rewrite <- (assoc_L (++)) in Hinv'.
Qed.

End extractall.

(** Extracting an archive whose password is given, into a directory that
    is not there yet: every member is written, and the regular files below
    the directory are the members. *)
Lemma extractall_into_new_dir E enc pwd ms out w :
  unlocks enc pwd →
  names_ok ms →
  out ≠ [] →
  creatable (fs w) out →
  vacant (fs w) out →
  ∃ w1 m',
    _ensure_dir out w = (Ok tt, w1)
    ∧ Zipfile.extractall E (enc, ms) pwd out w1 = (Ok tt, with_fs m' w1)
    ∧ trace w1 = trace w
    ∧ (∀ p, ¬ p `prefix_of` out ∨ p = [] → fs w1 !! p = fs w !! p)
    ∧ extracting out (fs w1) ms m'.
Proof.
  intros Hpw Hok Hout Hcre Hvac.
  destruct (makedirs_ok out w Hcre) as (ma & Hrun & Hdirs & Hframe).
  assert (extracting out ma [] ma) as Hinv.
  { split; [done|]. split.
    - intros rel c. rewrite elem_of_nil. split; [|done]. intros Hf.
      destruct (decide (rel = [])) as [->|Hrel].
      + rewrite (right_id_L [] (++)), Hdirs in Hf; done.
      + rewrite Hframe, Hvac in Hf; [done|by apply prefix_app_r|]. left. intros Hp.
        apply prefix_length in Hp. rewrite length_app in Hp. destruct rel; [done|].
        simpl in Hp. lia.
    - intros rel. split.
      + intros Hd. destruct (decide (rel = [])) as [->|Hrel]; [by left|].
        rewrite Hframe, Hvac in Hd; [done|by apply prefix_app_r|]. left. intros Hp.
        apply prefix_length in Hp. rewrite length_app in Hp. destruct rel; [done|].
        simpl in Hp. lia.
      + intros [->|(mb & Hin & _)]; [|by apply elem_of_nil in Hin].
        rewrite (right_id_L [] (++)). by apply Hdirs. }
  destruct (for_each_extract_one_ok out ma Hout) with (E := E) (enc := enc) (pwd := pwd)
    (todo := ms) (done_ := @nil member) (m := ma) (w := with_fs ma w)
    as (m' & Hrun' & Hinv'); try done.
  { intros c. rewrite Hframe; [apply Hcre, prefix_nil|by right]. }
  { intros q Hq _ Hq0. by apply Hdirs. }
  exists (with_fs ma w), m'. split; [done|].
  split; [exact Hrun'|]. split; [done|]. split; [|done].
  intros p Hp. simpl. by apply Hframe.
Qed.

(** *** Zipping a directory *)

Lemma files_below_elem (m : gmap path node) (d full : path) :
  full ∈ Os.files_below m d
  ↔ (∃ c, m !! full = Some (File c)) ∧ d `prefix_of` full ∧ full ≠ d.
Proof.
  unfold Os.files_below. rewrite list_elem_of_fmap. split.
  - intros ([p n] & -> & Hin). apply elem_of_map_to_list in Hin.
    apply map_lookup_filter_Some in Hin as [Hm (Hf & Hp & Hne)]. simpl in *.
    destruct n as [|c]; [done|]. split; [by exists c|done].
  - intros ([c Hc] & Hp & Hne). exists (full, File c). split; [done|].
    apply elem_of_map_to_list, map_lookup_filter_Some. done.
Qed.

Lemma files_below_NoDup (m : gmap path node) (d : path) : NoDup (Os.files_below m d).
Proof. unfold Os.files_below. apply NoDup_fst_map_to_list. Qed.

Lemma relpath_app (d rel : path) : PyPath.relpath (d ++ rel) d = rel.
Proof. unfold PyPath.relpath. by rewrite drop_app_length. Qed.

Section zip_directory.

Context (E : Env).
Context (Hperm : ∀ l, walk_order E l ≡ₚ l).

Lemma members_below_elem (m : gmap path node) (d rel : path) (c : content) :
  (rel, c) ∈ members_below E m d ↔ rel ≠ [] ∧ m !! (d ++ rel) = Some (File c).
Proof.
  unfold members_below. rewrite list_elem_of_omap. split.
  - intros (full & Hin & Hg). rewrite Hperm in Hin.
    apply files_below_elem in Hin as (_ & [k ->] & Hne).
    destruct (m !! (d ++ k)) as [[|c']|] eqn:Hm; try done.
    rewrite relpath_app in Hg. injection Hg as <- <-. split; [|done].
    intros ->. by rewrite (right_id_L [] (++)) in Hne.
  - intros [Hne Hm]. exists (d ++ rel). split.
    + rewrite Hperm. apply files_below_elem. split; [by exists c|].
      split; [by apply prefix_app_r|]. intros Heq.
      apply (f_equal length) in Heq. rewrite length_app in Heq. destruct rel; [done|].
      simpl in Heq. lia.
    + by rewrite Hm, relpath_app.
Qed.

Lemma members_below_names_NoDup (m : gmap path node) (d : path) :
  NoDup (members_below E m d).*1.
Proof.
  unfold members_below.
  assert (NoDup (walk_order E (Os.files_below m d))) as Hnd.
  { rewrite Hperm. apply files_below_NoDup. }
  assert (∀ full, full ∈ walk_order E (Os.files_below m d) → d `prefix_of` full) as Hpre.
  { intros full Hin. rewrite Hperm in Hin. by apply files_below_elem in Hin as (_ & ? & _). }
  induction (walk_order E (Os.files_below m d)) as [|full l IH]; simpl; [constructor|].
  apply NoDup_cons in Hnd as [Hnotin Hnd].
  specialize (IH Hnd (λ f Hf, Hpre f (list_elem_of_further _ _ _ Hf))).
  destruct (m !! full) as [[|c]|]; try done. simpl. apply NoDup_cons. split; [|done].
  intros Hin. apply list_elem_of_fmap in Hin as ([r c'] & Hr & Hin). simpl in Hr.
  apply list_elem_of_omap in Hin as (full' & Hin' & Hg).
  destruct (m !! full') as [[|c'']|]; try done. injection Hg as Hg _.
  apply Hnotin.
  destruct (Hpre full (list_elem_of_here _ _)) as [k ->].
  destruct (Hpre full' (list_elem_of_further _ _ _ Hin')) as [k' ->].
  rewrite relpath_app in Hr. rewrite relpath_app in Hg. by subst.
Qed.

Lemma members_below_names_ok (m : gmap path node) (d : path) :
  (∀ r1 r2 c1 c2, m !! (d ++ r1) = Some (File c1) → m !! (d ++ r2) = Some (File c2) →
                  r1 `prefix_of` r2 → r1 = r2) →
  names_ok (members_below E m d).
Proof.
  intros Hanti. split; [apply members_below_names_NoDup|]. split.
  - intros [r c] Hin. by apply members_below_elem in Hin as [? _].
  - intros [r1 c1] [r2 c2] H1 H2 Hp. simpl in *.
    apply members_below_elem in H1 as [_ H1]. apply members_below_elem in H2 as [_ H2].
    by eapply Hanti.
Qed.

(** The loop that adds the files to the open archive. *)
Lemma zip_write_loop (p src : path) (l : list path) (acc : list member) w :
  zip_open w !! p = Some acc →
  (∀ full, full ∈ l → full ≠ [] ∧ ∃ c, fs w !! full = Some (File c)) →
  ∃ w', for_each l (λ full, Zipfile.write p full (PyPath.relpath full src)) w = (Ok tt, w')
        ∧ fs w' = fs w ∧ trace w' = trace w
        ∧ zip_open w' !! p
          = Some (acc ++ omap (λ full, match fs w !! full with
                                       | Some (File c) => Some (PyPath.relpath full src, c)
                                       | _ => None
                                       end) l).
Proof.
  revert acc w. induction l as [|full l IH]; intros acc w Hopen Hfiles.
  { exists w. simpl. by rewrite (right_id_L [] (++)). }
  destruct (Hfiles full (list_elem_of_here _ _)) as [Hne [c Hc]].
  destruct (IH (acc ++ [(PyPath.relpath full src, c)])
              (World (fs w) (trace w) (UNRAR_TOOL w)
                 (alter (λ ms, ms ++ [(PyPath.relpath full src, c)]) p (zip_open w))))
    as (w' & Hrun & Hfs & Htr & Hzo).
  { simpl. by rewrite lookup_alter_eq, Hopen. }
  { intros f Hf. simpl. apply Hfiles. by right. }
  exists w'. split; [|split; [done|split; [done|]]].
  - simpl. unfold mbind at 1, M_bind at 1.
    unfold Zipfile.write, Os.read_file, Os.stat. munfold.
    rewrite (node_at_ne _ _ Hne), Hc. exact Hrun.
  - rewrite Hzo. simpl. rewrite Hc. simpl. by rewrite <- (assoc_L (++)).
Qed.

(** [_zip_directory] on a source tree, to an archive path outside it: the
    archive holds the regular files below the source under their relative
    names. *)
Lemma _zip_directory_ok (src zip : path) (compress : bool) w :
  zip ≠ [] →
  creatable (fs w) (PyPath.parent zip) →
  fs w !! zip ≠ Some Dir →
  ¬ src `prefix_of` zip →
  ∃ w1 ms,
    _zip_directory E src zip compress w = (Ok zip, w1)
    ∧ fs w1 !! zip = Some (File (Arc Zip None ms))
    ∧ (∀ rel c, (rel, c) ∈ ms ↔ rel ≠ [] ∧ fs w !! (src ++ rel) = Some (File c))
    ∧ NoDup ms.*1
    ∧ (∀ p, p ≠ zip → fs w1 !! p = fs w !! p
                      ∨ (fs w1 !! p = Some Dir ∧ p `prefix_of` PyPath.parent zip)).
Proof.
  intros Hne Hcre Hnodir Hout.
  destruct (makedirs_ok (PyPath.parent zip) w Hcre) as (ma & Hrun & Hdirs & Hframe).
  assert (ma !! zip = fs w !! zip) as Hzip.
  { apply Hframe. left. intros Hp. apply prefix_length in Hp.
    destruct (exists_last Hne) as (l & a & ->). rewrite parent_last, length_app in Hp.
    simpl in Hp. lia. }
  assert (Os.node_at ma (PyPath.parent zip) = Some Dir) as Hup.
  { destruct (PyPath.parent zip) as [|c' l'] eqn:Hpar; [done|].
    simpl. by apply Hdirs. }
  set (mb := <[zip := File (Raw [])]> ma).
  assert (∀ rel c, mb !! (src ++ rel) = Some (File c) ↔ fs w !! (src ++ rel) = Some (File c))
    as Hagree.
  { intros rel c. unfold mb.
    rewrite lookup_insert_ne by (intros ->; apply Hout; by apply prefix_app_r).
    destruct (decide (src ++ rel `prefix_of` PyPath.parent zip ∧ src ++ rel ≠ []))
      as [[Hp Hp0]|Hn].
    - rewrite (Hdirs _ Hp Hp0). split; [done|]. intros Hf. by destruct (Hcre _ _ Hp Hf).
    - rewrite Hframe; [done|]. destruct (decide (src ++ rel = [])); [by right|left].
      intros ?. by apply Hn. }
  set (w_open := World mb (trace w) (UNRAR_TOOL w) (<[zip := []]> (zip_open w))).
  destruct (zip_write_loop zip src (walk_order E (Os.files_below mb src)) [] w_open)
    as (w2 & Hloop & Hfs2 & Htr2 & Hzo2).
  { simpl. by rewrite lookup_insert_eq. }
  { intros full Hin. rewrite Hperm in Hin. apply files_below_elem in Hin as (Hc & Hp & Hn).
    split; [|done]. intros ->. apply prefix_nil_inv in Hp. by subst. }
  simpl in Hzo2. fold (members_below E mb src) in Hzo2.
  eexists _, (members_below E mb src). split; [|split; [|split; [|split]]].
  - unfold _zip_directory, _ensure_dir, Zipfile.with_ZipFile_w, Zipfile.open_w,
      Zipfile.close_w, Os.walk_files.
    munfold. rewrite Hrun.
    rewrite (write_file_ok zip (Raw []) (with_fs ma w) Hne Hup) by (simpl; by rewrite Hzip).
    cbn [with_fs fs trace UNRAR_TOOL zip_open].
    unfold w_open, mb in Hloop. rewrite Hloop. rewrite Hzo2. reflexivity.
  - simpl. by rewrite lookup_insert_eq.
  - intros rel c. rewrite members_below_elem. by rewrite Hagree.
  - apply members_below_names_NoDup.
  - intros p Hp. simpl. rewrite lookup_insert_ne by done. rewrite Hfs2. simpl. unfold mb.
    rewrite lookup_insert_ne by done.
    destruct (decide (p `prefix_of` PyPath.parent zip ∧ p ≠ [])) as [[Hp1 Hp2]|Hn].
    + right. split; [by apply Hdirs|done].
    + left. apply Hframe. destruct (decide (p = [])); [by right|left]. intros ?. by apply Hn.
Qed.

End zip_directory.

(** *** The round trip *)

Lemma file_at_eq (m m' : gmap path node) (p p' : path) :
  (∀ c, m !! p = Some (File c) ↔ m' !! p' = Some (File c)) → file_at m p = file_at m' p'.
Proof.
  intros H. unfold file_at.
  destruct (m !! p) as [[|c]|] eqn:Hp; destruct (m' !! p') as [[|c']|] eqn:Hp'; try done;
    try (by pose proof (proj1 (H c) eq_refl)); try (by pose proof (proj2 (H c') eq_refl)).
  pose proof (proj1 (H c) eq_refl) as [= ->]. done.
Qed.

(** C3.  Zipping the files below a directory with no password and
    extracting the archive into a new directory gives back the same files:
    for every relative name, the regular file under that name below the
    destination is the one below the source, with the same content, or there
    is none in either place.  This holds in whatever order [os.walk] meets
    the files.  The archive path ends in [.zip], can be written and lies
    outside the source; the destination is new and apart from the archive
    path. *)
Theorem zip_round_trip (E : Env) (src zip out : path) (w : world) :
  (∀ l, walk_order E l ≡ₚ l) →
  fs_wf (fs w) →
  fs w !! src = Some Dir →
  PyStr.endswith (PyStr.lower (PyPath.render zip)) ".zip" = true →
  creatable (fs w) (PyPath.parent zip) →
  fs w !! zip ≠ Some Dir →
  ¬ src `prefix_of` zip →
  creatable (fs w) out →
  vacant (fs w) out →
  ¬ out `prefix_of` zip →
  ¬ zip `prefix_of` out →
  ∃ w1 w2,
    _zip_directory E src zip true w = (Ok zip, w1)
    ∧ extract_archive E zip out None w1 = (Ok out, w2)
    ∧ ∀ rel, file_at (fs w2) (out ++ rel) = file_at (fs w) (src ++ rel).
Proof.
  intros Hperm Hwf Hsrc Hname Hzcre Hznodir Hzsrc Hocre Hovac Hoz Hzo.
  assert (zip ≠ []) as Hzne by (by intros ->).
  assert (out ≠ []) as Hone.
  { intros ->. by rewrite (Hovac src (prefix_nil _)) in Hsrc. }
  destruct (_zip_directory_ok E Hperm src zip true w Hzne Hzcre Hznodir Hzsrc)
    as (w1 & ms & Hrun1 & Hzip & Hms & Hnd & Hrest).
  assert (names_ok ms) as Hok.
  { split; [done|]. split.
    - intros [r c] Hin. by apply Hms in Hin as [? _].
    - intros [r1 c1] [r2 c2] H1 H2 Hp. simpl in *.
      apply Hms in H1 as [Hr1 H1]. apply Hms in H2 as [Hr2 H2].
      destruct (decide (r1 = r2)) as [|Hne]; [done|]. exfalso.
      assert (fs w !! (src ++ r1) = Some Dir) as Hd; [|by rewrite H1 in Hd].
      apply (Hwf (src ++ r2)); [by rewrite H2|by apply prefix_app| |].
      + by intros ?%app_inv_head.
      + intros Heq. apply app_eq_nil in Heq as [_ ?]. done. }
  assert (creatable (fs w1) out) as Hcre1.
  { intros q c Hq Hf. destruct (decide (q = zip)) as [->|Hqz]; [done|].
    destruct (Hrest q Hqz) as [Heq|[Heq _]]; rewrite Heq in Hf; [|done].
    by apply (Hocre q c). }
  assert (vacant (fs w1) out) as Hvac1.
  { intros p Hp. destruct (decide (p = zip)) as [->|Hpz]; [done|].
    destruct (Hrest p Hpz) as [Heq|[_ Hpp]]; [rewrite Heq; by apply Hovac|].
    exfalso. apply Hoz. etrans; [done|]. etrans; [done|]. apply parent_prefix. }
  destruct (extractall_into_new_dir E None None ms out w1 I Hok Hone Hcre1 Hvac1)
    as (w1' & m' & Hdir & Hex & _ & Hframe & (_ & HI1 & _)).
  exists w1, (with_fs m' w1'). split; [done|]. split.
  - unfold extract_archive. unfold mbind at 1, M_bind at 1. rewrite Hdir.
    cbv zeta. rewrite Hname.
    unfold mbind at 1, M_bind at 1.
    assert (Zipfile.open_r zip w1' = (Ok (None, ms), w1')) as ->.
    { unfold Zipfile.open_r, Os.stat. munfold. rewrite (node_at_ne _ _ Hzne).
      rewrite Hframe by (by left). by rewrite Hzip. }
    unfold mbind at 1, M_bind at 1. simpl. by rewrite Hex.
  - intros rel. apply file_at_eq. intros c. simpl. rewrite HI1, Hms.
    split; [by intros [_ ?]|]. intros Hf. split; [|done]. intros ->.
    rewrite (right_id_L [] (++)) in Hf. by rewrite Hsrc in Hf.
Qed.

(** *** Checking a given disk *)

Lemma ancestors_or_self_elem (p q : path) :
  q ∈ PyPath.ancestors_or_self p ↔ q `prefix_of` p ∧ q ≠ [].
Proof.
  split.
  - intros Hq. split; [by apply ancestors_or_self_prefix|].
    intros ->. induction p as [|c p IH]; simpl in Hq; [by apply elem_of_nil in Hq|].
    apply elem_of_cons in Hq as [?|Hq]; [done|].
    by apply list_elem_of_fmap in Hq as (? & ? & _).
  - revert q. induction p as [|c p IH]; intros q [Hq Hne].
    { by apply prefix_nil_inv in Hq. }
    destruct q as [|c' q]; [done|].
    apply prefix_cons_inv_1 in Hq as Hc. subst c'. apply prefix_cons_inv_2 in Hq.
    simpl. destruct q as [|c'' q]; [by left|]. right.
    apply list_elem_of_fmap. exists (c'' :: q). split; [done|]. by apply IH.
Qed.

Lemma fs_wf_b_sound (m : gmap path node) : fs_wf_b m = true → fs_wf m.
Proof.
  unfold fs_wf_b. intros Hb p q [n Hn] Hq Hneq Hne.
  apply Is_true_true_2, forallb_True in Hb. rewrite Forall_forall in Hb.
  specialize (Hb (p, n)). simpl in Hb.
  assert (p ≠ []) as Hp by (intros ->; by apply prefix_nil_inv in Hq).
  assert (Is_true (forallb (λ q, is_dir_opt (m !! q))
                     (PyPath.ancestors_or_self (PyPath.parent p)))) as Hall.
  { apply Hb. by apply elem_of_map_to_list. }
  apply forallb_True in Hall. rewrite Forall_forall in Hall.
  specialize (Hall q). simpl in Hall.
  assert (Is_true (is_dir_opt (m !! q))) as Hd.
  { apply Hall. apply ancestors_or_self_elem. split; [|done]. by apply prefix_parent. }
  by destruct (m !! q) as [[|f]|].
Qed.

Lemma creatable_b_sound (m : gmap path node) (d : path) :
  creatable_b m d = true → creatable m d.
Proof.
  unfold creatable_b. intros Hb q c Hq Hf.
  apply Is_true_true_2, forallb_True in Hb. rewrite Forall_forall in Hb.
  specialize (Hb q). simpl in Hb. rewrite Hf in Hb. simpl in Hb. apply Hb.
  destruct (decide (q = [])) as [->|Hne]; [by left|right].
  by apply ancestors_or_self_elem.
Qed.

Lemma vacant_b_sound (m : gmap path node) (d : path) : vacant_b m d = true → vacant m d.
Proof.
  unfold vacant_b. intros Hb p Hp. destruct (m !! p) as [n|] eqn:Hn; [|done]. exfalso.
  assert ((p, n) ∈ map_to_list (filter (λ kv : path * node, d `prefix_of` kv.1) m)) as Hin.
  { apply elem_of_map_to_list, map_lookup_filter_Some. done. }
  destruct (map_to_list _); [by apply elem_of_nil in Hin|done].
Qed.

Lemma zip_round_trip_witness :
  (∀ l, walk_order (Demo.env Demo.all_installed) l ≡ₚ l)
  ∧ fs_wf (fs Demo.w0)
  ∧ fs Demo.w0 !! ["data"; "src"] = Some Dir
  ∧ PyStr.endswith (PyStr.lower (PyPath.render ["out"; "x.zip"])) ".zip" = true
  ∧ creatable (fs Demo.w0) (PyPath.parent ["out"; "x.zip"])
  ∧ fs Demo.w0 !! ["out"; "x.zip"] ≠ Some Dir
  ∧ ¬ ["data"; "src"] `prefix_of` ["out"; "x.zip"]
  ∧ creatable (fs Demo.w0) ["unpacked"]
  ∧ vacant (fs Demo.w0) ["unpacked"]
  ∧ ¬ ["unpacked"] `prefix_of` ["out"; "x.zip"]
  ∧ ¬ ["out"; "x.zip"] `prefix_of` ["unpacked"]
  ∧ ∃ w1 w2,
      _zip_directory (Demo.env Demo.all_installed) ["data"; "src"] ["out"; "x.zip"] true Demo.w0
      = (Ok ["out"; "x.zip"], w1)
      ∧ extract_archive (Demo.env Demo.all_installed) ["out"; "x.zip"] ["unpacked"] None w1
        = (Ok ["unpacked"], w2)
      ∧ ∀ rel, file_at (fs w2) (["unpacked"] ++ rel)
               = file_at (fs Demo.w0) (["data"; "src"] ++ rel).
Proof.
  assert (∀ l, walk_order (Demo.env Demo.all_installed) l ≡ₚ l) as H1 by done.
  assert (fs_wf (fs Demo.w0)) as H2 by (apply fs_wf_b_sound; vm_compute; reflexivity).
  assert (fs Demo.w0 !! ["data"; "src"] = Some Dir) as H3 by (vm_compute; reflexivity).
  assert (PyStr.endswith (PyStr.lower (PyPath.render ["out"; "x.zip"])) ".zip" = true) as H4
    by reflexivity.
  assert (creatable (fs Demo.w0) (PyPath.parent ["out"; "x.zip"])) as H5
    by (apply creatable_b_sound; vm_compute; reflexivity).
  assert (fs Demo.w0 !! ["out"; "x.zip"] ≠ Some Dir) as H6 by (vm_compute; discriminate).
  assert (¬ ["data"; "src"] `prefix_of` ["out"; "x.zip"]) as H7 by (by intros [k [=]]).
  assert (creatable (fs Demo.w0) ["unpacked"]) as H8
    by (apply creatable_b_sound; vm_compute; reflexivity).
  assert (vacant (fs Demo.w0) ["unpacked"]) as H9
    by (apply vacant_b_sound; vm_compute; reflexivity).
  assert (¬ ["unpacked"] `prefix_of` ["out"; "x.zip"]) as H10 by (by intros [k [=]]).
  assert (¬ ["out"; "x.zip"] `prefix_of` ["unpacked"]) as H11 by (by intros [k [=]]).
  repeat (split; [assumption|]).
  exact (zip_round_trip (Demo.env Demo.all_installed) ["data"; "src"] ["out"; "x.zip"]
           ["unpacked"] Demo.w0 H1 H2 H3 H4 H5 H6 H7 H8 H9 H10 H11).
Defined.

(** The sample tree, zipped and extracted again. *)
Example zip_round_trip_run :
  let w1 := (_zip_directory (Demo.env Demo.all_installed)
               ["data"; "src"] ["out"; "x.zip"] true Demo.w0).2 in
  let w2 := (extract_archive (Demo.env Demo.all_installed)
               ["out"; "x.zip"] ["unpacked"] None w1).2 in
  file_at (fs w2) ["unpacked"; "a.txt"] = Some Demo.hello
  ∧ file_at (fs w2) ["unpacked"; "b"; "c.txt"] = Some Demo.world_
  ∧ file_at (fs w2) ["unpacked"; "b"] = None.
Proof. vm_compute. repeat split; reflexivity. Qed.

(** *** Passwords *)





Lemma extract_archive_zip E p out pw w w1 :
  PyStr.endswith (PyStr.lower (PyPath.render p)) ".zip" = true →
  _ensure_dir out w = (Ok tt, w1) →
  extract_archive E p out pw w
  = (zf ← Zipfile.open_r p;
     Zipfile.extractall E zf (if PyStr.truthy pw then pw else None) out ;;
     mret out) w1.
Proof.
  intros Hzip Hdir. unfold extract_archive. unfold mbind at 1, M_bind at 1. rewrite Hdir.
  cbv zeta. by rewrite Hzip.
Qed.





(** On the encrypted ZIP of the sample disk, a wrong password that gets
    past the check byte is reported as a damaged archive is, and the
    target file is left behind, empty. *)
Example wrong_zip_password_past_the_check_byte :
  zipcrypto_slip (Demo.env Demo.all_installed) "s3cret" "s3crfs" (["a.txt"], Demo.hello)
  = Some (BadCrc32 (Raw []))
  ∧ (extract_archive (Demo.env Demo.all_installed) ["data"; "locked.zip"] ["unpacked"]
       (Some "s3crfs") Demo.w0).1 = Raise (BadZipFile "Bad CRC-32 for file 'a.txt'")
  ∧ file_at (fs (extract_archive (Demo.env Demo.all_installed) ["data"; "locked.zip"]
                   ["unpacked"] (Some "s3crfs") Demo.w0).2) ["unpacked"; "a.txt"]
    = Some (Raw []).
Proof. vm_compute. repeat split; reflexivity. Qed.

(** The encrypted ZIP of the sample disk, with its password, with another
    one and with none. *)
Example locked_zip_runs :
  (extract_archive (Demo.env Demo.all_installed) ["data"; "locked.zip"] ["unpacked"]
     (Some "s3cret") Demo.w0).1 = Ok ["unpacked"]
  ∧ (extract_archive (Demo.env Demo.all_installed) ["data"; "locked.zip"] ["unpacked"]
       (Some "guess") Demo.w0).1 = Raise (RuntimeError "Bad password for file 'a.txt'")
  ∧ (extract_archive (Demo.env Demo.all_installed) ["data"; "locked.zip"] ["unpacked"]
       None Demo.w0).1
    = Raise (RuntimeError "File 'a.txt' is encrypted, password required for extraction").
Proof. vm_compute. repeat split; reflexivity. Qed.

(** * Further properties of the module *)

(** *** Checking given member names *)

Lemma names_ok_b_sound (ms : list member) : names_ok_b ms = true → names_ok ms.
Proof.
  unfold names_ok_b. intros Hb.
  apply andb_true_iff in Hb as [Hb H3]. apply andb_true_iff in Hb as [H1 H2].
  apply bool_decide_eq_true in H1.
  apply Is_true_true_2, forallb_True in H2. rewrite Forall_forall in H2.
  apply Is_true_true_2, forallb_True in H3. rewrite Forall_forall in H3.
  split; [done|]. split.
  - intros m Hm. specialize (H2 m Hm). simpl in H2. by apply bool_decide_unpack in H2.
  - intros m1 m2 Hm1 Hm2. specialize (H3 m1 Hm1). simpl in H3.
    apply forallb_True in H3. rewrite Forall_forall in H3.
    specialize (H3 m2 Hm2). simpl in H3. by apply bool_decide_unpack in H3.
Qed.

Lemma plain_names_b_sound (ms : list member) : plain_names_b ms = true → plain_names ms.
Proof.
  unfold plain_names_b. intros Hb m c Hm Hc.
  apply Is_true_true_2, forallb_True in Hb. rewrite Forall_forall in Hb.
  specialize (Hb m Hm). simpl in Hb. apply forallb_True in Hb. rewrite Forall_forall in Hb.
  specialize (Hb c Hc). by apply Is_true_true_1.
Qed.

(** X1.  [_zip_directory] does not ask that the source holds anything, nor
    that it is there ([os.walk] passes over what it cannot list): when no
    regular file lies below [src_dir] the call returns and the archive it
    writes has no member. *)
Theorem _zip_directory_without_files (E : Env) (src zip : path) (compress : bool) (w : world) :
  (∀ l, walk_order E l ≡ₚ l) →
  zip ≠ [] →
  creatable (fs w) (PyPath.parent zip) →
  fs w !! zip ≠ Some Dir →
  ¬ src `prefix_of` zip →
  (∀ rel c, rel ≠ [] → fs w !! (src ++ rel) ≠ Some (File c)) →
  ∃ w1, _zip_directory E src zip compress w = (Ok zip, w1)
        ∧ fs w1 !! zip = Some (File (Arc Zip None [])).
Proof.
  intros Hperm Hne Hcre Hnodir Hout Hnone.
  destruct (_zip_directory_ok E Hperm src zip compress w Hne Hcre Hnodir Hout)
    as (w1 & ms & Hrun & Hzip & Hms & _).
  exists w1. split; [done|]. destruct ms as [|[rel c] ms]; [done|].
  destruct (proj1 (Hms rel c)) as [Hrel Hf]; [by left|]. by destruct (Hnone rel c).
Qed.

Lemma _zip_directory_without_files_witness :
  (∀ l, walk_order (Demo.env Demo.all_installed) l ≡ₚ l)
  ∧ ["out"; "x.zip"] ≠ []
  ∧ creatable (fs Demo.w0) (PyPath.parent ["out"; "x.zip"])
  ∧ fs Demo.w0 !! ["out"; "x.zip"] ≠ Some Dir
  ∧ ¬ ["nowhere"] `prefix_of` ["out"; "x.zip"]
  ∧ (∀ rel c, rel ≠ [] → fs Demo.w0 !! (["nowhere"] ++ rel) ≠ Some (File c))
  ∧ ∃ w1, _zip_directory (Demo.env Demo.all_installed) ["nowhere"] ["out"; "x.zip"] true Demo.w0
          = (Ok ["out"; "x.zip"], w1)
          ∧ fs w1 !! ["out"; "x.zip"] = Some (File (Arc Zip None [])).
Proof.
  assert (∀ l, walk_order (Demo.env Demo.all_installed) l ≡ₚ l) as H1 by done.
  assert (["out"; "x.zip"] ≠ []) as H2 by done.
  assert (creatable (fs Demo.w0) (PyPath.parent ["out"; "x.zip"])) as H3
    by (apply creatable_b_sound; vm_compute; reflexivity).
  assert (fs Demo.w0 !! ["out"; "x.zip"] ≠ Some Dir) as H4 by (vm_compute; discriminate).
  assert (¬ ["nowhere"] `prefix_of` ["out"; "x.zip"]) as H5 by (by intros [k [=]]).
  assert (∀ rel c, rel ≠ [] → fs Demo.w0 !! (["nowhere"] ++ rel) ≠ Some (File c)) as H6.
  { intros rel c _.
    assert (vacant (fs Demo.w0) ["nowhere"]) as Hv
      by (apply vacant_b_sound; vm_compute; reflexivity).
    by rewrite (Hv (["nowhere"] ++ rel)) by (by apply prefix_app_r). }
  repeat (split; [assumption|]).
  exact (_zip_directory_without_files (Demo.env Demo.all_installed) ["nowhere"] ["out"; "x.zip"]
           true Demo.w0 H1 H2 H3 H4 H5 H6).
Defined.



(** X3.  A format the analysis does not read is no error to it: when the
    suffix is none of [.zip], [.7z], [.rar], or it is [.rar] and the
    [rarfile] module is not there, the report is that of an empty archive
    (no names, nothing uncompressed, ratio 0) and has no error entry. *)
Theorem analyze_archive_info_unread_format (E : Env) (p : path) (c : content) (w : world) :
  p ≠ [] →
  fs w !! p = Some (File c) →
  let fmt := PyStr.lower (PyPath.suffix p) in
  fmt ≠ ".zip" →
  fmt ≠ ".7z" →
  fmt ≠ ".rar" ∨ rarfile_imported E = false →
  analyze_archive_info E p w
  = (Ok {| format := fmt;
           size := Os.byte_size E c;
           files := [];
           compression_ratio := PyInt 0;
           total_uncompressed := 0;
           error := None |}, w).
Proof.
  intros Hne Hp fmt Hzip H7z Hrar.
  unfold analyze_archive_info. fold fmt. unfold mbind at 1, M_bind at 1.
  unfold Os.getsize, Os.stat. munfold. rewrite (node_at_ne _ _ Hne), Hp.
  unfold analyze_branch.
  destruct (String.eqb_spec fmt ".zip") as [|_]; [done|].
  destruct (String.eqb_spec fmt ".7z") as [|_]; [done|].
  destruct (String.eqb_spec fmt ".rar") as [Heq|_].
  - destruct Hrar as [|Hno]; [done|].
    unfold _rarfile_can_extract. rewrite Hno. reflexivity.
  - reflexivity.
Qed.

Lemma analyze_archive_info_unread_format_witness :
  ["data"; "in.tar"] ≠ []
  ∧ fs Demo.w0 !! ["data"; "in.tar"] = Some (File (Arc Tar None [(["a.txt"], Demo.hello)]))
  ∧ PyStr.lower (PyPath.suffix ["data"; "in.tar"]) ≠ ".zip"
  ∧ PyStr.lower (PyPath.suffix ["data"; "in.tar"]) ≠ ".7z"
  ∧ (PyStr.lower (PyPath.suffix ["data"; "in.tar"]) ≠ ".rar"
     ∨ rarfile_imported (Demo.env Demo.all_installed) = false)
  ∧ analyze_archive_info (Demo.env Demo.all_installed) ["data"; "in.tar"] Demo.w0
    = (Ok {| format := PyStr.lower (PyPath.suffix ["data"; "in.tar"]);
             size := Os.byte_size (Demo.env Demo.all_installed)
                       (Arc Tar None [(["a.txt"], Demo.hello)]);
             files := [];
             compression_ratio := PyInt 0;
             total_uncompressed := 0;
             error := None |}, Demo.w0).
Proof.
  assert (["data"; "in.tar"] ≠ []) as H1 by done.
  assert (fs Demo.w0 !! ["data"; "in.tar"]
          = Some (File (Arc Tar None [(["a.txt"], Demo.hello)]))) as H2
    by (vm_compute; reflexivity).
  assert (PyStr.lower (PyPath.suffix ["data"; "in.tar"]) ≠ ".zip") as H3
    by (vm_compute; discriminate).
  assert (PyStr.lower (PyPath.suffix ["data"; "in.tar"]) ≠ ".7z") as H4
    by (vm_compute; discriminate).
  assert (PyStr.lower (PyPath.suffix ["data"; "in.tar"]) ≠ ".rar"
          ∨ rarfile_imported (Demo.env Demo.all_installed) = false) as H5
    by (left; vm_compute; discriminate).
  repeat (split; [assumption|]).
  exact (analyze_archive_info_unread_format (Demo.env Demo.all_installed) ["data"; "in.tar"]
           (Arc Tar None [(["a.txt"], Demo.hello)]) Demo.w0 H1 H2 H3 H4 H5).
Defined.

Lemma extract_member_eq (E : Env) (out : path) (m : member) (w : world) :
  Os.extract_member out m w = Zipfile.extract_one E None None out m w.
Proof.
  unfold Os.extract_member, Zipfile.extract_one, Zipfile.check_password.
  unfold mbind at 1 3, M_bind at 1 3. rewrite exists_run.
  unfold mbind at 1 2, M_bind at 1 2.
  by destruct ((if negb _ then Os.makedirs _ else mret tt) w) as [[[]|e] w1].
Qed.

Lemma tar_extractall_eq (E : Env) (ms : list member) (out : path) (w : world) :
  Tarfile.extractall ms out w = Zipfile.extractall E (None, ms) None out w.
Proof.
  unfold Tarfile.extractall, Zipfile.extractall. cbn [fst snd]. revert w.
  induction ms as [|m ms IH]; intros w; [done|].
  cbn [for_each]. unfold mbind, M_bind. rewrite (extract_member_eq E).
  destruct (Zipfile.extract_one E None None out m w) as [[[]|e] w1]; [apply IH|done].
Qed.

(** X4.  A TAR archive, plain or gzip-compressed, is extracted by [tarfile]
    without regard to the password that is passed: into a new directory,
    the call returns, the regular files below the destination are exactly
    the members with their contents, and nothing outside the process is
    called. *)
Theorem extract_archive_tar (E : Env) (p out : path) (password enc : option string)
    (k : ArchiveKind) (ms : list member) (w : world) :
  tar_route p = true →
  fs w !! p = Some (File (Arc k enc ms)) →
  k = Tar ∨ k = TarGz →
  names_ok ms →
  plain_names ms →
  creatable (fs w) out →
  vacant (fs w) out →
  ∃ w', extract_archive E p out password w = (Ok out, w')
        ∧ (∀ rel c, fs w' !! (out ++ rel) = Some (File c) ↔ (rel, c) ∈ ms)
        ∧ trace w' = trace w.
Proof.
  unfold tar_route. cbv zeta. intros Hroute Hp Hk Hok _ Hcre Hvac.
  apply andb_true_iff in Hroute as [Hzip%negb_true_iff Htar].
  assert (out ≠ []) as Hone.
  { intros ->. by rewrite (Hvac p (prefix_nil _)) in Hp. }
  assert (p ≠ []) as Hpne.
  { intros ->. by rewrite (Hvac [] (prefix_nil _)) in Hp || by vm_compute in Htar. }
  destruct (extractall_into_new_dir E None None ms out w I Hok Hone Hcre Hvac)
    as (w1 & m' & Hdir & Hex & Htr & Hframe & (_ & HI1 & _)).
  exists (with_fs m' w1). split; [|split; [done|by rewrite <- Htr]].
  unfold extract_archive. unfold mbind at 1, M_bind at 1. rewrite Hdir.
  cbv zeta. rewrite Hzip, Htar.
  assert (Tarfile.open_r p w1 = (Ok ms, w1)) as Hopen.
  { unfold Tarfile.open_r, Os.stat. munfold. rewrite (node_at_ne _ _ Hpne).
    rewrite Hframe; [|left; intros Hpre; by apply (Hcre _ _ Hpre Hp)].
    rewrite Hp. by destruct Hk as [-> | ->]. }
  unfold mbind at 1, M_bind at 1. rewrite Hopen.
  unfold mbind at 1, M_bind at 1. by rewrite (tar_extractall_eq E), Hex.
Qed.

Lemma extract_archive_tar_witness :
  tar_route ["data"; "in.tar"] = true
  ∧ fs Demo.w0 !! ["data"; "in.tar"] = Some (File (Arc Tar None [(["a.txt"], Demo.hello)]))
  ∧ (Tar = Tar ∨ Tar = TarGz)
  ∧ names_ok [(["a.txt"], Demo.hello)]
  ∧ plain_names [(["a.txt"], Demo.hello)]
  ∧ creatable (fs Demo.w0) ["unpacked"]
  ∧ vacant (fs Demo.w0) ["unpacked"]
  ∧ ∃ w', extract_archive (Demo.env Demo.nothing_installed) ["data"; "in.tar"] ["unpacked"]
            (Some "unused") Demo.w0 = (Ok ["unpacked"], w')
          ∧ (∀ rel c, fs w' !! (["unpacked"] ++ rel) = Some (File c)
                      ↔ (rel, c) ∈ [(["a.txt"], Demo.hello)])
          ∧ trace w' = trace Demo.w0.
Proof.
  assert (tar_route ["data"; "in.tar"] = true) as H1 by reflexivity.
  assert (fs Demo.w0 !! ["data"; "in.tar"]
          = Some (File (Arc Tar None [(["a.txt"], Demo.hello)]))) as H2
    by (vm_compute; reflexivity).
  assert (Tar = Tar ∨ Tar = TarGz) as H3 by (by left).
  assert (names_ok [(["a.txt"], Demo.hello)]) as H4.
  { split; [apply NoDup_singleton|]. split.
    - by intros m ->%list_elem_of_singleton.
    - by intros m1 m2 ->%list_elem_of_singleton ->%list_elem_of_singleton. }
  assert (plain_names [(["a.txt"], Demo.hello)]) as H5.
  { by intros m c ->%list_elem_of_singleton ->%list_elem_of_singleton. }
  assert (creatable (fs Demo.w0) ["unpacked"]) as H6
    by (apply creatable_b_sound; vm_compute; reflexivity).
  assert (vacant (fs Demo.w0) ["unpacked"]) as H7
    by (apply vacant_b_sound; vm_compute; reflexivity).
  repeat (split; [assumption|]).
  exact (extract_archive_tar (Demo.env Demo.nothing_installed) ["data"; "in.tar"] ["unpacked"]
           (Some "unused") None Tar [(["a.txt"], Demo.hello)] Demo.w0 H1 H2 H3 H4 H5 H6 H7).
Defined.

(** *** Staging in the temporary directory *)

(** [os.makedirs] asks nothing of the root; what it changes are
    directories it makes. *)
Lemma makedirs_below_root d w :
  (∀ q c, q `prefix_of` d → q ≠ [] → fs w !! q ≠ Some (File c)) →
  ∃ m', Os.makedirs d w = (Ok tt, with_fs m' w)
        ∧ (∀ q, q `prefix_of` d → q ≠ [] → m' !! q = Some Dir)
        ∧ (∀ q, ¬ q `prefix_of` d ∨ q = [] → m' !! q = fs w !! q).
Proof.
  intros Hc. destruct (makedirs_from_ok [] d w) as (m' & Hrun & Hdirs & Hframe).
  { intros r c Hr Hne. by apply Hc. }
  exists m'. split; [done|]. split; [done|].
  intros q Hq. apply Hframe. intros r Hr Hne ->. simpl in Hq. by destruct Hq.
Qed.

(** What lies on the way to the new temporary directory. *)
Lemma above_fresh_tmp (m : gmap path node) (r p : path) :
  p `prefix_of` Os.fresh_tmp m ++ r → ¬ Os.fresh_tmp m `prefix_of` p → p = [] ∨ p = ["tmp"].
Proof.
  unfold Os.fresh_tmp. intros Hp Hn.
  destruct p as [|c1 p]; [by left|]. apply prefix_cons_inv_1 in Hp as Hc1. subst c1.
  apply prefix_cons_inv_2 in Hp. destruct p as [|c2 p]; [by right|].
  apply prefix_cons_inv_1 in Hp as Hc2. subst c2. exfalso. apply Hn.
  apply prefix_cons, prefix_cons, prefix_nil.
Qed.

(** A directory [nm] of the new temporary directory can be made, and
    nothing is there yet. *)
Lemma staging_ready (w : world) (nm : string) :
  (∀ c, fs w !! ["tmp"] ≠ Some (File c)) →
  let d := PyPath.join (Os.fresh_tmp (fs w)) nm in
  (∀ q c, q `prefix_of` d → q ≠ [] → fs (entered w) !! q ≠ Some (File c))
  ∧ vacant (fs (entered w)) d.
Proof.
  intros Htmp d. unfold entered. cbn [fs].
  assert (∀ p, d `prefix_of` p → (<[Os.fresh_tmp (fs w) := Dir]> (fs w)) !! p = None) as Hvac.
  { intros p Hp. rewrite lookup_insert_ne.
    - apply fresh_tmp_fresh. etrans; [|done]. by apply prefix_app_r.
    - intros Heq. subst p. apply prefix_length in Hp. unfold d, PyPath.join in Hp.
      rewrite length_app in Hp. simpl in Hp. lia. }
  split; [|done].
  intros q c Hq Hne Hf.
  destruct (decide (Os.fresh_tmp (fs w) `prefix_of` q)) as [Hin|Hout].
  - destruct (decide (q = Os.fresh_tmp (fs w))) as [->|Hneq].
    { by rewrite lookup_insert_eq in Hf. }
    rewrite lookup_insert_ne in Hf by done.
    by rewrite (fresh_tmp_fresh _ _ Hin) in Hf.
  - destruct (above_fresh_tmp (fs w) [nm] q Hq Hout) as [->| ->]; [done|].
    rewrite lookup_insert_ne in Hf by done. by apply (Htmp c).
Qed.

(** A member that its password check refuses is not written; the
    directories above it are made first. *)
Lemma extract_one_refused E enc pwd out mb e w :
  (∀ w', Zipfile.check_password E enc pwd mb w' = (Raise e, w')) →
  (∀ q c, q `prefix_of` PyPath.parent (out ++ mb.1) → q ≠ [] → fs w !! q ≠ Some (File c)) →
  ∃ m', Zipfile.extract_one E enc pwd out mb w = (Raise e, with_fs m' w)
        ∧ (∀ p, m' !! p = fs w !! p
                ∨ (m' !! p = Some Dir ∧ p `prefix_of` PyPath.parent (out ++ mb.1) ∧ p ≠ [])).
Proof.
  intros Hchk Hc. unfold Zipfile.extract_one. cbv zeta.
  unfold mbind at 1, M_bind at 1. rewrite exists_run.
  unfold mbind at 1, M_bind at 1.
  destruct (negb _).
  - destruct (makedirs_below_root _ w Hc) as (m' & -> & Hdirs & Hframe).
    unfold mbind, M_bind. rewrite Hchk. exists m'. split; [done|].
    intros p. destruct (decide (p `prefix_of` PyPath.parent (out ++ mb.1) ∧ p ≠ []))
      as [[Hp Hne]|Hn].
    + right. by rewrite (Hdirs p Hp Hne).
    + left. apply Hframe. destruct (decide (p = [])); [by right|left]. intros ?. by apply Hn.
  - cbn [mret M_ret]. unfold mbind, M_bind. rewrite Hchk. exists (fs w).
    rewrite with_fs_same. split; [done|]. intros p. by left.
Qed.

(** X5.  [zip_to_rar] hands its password to the [rar] command only, never
    to the reader of the ZIP: on an encrypted ZIP archive with a member in
    it the call fails with the [RuntimeError] of [zipfile] that asks for a
    password, whatever password it was given.  The disk is then as it was
    before the call (the temporary directory is gone) and [rar] was not
    run. *)
Theorem zip_to_rar_encrypted_input (E : Env) (zip out : path) (password volume_size : option string)
    (pw : string) (mb : member) (ms : list member) (rar_cli : string) (w : world) :
  zip ≠ [] →
  fs w !! zip = Some (File (Arc Zip (Some pw) (mb :: ms))) →
  _detect_tool E ["rar"; "winrar"; "WinRAR"] = Some rar_cli →
  fs w !! ["tmp"] = Some Dir →
  ∃ w', zip_to_rar E zip out password volume_size w
        = (Raise (RuntimeError ("File '" +:+ PyPath.render_rel mb.1
                                +:+ "' is encrypted, password required for extraction")), w')
        ∧ fs w' = fs w
        ∧ trace w' = trace w.
Proof.
  intros Hzne Hzip Htool Htmp.
  set (tmp := Os.fresh_tmp (fs w)). set (d := PyPath.join tmp "zip_extract").
  destruct (staging_ready w "zip_extract") as [Hcre Hvac]; [by rewrite Htmp|].
  fold tmp d in Hcre, Hvac.
  destruct (makedirs_below_root d (entered w) Hcre) as (ma & Hmk & Hdirs & Hframe).
  assert (fs (entered w) !! zip = Some (File (Arc Zip (Some pw) (mb :: ms)))) as Hzip0.
  { unfold entered. cbn [fs]. rewrite lookup_insert_ne; [done|]. intros Heq.
    by rewrite <- Heq, (fresh_tmp_fresh (fs w) (Os.fresh_tmp (fs w)) (reflexivity _)) in Hzip. }
  assert (ma !! zip = Some (File (Arc Zip (Some pw) (mb :: ms)))) as Hzip1.
  { rewrite Hframe; [done|]. left. intros Hp. by apply (Hcre zip (Arc Zip (Some pw) (mb :: ms)) Hp Hzne). }
  destruct (extract_one_refused E (Some pw) None d mb
              (RuntimeError ("File '" +:+ PyPath.render_rel mb.1
                             +:+ "' is encrypted, password required for extraction"))
              (with_fs ma (entered w))) as (m2 & Hrun & Hfr2).
  { done. }
  { intros q c Hq Hne. cbn [with_fs fs].
    destruct (prefix_weak_total q d (d ++ mb.1)) as [Hqd|Hdq].
    - etrans; [done|]. apply parent_prefix.
    - by apply prefix_app_r.
    - by rewrite (Hdirs q Hqd Hne).
    - destruct (decide (q = d)) as [->|Hneq]; [by rewrite (Hdirs d (reflexivity _) Hne)|].
      rewrite Hframe, (Hvac q Hdq); [done|]. left. intros Hqd. apply Hneq.
      by apply (anti_symm prefix). }
  cbn [with_fs fs] in Hfr2.
  eexists. split; [|split].
  - unfold zip_to_rar. unfold mbind at 1, M_bind at 1. rewrite exists_run.
    rewrite (node_at_ne _ _ Hzne), Hzip. rewrite bool_decide_eq_true_2 by done.
    cbn [negb]. rewrite Htool.
    unfold mbind at 1, M_bind at 1.
    unfold Os.with_TemporaryDirectory, Os.mkdtemp. munfold. cbn [fs trace UNRAR_TOOL zip_open].
    fold tmp. fold d.
    change (World (<[tmp:=Dir]> (fs w)) (trace w) (UNRAR_TOOL w) (zip_open w)) with (entered w).
    unfold _ensure_dir. rewrite Hmk.
    unfold Zipfile.open_r, Os.stat. munfold. cbn [with_fs fs].
    rewrite (node_at_ne _ _ Hzne), Hzip1.
    unfold Zipfile.extractall. cbn [fst snd for_each]. unfold mbind, M_bind.
    rewrite Hrun. unfold Os.rmtree, modify_fs. reflexivity.
  - cbn [with_fs fs]. apply map_eq. intros p.
    destruct (decide (tmp `prefix_of` p)) as [Hp|Hp].
    + rewrite (fresh_tmp_fresh (fs w) p Hp).
      apply map_lookup_filter_None. right. intros n _ Hn. by apply Hn.
    + assert (m2 !! p = fs w !! p) as Hsame.
      { assert (∀ r, p `prefix_of` d ++ r → p ≠ [] → p = ["tmp"]) as Habove.
        { intros r Hpr Hne. unfold d, PyPath.join in Hpr. rewrite <- (assoc_L (++)) in Hpr.
          by destruct (above_fresh_tmp (fs w) _ p Hpr Hp). }
        assert (ma !! p = fs w !! p) as Hma.
        { destruct (decide (p `prefix_of` d ∧ p ≠ [])) as [[Hpd Hne]|Hn].
          - rewrite (Hdirs p Hpd Hne).
            assert (p = ["tmp"]) as ->; [|by rewrite Htmp].
            apply (Habove []); [by rewrite (right_id_L [] (++))|done].
          - rewrite Hframe.
            + unfold entered. cbn [fs]. apply lookup_insert_ne. intros <-.
              by apply Hp.
            + destruct (decide (p = [])); [by right|left]. intros ?. by apply Hn. }
        destruct (Hfr2 p) as [->|(-> & Hpu & Hne)]; [done|].
        assert (p = ["tmp"]) as ->; [|by rewrite Htmp].
        apply (Habove mb.1); [|done]. etrans; [done|]. apply parent_prefix. }
      destruct (fs w !! p) as [n|] eqn:Hn.
      * apply map_lookup_filter_Some. by rewrite Hsame.
      * apply map_lookup_filter_None. left. by rewrite Hsame.
  - done.
Qed.

Lemma zip_to_rar_encrypted_input_witness :
  ["data"; "locked.zip"] ≠ []
  ∧ fs Demo.w0 !! ["data"; "locked.zip"]
    = Some (File (Arc Zip (Some "s3cret") [(["a.txt"], Demo.hello)]))
  ∧ _detect_tool (Demo.env Demo.all_installed) ["rar"; "winrar"; "WinRAR"] = Some "/usr/bin/rar"
  ∧ fs Demo.w0 !! ["tmp"] = Some Dir
  ∧ ∃ w', zip_to_rar (Demo.env Demo.all_installed) ["data"; "locked.zip"] ["out"; "x.rar"]
            (Some "s3cret") None Demo.w0
          = (Raise (RuntimeError ("File '" +:+ PyPath.render_rel (["a.txt"], Demo.hello).1
                                  +:+ "' is encrypted, password required for extraction")), w')
          ∧ fs w' = fs Demo.w0
          ∧ trace w' = trace Demo.w0.
Proof.
  assert (["data"; "locked.zip"] ≠ []) as H1 by done.
  assert (fs Demo.w0 !! ["data"; "locked.zip"]
          = Some (File (Arc Zip (Some "s3cret") [(["a.txt"], Demo.hello)]))) as H2
    by (vm_compute; reflexivity).
  assert (_detect_tool (Demo.env Demo.all_installed) ["rar"; "winrar"; "WinRAR"]
          = Some "/usr/bin/rar") as H3 by reflexivity.
  assert (fs Demo.w0 !! ["tmp"] = Some Dir) as H4 by (vm_compute; reflexivity).
  repeat (split; [assumption|]).
  exact (zip_to_rar_encrypted_input (Demo.env Demo.all_installed) ["data"; "locked.zip"]
           ["out"; "x.rar"] (Some "s3cret") None "s3cret" (["a.txt"], Demo.hello) []
           "/usr/bin/rar" Demo.w0 H1 H2 H3 H4).
Defined.

(** *** Conversions that start from a ZIP archive *)

Section convert_from_zip.

Context (E : Env) (input : path) (enc password : option string) (ms : list member) (w : world).
Context (Htmp : creatable (fs w) ["tmp"]).
Context (Hname : PyStr.endswith (PyStr.lower (PyPath.render input)) ".zip" = true).
Context (Hin : fs w !! input = Some (File (Arc Zip enc ms))).
Context (Hpw : unlocks enc (if PyStr.truthy password then password else None)).
Context (Hok : names_ok ms).

(** What was on disk outside the temporary root is still there while the
    conversion runs. *)
Lemma entered_outside p : ¬ ["tmp"] `prefix_of` p → fs (entered w) !! p = fs w !! p.
Proof.
  intros Hp. unfold entered. cbn [fs]. apply lookup_insert_ne. intros <-. apply Hp.
  unfold Os.fresh_tmp. apply prefix_cons, prefix_nil.
Qed.

(** The extraction stage: the members are the regular files of the staging
    directory, and nothing outside the temporary root has changed. *)
Lemma convert_extract_zip_staged :
  ∃ m2, convert_extract E ".zip" input (staging_dir w) password (entered w)
        = (Ok tt, with_fs m2 (entered w))
        ∧ (∀ rel c, m2 !! (staging_dir w ++ rel) = Some (File c) ↔ (rel, c) ∈ ms)
        ∧ (∀ p, ¬ ["tmp"] `prefix_of` p → m2 !! p = fs w !! p).
Proof.
  assert (∀ c, fs w !! ["tmp"] ≠ Some (File c)) as Htmp' by (intros c; by apply Htmp).
  destruct (staging_ready w "extracted" Htmp') as [Hcre Hvac]. fold (staging_dir w) in Hcre, Hvac.
  assert (creatable (fs (entered w)) (staging_dir w)) as Hcre'.
  { intros q c Hq. destruct (decide (q = [])) as [->|Hne]; [|by apply Hcre].
    rewrite entered_outside; [apply Htmp, prefix_nil|]. by intros ?%prefix_nil_inv. }
  assert (staging_dir w ≠ []) as Hne by done.
  assert (input ≠ []) as Hine by (by intros ->).
  destruct (extractall_into_new_dir E enc _ ms (staging_dir w) (entered w) Hpw Hok Hne Hcre' Hvac)
    as (w1 & m' & Hdir & Hex & Htr & Hframe & (HI0 & HI1 & _)).
  assert (∃ m1, w1 = with_fs m1 (entered w)) as [m1 ->].
  { destruct (makedirs_below_root (staging_dir w) (entered w) Hcre) as (m1 & Hmk & _).
    unfold _ensure_dir in Hdir. rewrite Hmk in Hdir. injection Hdir as <-. by exists m1. }
  cbn [with_fs fs] in *.
  assert (m1 !! input = Some (File (Arc Zip enc ms))) as Hin1.
  { rewrite Hframe.
    - unfold entered. cbn [fs]. rewrite lookup_insert_ne; [done|]. intros Heq.
      by rewrite <- Heq, (fresh_tmp_fresh (fs w) _ (reflexivity _)) in Hin.
    - left. intros Hp. apply (Hcre input (Arc Zip enc ms) Hp Hine).
      unfold entered. cbn [fs]. rewrite lookup_insert_ne; [done|]. intros Heq.
      by rewrite <- Heq, (fresh_tmp_fresh (fs w) _ (reflexivity _)) in Hin. }
  exists m'. split; [|split; [done|]].
  - unfold convert_extract. cbn [String.eqb Ascii.eqb Bool.eqb].
    unfold mbind at 1, M_bind at 1.
    rewrite (extract_archive_zip E input (staging_dir w) password (entered w) _ Hname Hdir).
    unfold mbind at 1, M_bind at 1.
    assert (Zipfile.open_r input (with_fs m1 (entered w)) = (Ok (enc, ms), with_fs m1 (entered w)))
      as ->.
    { unfold Zipfile.open_r, Os.stat. munfold. cbn [with_fs fs].
      by rewrite (node_at_ne _ _ Hine), Hin1. }
    unfold mbind at 1, M_bind at 1. rewrite Hex. done.
  - intros p Hp.
    assert (¬ staging_dir w `prefix_of` p) as Hsp.
    { intros Hsp. apply Hp. etrans; [|done]. unfold staging_dir, PyPath.join, Os.fresh_tmp.
      apply prefix_cons, prefix_nil. }
    rewrite (HI0 p Hsp), <- (entered_outside p Hp). apply Hframe.
    destruct (decide (p = [])) as [|Hp0]; [by right|left]. intros Hps. apply Hp.
    unfold staging_dir, PyPath.join, Os.fresh_tmp in Hps.
    destruct p as [|c1 p]; [done|]. apply prefix_cons_inv_1 in Hps as ->.
    apply prefix_cons, prefix_nil.
Qed.

End convert_from_zip.



(** X7.  Converting a ZIP archive into a 7z archive hands [py7zr] the staged
    files, which are the members of the input, and with them the folder
    name [extracted], the name of the staging directory, whatever the input
    is called: [writeall] archives the members below that folder, where
    [_zip_directory] would keep their names.  If [py7zr] writes the archive,
    the call returns the output path and the archive is there; if it fails,
    its error is raised. *)
Theorem convert_zip_to_7z_folder_name (E : Env) (input output : path)
    (enc password : option string) (ms : list member) (compression_level : Z) (w : world) :
  (∀ l, walk_order E l ≡ₚ l) →
  creatable (fs w) ["tmp"] →
  PyStr.lower (PyPath.suffix input) = ".zip" →
  PyStr.endswith (PyStr.lower (PyPath.render input)) ".zip" = true →
  PyStr.lower (PyPath.suffix output) = ".7z" →
  fs w !! input = Some (File (Arc Zip enc ms)) →
  unlocks enc (if PyStr.truthy password then password else None) →
  names_ok ms →
  plain_names ms →
  ¬ ["tmp"] `prefix_of` output →
  creatable (fs w) (PyPath.parent output) →
  fs w !! output ≠ Some Dir →
  ∃ ms', ms' ≡ₚ ms
    ∧ (convert_archive_format E input output password compression_level w).1
      = match py7zr_writeall E password compression_level "extracted" ms' with
        | inl _ => Ok output
        | inr msg => Raise (LibError "py7zr" msg)
        end
    ∧ ∀ c, py7zr_writeall E password compression_level "extracted" ms' = inl c →
           fs (convert_archive_format E input output password compression_level w).2 !! output
           = Some (File c).
Proof.
  intros Hperm Htmp Hsfx Hname Hosfx Hin Hpw Hok _ Hout Hocre Hodir.
  destruct (convert_extract_zip_staged E input enc password ms w Htmp Hname Hin Hpw Hok)
    as (m2 & Hext & Hfiles & Houtside).
  assert (output ≠ []) as Hone by (by intros ->).
  assert (∀ q, q `prefix_of` output → ¬ ["tmp"] `prefix_of` q) as Habove.
  { intros q Hq Ht. apply Hout. by etrans. }
  destruct (makedirs_ok (PyPath.parent output) (with_fs m2 (entered w)))
    as (m3 & Hmk & Hdirs & Hframe).
  { intros q c Hq. cbn [with_fs fs]. rewrite Houtside.
    - by apply Hocre.
    - apply Habove. etrans; [done|]. apply parent_prefix. }
  cbn [with_fs fs] in Hframe.
  assert (∀ rel, m3 !! (staging_dir w ++ rel) = m2 !! (staging_dir w ++ rel)) as Hstaged.
  { intros rel. apply Hframe. left. intros Hp. apply (Habove (PyPath.parent output)).
    - apply parent_prefix.
    - etrans; [|done]. unfold staging_dir, PyPath.join, Os.fresh_tmp.
      apply prefix_cons, prefix_nil. }
  assert (m3 !! output ≠ Some Dir) as Hodir3.
  { rewrite Hframe, Houtside; [done|by apply Habove|]. left.
    intros Hp. apply prefix_length in Hp.
    destruct (exists_last Hone) as (l & a & Hl). rewrite Hl, parent_last in Hp.
    rewrite length_app in Hp. simpl in Hp. lia. }
  assert (Os.node_at m3 (PyPath.parent output) = Some Dir) as Hup.
  { destruct (PyPath.parent output) as [|c0 up] eqn:Hpar; [done|].
    cbn [Os.node_at]. by apply Hdirs. }
  set (ms' := members_below E (<[output := File (Raw [])]> m3) (staging_dir w)).
  assert (∀ rel c, (rel, c) ∈ ms' ↔ (rel, c) ∈ ms) as Hsame.
  { intros rel c. unfold ms'. rewrite (members_below_elem E Hperm).
    rewrite lookup_insert_ne.
    - rewrite Hstaged, Hfiles. split; [by intros [_ ?]|]. intros Hm. split; [|done].
      by apply (proj1 (proj2 Hok) (rel, c)).
    - intros ->. apply Hout. unfold staging_dir, PyPath.join, Os.fresh_tmp.
      apply prefix_cons, prefix_nil. }
  assert (∃ wf, convert_archive_format E input output password compression_level w
                = (match py7zr_writeall E password compression_level "extracted" ms' with
                   | inl _ => Ok output
                   | inr msg => Raise (LibError "py7zr" msg)
                   end, wf)
                ∧ ∀ c, py7zr_writeall E password compression_level "extracted" ms' = inl c →
                       fs wf !! output = Some (File c)) as (wf & Hrun & Hfile).
  { unfold convert_archive_format. cbv zeta. rewrite Hsfx, Hosfx.
    unfold Os.with_TemporaryDirectory, Os.mkdtemp. munfold. cbn [fs trace UNRAR_TOOL zip_open].
    change (World (<[Os.fresh_tmp (fs w):=Dir]> (fs w)) (trace w) (UNRAR_TOOL w) (zip_open w))
      with (entered w).
    change (PyPath.join (Os.fresh_tmp (fs w)) "extracted") with (staging_dir w).
    rewrite Hext. unfold convert_create. cbn [String.eqb Ascii.eqb Bool.eqb].
    unfold create_7z_archive, _ensure_dir. unfold mbind at 1, M_bind at 1. rewrite Hmk.
    unfold SevenZipFile_writeall. unfold mbind at 1, M_bind at 1.
    unfold mbind at 1, M_bind at 1. unfold log at 1.
    unfold mbind at 1, M_bind at 1.
    rewrite write_file_ok; [|done|done|done].
    cbn [with_fs fs trace UNRAR_TOOL zip_open].
    change (PyPath.name (staging_dir w)) with "extracted".
    munfold. cbn [with_fs fs trace UNRAR_TOOL zip_open]. fold ms'.
    destruct (py7zr_writeall E password compression_level "extracted" ms') as [c|msg].
    - eexists. split; [reflexivity|]. intros c' [= <-]. cbn [fs].
      apply map_lookup_filter_Some.
      split; [by rewrite lookup_insert_eq|]. cbn [fst]. intros Hp. apply Hout.
      etrans; [|done]. unfold Os.fresh_tmp. apply prefix_cons, prefix_nil.
    - eexists. split; [reflexivity|]. done. }
  exists ms'. split; [|split].
  - apply NoDup_Permutation.
    + apply (NoDup_fmap_1 fst). apply (members_below_names_NoDup E Hperm).
    + apply (NoDup_fmap_1 fst). apply Hok.
    + intros [rel c]. apply Hsame.
  - by rewrite Hrun.
  - intros c Hc. rewrite Hrun. by apply Hfile.
Qed.

Lemma convert_zip_to_7z_folder_name_witness :
  (∀ l, walk_order (Demo.env Demo.all_installed) l ≡ₚ l)
  ∧ creatable (fs Demo.w0) ["tmp"]
  ∧ PyStr.lower (PyPath.suffix ["data"; "locked.zip"]) = ".zip"
  ∧ PyStr.endswith (PyStr.lower (PyPath.render ["data"; "locked.zip"])) ".zip" = true
  ∧ PyStr.lower (PyPath.suffix ["out"; "y.7z"]) = ".7z"
  ∧ fs Demo.w0 !! ["data"; "locked.zip"]
    = Some (File (Arc Zip (Some "s3cret") [(["a.txt"], Demo.hello)]))
  ∧ unlocks (Some "s3cret") (if PyStr.truthy (Some "s3cret") then Some "s3cret" else None)
  ∧ names_ok [(["a.txt"], Demo.hello)]
  ∧ plain_names [(["a.txt"], Demo.hello)]
  ∧ ¬ ["tmp"] `prefix_of` ["out"; "y.7z"]
  ∧ creatable (fs Demo.w0) (PyPath.parent ["out"; "y.7z"])
  ∧ fs Demo.w0 !! ["out"; "y.7z"] ≠ Some Dir
  ∧ ∃ ms', ms' ≡ₚ [(["a.txt"], Demo.hello)]
      ∧ (convert_archive_format (Demo.env Demo.all_installed) ["data"; "locked.zip"]
           ["out"; "y.7z"] (Some "s3cret") 5 Demo.w0).1
        = match py7zr_writeall (Demo.env Demo.all_installed) (Some "s3cret") 5 "extracted" ms' with
          | inl _ => Ok ["out"; "y.7z"]
          | inr msg => Raise (LibError "py7zr" msg)
          end
      ∧ ∀ c, py7zr_writeall (Demo.env Demo.all_installed) (Some "s3cret") 5 "extracted" ms'
             = inl c →
             fs (convert_archive_format (Demo.env Demo.all_installed) ["data"; "locked.zip"]
                   ["out"; "y.7z"] (Some "s3cret") 5 Demo.w0).2 !! ["out"; "y.7z"]
             = Some (File c).
Proof.
  assert (∀ l, walk_order (Demo.env Demo.all_installed) l ≡ₚ l) as H1 by done.
  assert (creatable (fs Demo.w0) ["tmp"]) as H2
    by (apply creatable_b_sound; vm_compute; reflexivity).
  assert (PyStr.lower (PyPath.suffix ["data"; "locked.zip"]) = ".zip") as H3 by reflexivity.
  assert (PyStr.endswith (PyStr.lower (PyPath.render ["data"; "locked.zip"])) ".zip" = true)
    as H4 by reflexivity.
  assert (PyStr.lower (PyPath.suffix ["out"; "y.7z"]) = ".7z") as H5 by reflexivity.
  assert (fs Demo.w0 !! ["data"; "locked.zip"]
          = Some (File (Arc Zip (Some "s3cret") [(["a.txt"], Demo.hello)]))) as H6
    by (vm_compute; reflexivity).
  assert (unlocks (Some "s3cret") (if PyStr.truthy (Some "s3cret") then Some "s3cret" else None))
    as H7 by (by split).
  assert (names_ok [(["a.txt"], Demo.hello)]) as H8
    by (apply names_ok_b_sound; vm_compute; reflexivity).
  assert (plain_names [(["a.txt"], Demo.hello)]) as H9
    by (apply plain_names_b_sound; vm_compute; reflexivity).
  assert (¬ ["tmp"] `prefix_of` ["out"; "y.7z"]) as H10 by (by intros [k [=]]).
  assert (creatable (fs Demo.w0) (PyPath.parent ["out"; "y.7z"])) as H11
    by (apply creatable_b_sound; vm_compute; reflexivity).
  assert (fs Demo.w0 !! ["out"; "y.7z"] ≠ Some Dir) as H12 by (vm_compute; discriminate).
  repeat (split; [assumption|]).
  exact (convert_zip_to_7z_folder_name (Demo.env Demo.all_installed) ["data"; "locked.zip"]
           ["out"; "y.7z"] (Some "s3cret") (Some "s3cret") [(["a.txt"], Demo.hello)] 5 Demo.w0
           H1 H2 H3 H4 H5 H6 H7 H8 H9 H10 H11 H12).
Defined.

(** The archive that the sample [py7zr] writes for [locked.zip]. *)
Example convert_zip_to_7z_run :
  fs (convert_archive_format (Demo.env Demo.all_installed) ["data"; "locked.zip"]
        ["out"; "y.7z"] (Some "s3cret") 5 Demo.w0).2 !! ["out"; "y.7z"]
  = Some (File (Arc SevenZip (Some "s3cret") [(["extracted"; "a.txt"], Demo.hello)])).
Proof. vm_compute. reflexivity. Qed.

(** X8.  [_detect_tool] answers with what [shutil.which] finds for the
    first candidate, in the order of the list, for which it finds
    anything; it answers [None] exactly when it finds nothing for any
    candidate. *)
Theorem _detect_tool_first_found (E : Env) (candidates : list string) :
  match _detect_tool E candidates with
  | Some p =>
      ∃ before name after,
        candidates = before ++ name :: after
        ∧ which E name = Some p
        ∧ p ≠ ""
        ∧ ∀ c, c ∈ before → PyStr.truthy (which E c) = false
  | None => ∀ c, c ∈ candidates → PyStr.truthy (which E c) = false
  end.
Proof.
  induction candidates as [|nm rest IH]; simpl.
  { intros c Hc. by apply elem_of_nil in Hc. }
  destruct (PyStr.truthy (which E nm)) eqn:Ht.
  - destruct (which E nm) as [p|] eqn:Hw; [|done].
    exists [], nm, rest. split; [done|]. split; [done|]. split.
    + intros ->. done.
    + intros c Hc. by apply elem_of_nil in Hc.
  - destruct (_detect_tool E rest) as [p|].
    + destruct IH as (before & name & after & -> & Hw & Hp & Hb).
      exists (nm :: before), name, after. split; [done|]. split; [done|]. split; [done|].
      intros c [->|Hc]%elem_of_cons; [done|by apply Hb].
    + intros c [->|Hc]%elem_of_cons; [done|by apply IH].
Qed.

(** *** Strings: order, append, decimal digits *)

Lemma ascii_compare_refl (a : ascii) : Ascii.compare a a = Eq.
Proof. unfold Ascii.compare. apply N.compare_refl. Qed.

Lemma string_compare_refl (s : string) : String.compare s s = Eq.
Proof. induction s as [|a s IH]; simpl; [done|]. by rewrite ascii_compare_refl. Qed.

Lemma string_compare_app (s a b : string) :
  String.compare (s +:+ a) (s +:+ b) = String.compare a b.
Proof. induction s as [|c s IH]; simpl; [done|]. by rewrite ascii_compare_refl. Qed.

Lemma string_leb_app (s a b : string) : String.leb (s +:+ a) (s +:+ b) = String.leb a b.
Proof. unfold String.leb. by rewrite string_compare_app. Qed.

Lemma string_compare_trans (c : comparison) (s1 s2 s3 : string) :
  String.compare s1 s2 = c → String.compare s2 s3 = c → String.compare s1 s3 = c.
Proof.
  revert s2 s3. induction s1 as [|a1 s1 IH]; intros [|a2 s2] [|a3 s3]; simpl; try congruence.
  unfold Ascii.compare.
  destruct (N.compare_spec (N_of_ascii a1) (N_of_ascii a2)) as [H12|H12|H12];
    destruct (N.compare_spec (N_of_ascii a2) (N_of_ascii a3)) as [H23|H23|H23];
    destruct (N.compare_spec (N_of_ascii a1) (N_of_ascii a3)) as [H13|H13|H13];
    try congruence; try lia; try apply IH.
Qed.

Lemma string_leb_trans (s1 s2 s3 : string) :
  String.leb s1 s2 = true → String.leb s2 s3 = true → String.leb s1 s3 = true.
Proof.
  unfold String.leb.
  destruct (String.compare s1 s2) eqn:H12; [|  |done];
    destruct (String.compare s2 s3) eqn:H23; try done; intros _ _.
  - by rewrite (string_compare_trans Eq s1 s2 s3).
  - apply String.compare_eq_iff in H12 as ->. by rewrite H23.
  - apply String.compare_eq_iff in H23 as <-. by rewrite H12.
  - by rewrite (string_compare_trans Lt s1 s2 s3).
Qed.

#[global] Instance path_le_trans : Transitive path_le.
Proof. intros p q r. unfold path_le. apply string_leb_trans. Qed.

#[global] Instance path_le_total : Total path_le.
Proof. intros p q. unfold path_le. apply String.leb_total. Qed.

Lemma string_app_assoc (a b c : string) : (a +:+ b) +:+ c = a +:+ (b +:+ c).
Proof.
  induction a as [|x a IH]; [done|].
  change (String x ((a +:+ b) +:+ c) = String x (a +:+ (b +:+ c))). by f_equal.
Qed.

Lemma string_app_inv_head (s a b : string) : s +:+ a = s +:+ b → a = b.
Proof. induction s as [|c s IH]; [done|]. intros [= H]. by apply IH. Qed.

(** The number that a string of digits stands for; zeros in front do not
    count. *)
Lemma zeros_decode (k : nat) (s : string) :
  Nat.of_uint <$> NilEmpty.uint_of_string (zeros k +:+ s)
  = Nat.of_uint <$> NilEmpty.uint_of_string s.
Proof.
  induction k as [|k IH]; [done|].
  change (zeros (S k) +:+ s) with (String "0" (zeros k +:+ s)).
  cbn [NilEmpty.uint_of_string]. rewrite <- IH.
  by destruct (NilEmpty.uint_of_string (zeros k +:+ s)).
Qed.

Lemma fmt_03d_decode (n : nat) :
  Nat.of_uint <$> NilEmpty.uint_of_string (fmt_03d n) = Some n.
Proof.
  unfold fmt_03d. cbv zeta. rewrite zeros_decode, NilEmpty.usu. simpl.
  by rewrite Unsigned.of_to.
Qed.

Lemma fmt_03d_inj (j k : nat) : fmt_03d j = fmt_03d k → j = k.
Proof.
  intros H. pose proof (fmt_03d_decode j) as Hj. rewrite H, fmt_03d_decode in Hj. congruence.
Qed.

(** *** Part names *)

Lemma join_snoc (l : path) (x : string) :
  PyStr.join "/" (l ++ [x]) = match l with
                              | [] => x
                              | _ => PyStr.join "/" l +:+ "/" +:+ x
                              end.
Proof.
  induction l as [|a l IH]; [done|].
  destruct l as [|b l]; [done|].
  change (PyStr.join "/" ((a :: b :: l) ++ [x]))
    with (a +:+ "/" +:+ PyStr.join "/" ((b :: l) ++ [x])).
  rewrite IH. change (PyStr.join "/" (a :: b :: l)) with (a +:+ "/" +:+ PyStr.join "/" (b :: l)).
  by rewrite !string_app_assoc.
Qed.

Lemma add_text_snoc (l : path) (nm ext : string) :
  PyPath.add_text (l ++ [nm]) ext = l ++ [nm +:+ ext].
Proof. unfold PyPath.add_text. rewrite rev_app_distr. simpl. by rewrite rev_involutive. Qed.

(** The string of a path with text added is the string of the path with
    the text added. *)
Lemma render_add_text (p : path) (ext : string) :
  PyPath.render (PyPath.add_text p ext) = PyPath.render p +:+ ext.
Proof.
  destruct (decide (p = [])) as [->|Hne]; [done|].
  destruct (exists_last Hne) as (l & nm & ->). rewrite add_text_snoc.
  unfold PyPath.render. rewrite !join_snoc. destruct l; simpl; [done|].
  by rewrite !string_app_assoc.
Qed.

Lemma add_text_inj (p : path) (e1 e2 : string) :
  PyPath.add_text p e1 = PyPath.add_text p e2 → e1 = e2.
Proof.
  intros H. apply (f_equal PyPath.render) in H. rewrite !render_add_text in H.
  by apply string_app_inv_head in H.
Qed.

Lemma part_name_inj (base : path) (j k : nat) : part_name base j = part_name base k → j = k.
Proof.
  unfold part_name. intros H%add_text_inj. simpl in H. injection H as H. by apply fmt_03d_inj.
Qed.

Lemma part_name_ne (base : path) (k : nat) : part_name base k ≠ [].
Proof.
  unfold part_name, PyPath.add_text. destruct (List.rev base); [done|].
  intros H. apply (f_equal length) in H. rewrite length_app in H. simpl in H. lia.
Qed.

Lemma part_name_parent (base : path) (k : nat) :
  PyPath.parent (part_name base k) = PyPath.parent base.
Proof.
  unfold part_name. destruct (decide (base = [])) as [->|Hne]; [done|].
  destruct (exists_last Hne) as (l & nm & ->). by rewrite add_text_snoc, !parent_last.
Qed.

Lemma splitext_root_parent (p : path) : PyPath.parent (splitext_root p) = PyPath.parent p.
Proof.
  unfold splitext_root. destruct (decide (p = [])) as [->|Hne]; [done|].
  destruct (exists_last Hne) as (l & nm & ->). rewrite rev_app_distr. simpl.
  by rewrite rev_involutive, !parent_last.
Qed.

(** The names of the parts 1 to 999 come in the order of their numbers. *)
Lemma fmt_03d_next (k : nat) :
  (1 ≤ k < 999)%nat → String.leb (fmt_03d k) (fmt_03d (S k)) = true.
Proof.
  intros Hk.
  assert (forallb (λ k, String.leb (fmt_03d k) (fmt_03d (S k))) (seq 1 998) = true) as Hall
    by (vm_compute; reflexivity).
  rewrite forallb_forall in Hall. apply Hall. apply in_seq. lia.
Qed.

Lemma part_name_next (base : path) (k : nat) :
  (1 ≤ k < 999)%nat → path_le (part_name base k) (part_name base (S k)).
Proof.
  intros Hk. unfold path_le, part_name. rewrite !render_add_text, !string_leb_app.
  by apply fmt_03d_next.
Qed.

Lemma part_names_sorted (base : path) (k n : nat) :
  (1 ≤ k)%nat → (k + n ≤ 1000)%nat → Sorted path_le (part_name base <$> seq k n).
Proof.
  revert k. induction n as [|n IH]; intros k Hk Hn; [constructor|].
  simpl. constructor; [apply IH; lia|].
  destruct n as [|n]; simpl; [constructor|]. constructor. apply part_name_next. lia.
Qed.

(** What [sorted] makes of the part names 1 to [n], up to 999: the list as it is. *)
Lemma sorted_part_names (base : path) (n : nat) :
  (n ≤ 999)%nat →
  merge_sort path_le (part_name base <$> seq 1 n) = part_name base <$> seq 1 n.
Proof.
  intros Hn. apply (StronglySorted_unique_strong path_le).
  - intros p q Hp Hq Hpq Hqp.
    rewrite merge_sort_Permutation in Hp.
    apply list_elem_of_fmap in Hp as (j & -> & _). apply list_elem_of_fmap in Hq as (k & -> & _).
    pose proof (String.leb_antisym _ _ Hpq Hqp) as Heq. unfold part_name in *.
    rewrite !render_add_text in Heq. apply string_app_inv_head in Heq. by rewrite Heq.
  - apply StronglySorted_merge_sort; apply _.
  - apply Sorted_StronglySorted; [apply _|]. apply part_names_sorted; lia.
  - apply merge_sort_Permutation.
Qed.

(** *** The loop of [split_archive] *)

Section split_loop.

Context (arc_bytes : ArchiveKind → option string → list member → list Byte.byte).
Context (archive base : path) (c : content) (size : Z).
Context (Hsize : 0 < size).
Context (Harchive : archive ≠ []).
Context (Hapart : ∀ k, part_name base k ≠ archive).

Lemma read_at_chunk pos w :
  fs w !! archive = Some (File c) →
  read_at arc_bytes archive pos size w
  = (Ok (take (Z.to_nat size) (drop pos (file_bytes arc_bytes c))), w).
Proof.
  intros Hf. unfold read_at, bytes_at.
  destruct (size <? -1) eqn:H1; [lia|]. destruct (size =? -1) eqn:H2; [lia|].
  munfold. by rewrite (node_at_ne _ _ Harchive), Hf.
Qed.

Lemma drop_take_length {A} (n : nat) (l : list A) : drop (length (take n l)) l = drop n l.
Proof.
  rewrite length_take. destruct (decide (n ≤ length l)%nat) as [Hle|Hgt].
  - by rewrite Nat.min_l by done.
  - rewrite Nat.min_r by lia. rewrite !drop_ge; [done|lia|lia].
Qed.

(** The rounds of the loop from offset [pos] on: the rest of the file is
    cut into chunks, and chunk [i] is written as part [k + i]. *)
Lemma split_loop_run rounds pos k acc w :
  fs w !! archive = Some (File c) →
  Os.node_at (fs w) (PyPath.parent base) = Some Dir →
  (∀ j, fs w !! part_name base j ≠ Some Dir) →
  (length (drop pos (file_bytes arc_bytes c)) < rounds)%nat →
  ∃ cs m',
    split_loop arc_bytes rounds archive base size pos k acc w
    = (Ok (acc ++ (part_name base <$> seq k (length cs))), with_fs m' w)
    ∧ concat cs = drop pos (file_bytes arc_bytes c)
    ∧ (∀ i ch, cs !! i = Some ch →
         ch ≠ [] ∧ (length ch ≤ Z.to_nat size)%nat
         ∧ ((S i < length cs)%nat → length ch = Z.to_nat size))
    ∧ (∀ i ch, cs !! i = Some ch → m' !! part_name base (k + i) = Some (File (Raw ch)))
    ∧ (∀ p, (∀ i, (i < length cs)%nat → p ≠ part_name base (k + i)) → m' !! p = fs w !! p)
    ∧ (∀ q, (length (drop pos (file_bytes arc_bytes c)) ≤ q * Z.to_nat size)%nat →
            (length cs ≤ q)%nat).
Proof.
  set (bs := file_bytes arc_bytes c). set (n := Z.to_nat size).
  assert (0 < n)%nat as Hn by (unfold n; lia).
  revert pos k acc w. induction rounds as [|r IH]; intros pos k acc w Hf Hup Hnodir Hlen; [lia|].
  cbn [split_loop]. unfold mbind at 1, M_bind at 1. rewrite (read_at_chunk pos w Hf).
  fold bs n. destruct (drop pos bs) as [|b rest] eqn:Hrest.
  { rewrite take_nil. exists [], (fs w). rewrite with_fs_same. simpl.
    rewrite (right_id_L [] (++)). repeat split; try done. intros; lia. }
  destruct (take n (b :: rest)) as [|b0 chunk0] eqn:Hc.
  { exfalso. apply (f_equal length) in Hc. rewrite length_take in Hc. simpl in Hc. lia. }
  set (chunk := b0 :: chunk0) in *.
  set (part := part_name base k).
  assert (Os.write_file part (Raw chunk) w
          = (Ok tt, with_fs (<[part := File (Raw chunk)]> (fs w)) w)) as Hwrite.
  { apply write_file_ok; [apply part_name_ne| |apply Hnodir].
    unfold part. by rewrite part_name_parent. }
  set (w1 := with_fs (<[part := File (Raw chunk)]> (fs w)) w).
  destruct (IH (pos + length chunk)%nat (S k) (acc ++ [part]) w1)
    as (cs & m' & Hrun & Hcat & Hcs & Hparts & Hframe & Hcount).
  { unfold w1. cbn [with_fs fs]. rewrite lookup_insert_ne; [done|apply Hapart]. }
  { unfold w1. cbn [with_fs fs]. destruct (PyPath.parent base) as [|c0 up] eqn:Hpar; [done|].
    cbn [Os.node_at] in *. rewrite lookup_insert_ne; [done|]. intros Heq.
    apply (Hnodir k). fold part. by rewrite Heq. }
  { intros j. unfold w1. cbn [with_fs fs]. destruct (decide (j = k)) as [->|Hjk].
    - fold part. by rewrite lookup_insert_eq.
    - rewrite lookup_insert_ne; [apply Hnodir|]. intros Heq. by apply part_name_inj in Heq. }
  { rewrite <- drop_drop, Hrest. rewrite length_drop. simpl in Hlen.
    assert (0 < length chunk)%nat by (simpl; lia).
    simpl. lia. }
  assert (drop (pos + length chunk) bs = drop n (b :: rest)) as Hnext.
  { rewrite <- drop_drop, Hrest, <- Hc. apply drop_take_length. }
  exists (chunk :: cs), m'. split; [|split; [|split; [|split; [|split]]]].
  - unfold mbind, M_bind. fold chunk part. rewrite Hwrite. fold w1.
    rewrite Hrun. cbn [length seq fmap list_fmap]. rewrite <- (assoc_L (++)). done.
  - cbn [concat]. rewrite Hcat, Hnext, <- Hc. apply take_drop.
  - intros [|i] ch Hi.
    + injection Hi as <-. split; [done|]. split; [rewrite <- Hc, length_take; lia|].
      cbn [length]. intros Hmore.
      destruct cs as [|ch1 cs1]; [simpl in Hmore; lia|].
      destruct (Hcs 0%nat ch1 eq_refl) as (Hch1 & _).
      assert (drop n (b :: rest) ≠ []) as Hdrop.
      { rewrite <- Hnext, <- Hcat. simpl. by destruct ch1. }
      rewrite <- Hc, length_take. apply Nat.min_l.
      destruct (decide (n ≤ length (b :: rest))%nat); [done|].
      by rewrite drop_ge in Hdrop by lia.
    + destruct (Hcs i ch Hi) as (H1 & H2 & H3). split; [done|]. split; [done|].
      cbn [length]. intros. apply H3. lia.
  - intros [|i] ch Hi.
    + injection Hi as <-. rewrite Nat.add_0_r. rewrite Hframe.
      * unfold w1. cbn [with_fs fs]. fold part. by rewrite lookup_insert_eq.
      * intros i _ Heq. apply part_name_inj in Heq. lia.
    + rewrite Nat.add_succ_r. by apply (Hparts i ch).
  - intros p Hp. rewrite Hframe.
    + unfold w1. cbn [with_fs fs]. apply lookup_insert_ne. intros <-.
      apply (Hp 0%nat); [simpl; lia|]. by rewrite Nat.add_0_r.
    + intros i Hi Heq. apply (Hp (S i)); [simpl; lia|]. by rewrite Nat.add_succ_r.
  - intros q Hq. cbn [length] in *. destruct q as [|q]; [lia|].
    apply le_n_S, Hcount. rewrite Hnext, length_drop. cbn [length]. lia.
Qed.

End split_loop.

Lemma split_archive_unfold
    (arc_bytes : ArchiveKind → option string → list member → list Byte.byte)
    (archive : path) (part_size_mb : Z) (c : content) (w : world) :
  archive ≠ [] →
  fs w !! archive = Some (File c) →
  split_archive arc_bytes archive part_size_mb w
  = split_loop arc_bytes (S (length (file_bytes arc_bytes c))) archive (splitext_root archive)
      (part_size_mb * 1024 * 1024) 0 1 [] w.
Proof.
  intros Hne Hf. unfold split_archive, open_rb, Os.stat, bytes_at. munfold.
  rewrite (node_at_ne _ _ Hne), Hf. cbv beta iota.
  by rewrite (node_at_ne _ _ Hne), Hf.
Qed.

Lemma read_at_run
    (arc_bytes : ArchiveKind → option string → list member → list Byte.byte)
    (archive : path) (pos : nat) (size : Z) (c : content) (w : world) :
  archive ≠ [] →
  fs w !! archive = Some (File c) →
  read_at arc_bytes archive pos size w
  = if size <? -1 then (Raise (ValueError "read length must be non-negative or -1"), w)
    else (Ok (if size =? -1 then drop pos (file_bytes arc_bytes c)
              else take (Z.to_nat size) (drop pos (file_bytes arc_bytes c))), w).
Proof.
  intros Hne Hf. unfold read_at, bytes_at. destruct (size <? -1); [done|].
  munfold. by rewrite (node_at_ne _ _ Hne), Hf.
Qed.

(** X9.  [split_archive] with a part size of at least one megabyte cuts the
    bytes of the file into consecutive chunks and writes chunk [i] to the
    path [<base>.<i, three digits>], where [<base>] is the path without its
    extension: the chunks put together are the file, none is empty, each
    has [part_size] bytes but the last, which may have fewer; the call
    returns the part paths in the order of their numbers; no other path
    changes.  The directory of the file is there, the file is none of its
    own parts, and no part path is a directory. *)
Theorem split_archive_parts
    (arc_bytes : ArchiveKind → option string → list member → list Byte.byte)
    (archive : path) (part_size_mb : Z) (c : content) (w : world) :
  0 < part_size_mb →
  archive ≠ [] →
  fs w !! archive = Some (File c) →
  Os.node_at (fs w) (PyPath.parent archive) = Some Dir →
  (∀ k, part_name (splitext_root archive) k ≠ archive) →
  (∀ k, fs w !! part_name (splitext_root archive) k ≠ Some Dir) →
  ∃ cs w',
    split_archive arc_bytes archive part_size_mb w
    = (Ok (part_name (splitext_root archive) <$> seq 1 (length cs)), w')
    ∧ concat cs = file_bytes arc_bytes c
    ∧ (∀ i ch, cs !! i = Some ch →
         ch ≠ [] ∧ (length ch ≤ Z.to_nat (part_size_mb * 1024 * 1024))%nat
         ∧ ((S i < length cs)%nat → length ch = Z.to_nat (part_size_mb * 1024 * 1024)))
    ∧ (∀ i ch, cs !! i = Some ch →
         fs w' !! part_name (splitext_root archive) (S i) = Some (File (Raw ch)))
    ∧ (∀ p, (∀ k, p ≠ part_name (splitext_root archive) k) → fs w' !! p = fs w !! p)
    ∧ trace w' = trace w.
Proof.
  intros Hsize Hne Hf Hup Hapart Hnodir.
  destruct (split_loop_run arc_bytes archive (splitext_root archive) c
              (part_size_mb * 1024 * 1024) ltac:(lia) Hne Hapart
              (S (length (file_bytes arc_bytes c))) 0 1 [] w Hf)
    as (cs & m' & Hrun & Hcat & Hcs & Hparts & Hframe & _).
  { by rewrite splitext_root_parent. }
  { done. }
  { rewrite drop_0. lia. }
  exists cs, (with_fs m' w). split; [|split; [|split; [|split; [|split]]]]; try done.
  - by rewrite (split_archive_unfold arc_bytes archive part_size_mb c w Hne Hf).
  - intros p Hp. apply Hframe. intros i _. apply Hp.
Qed.

Lemma split_archive_parts_witness :
  0 < 1
  ∧ ["data"; "src"; "a.txt"] ≠ []
  ∧ fs Demo.w0 !! ["data"; "src"; "a.txt"] = Some (File Demo.hello)
  ∧ Os.node_at (fs Demo.w0) (PyPath.parent ["data"; "src"; "a.txt"]) = Some Dir
  ∧ (∀ k, part_name (splitext_root ["data"; "src"; "a.txt"]) k ≠ ["data"; "src"; "a.txt"])
  ∧ (∀ k, fs Demo.w0 !! part_name (splitext_root ["data"; "src"; "a.txt"]) k ≠ Some Dir)
  ∧ ∃ cs w',
      split_archive sample_arc_bytes ["data"; "src"; "a.txt"] 1 Demo.w0
      = (Ok (part_name (splitext_root ["data"; "src"; "a.txt"]) <$> seq 1 (length cs)), w')
      ∧ concat cs = file_bytes sample_arc_bytes Demo.hello
      ∧ (∀ i ch, cs !! i = Some ch →
           ch ≠ [] ∧ (length ch ≤ Z.to_nat (1 * 1024 * 1024))%nat
           ∧ ((S i < length cs)%nat → length ch = Z.to_nat (1 * 1024 * 1024)))
      ∧ (∀ i ch, cs !! i = Some ch →
           fs w' !! part_name (splitext_root ["data"; "src"; "a.txt"]) (S i)
           = Some (File (Raw ch)))
      ∧ (∀ p, (∀ k, p ≠ part_name (splitext_root ["data"; "src"; "a.txt"]) k) →
              fs w' !! p = fs Demo.w0 !! p)
      ∧ trace w' = trace Demo.w0.
Proof.
  assert (0 < 1) as H1 by lia.
  assert (["data"; "src"; "a.txt"] ≠ []) as H2 by done.
  assert (fs Demo.w0 !! ["data"; "src"; "a.txt"] = Some (File Demo.hello)) as H3
    by (vm_compute; reflexivity).
  assert (Os.node_at (fs Demo.w0) (PyPath.parent ["data"; "src"; "a.txt"]) = Some Dir) as H4
    by (vm_compute; reflexivity).
  assert (∀ k, part_name (splitext_root ["data"; "src"; "a.txt"]) k
               = ["data"; "src"; "a." +:+ fmt_03d k]) as Hname by done.
  assert (∀ k, part_name (splitext_root ["data"; "src"; "a.txt"]) k ≠ ["data"; "src"; "a.txt"])
    as H5.
  { intros k. rewrite Hname. intros [= Heq]. change (fmt_03d k = "txt") in Heq.
    pose proof (fmt_03d_decode k) as Hd. by rewrite Heq in Hd. }
  assert (∀ k, fs Demo.w0 !! part_name (splitext_root ["data"; "src"; "a.txt"]) k ≠ Some Dir)
    as H6.
  { intros k. rewrite Hname. intros Hd. apply elem_of_list_to_map_2 in Hd.
    repeat (apply elem_of_cons in Hd as [Hd|Hd]; [by simplify_eq|]).
    by apply elem_of_nil in Hd. }
  repeat (split; [assumption|]).
  exact (split_archive_parts sample_arc_bytes ["data"; "src"; "a.txt"] 1 Demo.hello Demo.w0
           H1 H2 H3 H4 H5 H6).
Defined.

(** X10.  When there is nothing to read, [split_archive] writes nothing and
    returns no part: that is so for an empty file, and for a part size of
    zero, for which the first read returns no byte. *)
Theorem split_archive_no_parts
    (arc_bytes : ArchiveKind → option string → list member → list Byte.byte)
    (archive : path) (part_size_mb : Z) (c : content) (w : world) :
  archive ≠ [] →
  fs w !! archive = Some (File c) →
  (part_size_mb = 0 ∨ (0 < part_size_mb ∧ file_bytes arc_bytes c = [])) →
  split_archive arc_bytes archive part_size_mb w = (Ok [], w).
Proof.
  intros Hne Hf Hcase.
  rewrite (split_archive_unfold arc_bytes archive part_size_mb c w Hne Hf).
  cbn [split_loop]. unfold mbind, M_bind.
  rewrite (read_at_run arc_bytes archive 0 _ c w Hne Hf).
  destruct Hcase as [->|[Hpos Hempty]].
  - reflexivity.
  - rewrite Hempty. destruct (_ <? -1) eqn:H1; [lia|]. destruct (_ =? -1) eqn:H2; [lia|].
    by rewrite drop_nil, take_nil.
Qed.

Lemma split_archive_no_parts_witness :
  ["data"; "src"; "a.txt"] ≠ []
  ∧ fs Demo.w0 !! ["data"; "src"; "a.txt"] = Some (File Demo.hello)
  ∧ (0 = 0 ∨ (0 < 0 ∧ file_bytes sample_arc_bytes Demo.hello = []))
  ∧ split_archive sample_arc_bytes ["data"; "src"; "a.txt"] 0 Demo.w0 = (Ok [], Demo.w0).
Proof.
  assert (["data"; "src"; "a.txt"] ≠ []) as H1 by done.
  assert (fs Demo.w0 !! ["data"; "src"; "a.txt"] = Some (File Demo.hello)) as H2
    by (vm_compute; reflexivity).
  assert (0 = 0 ∨ (0 < 0 ∧ file_bytes sample_arc_bytes Demo.hello = [])) as H3 by (by left).
  repeat (split; [assumption|]).
  exact (split_archive_no_parts sample_arc_bytes ["data"; "src"; "a.txt"] 0 Demo.hello Demo.w0
           H1 H2 H3).
Defined.

(** X11.  What [split_archive] refuses: a path at which there is nothing
    raises [FileNotFoundError]; a negative part size makes the first read
    raise [ValueError], as a read length below -1 does.  In both cases
    nothing has been written. *)
Theorem split_archive_refusals
    (arc_bytes : ArchiveKind → option string → list member → list Byte.byte)
    (archive : path) (part_size_mb : Z) (w : world) :
  archive ≠ [] →
  (fs w !! archive = None →
   split_archive arc_bytes archive part_size_mb w
   = (Raise (FileNotFoundError (PyPath.render archive)), w))
  ∧ (fs w !! archive = Some Dir →
     split_archive arc_bytes archive part_size_mb w
     = (Raise (IsADirectoryError (PyPath.render archive)), w))
  ∧ (∀ c, fs w !! archive = Some (File c) → part_size_mb < 0 →
     split_archive arc_bytes archive part_size_mb w
     = (Raise (ValueError "read length must be non-negative or -1"), w)).
Proof.
  intros Hne. split; [|split].
  - intros Hf. unfold split_archive, open_rb, Os.stat. munfold.
    by rewrite (node_at_ne _ _ Hne), Hf.
  - intros Hf. unfold split_archive, open_rb, Os.stat. munfold.
    by rewrite (node_at_ne _ _ Hne), Hf.
  - intros c Hf Hneg.
    rewrite (split_archive_unfold arc_bytes archive part_size_mb c w Hne Hf).
    cbn [split_loop]. unfold mbind, M_bind.
    rewrite (read_at_run arc_bytes archive 0 _ c w Hne Hf).
    destruct (_ <? -1) eqn:H1; [done|lia].
Qed.

Lemma split_archive_refusals_witness :
  ["data"; "src"; "a.txt"] ≠ []
  ∧ (fs Demo.w0 !! ["data"; "src"; "a.txt"] = None →
     split_archive sample_arc_bytes ["data"; "src"; "a.txt"] (-1) Demo.w0
     = (Raise (FileNotFoundError (PyPath.render ["data"; "src"; "a.txt"])), Demo.w0))
  ∧ (fs Demo.w0 !! ["data"; "src"; "a.txt"] = Some Dir →
     split_archive sample_arc_bytes ["data"; "src"; "a.txt"] (-1) Demo.w0
     = (Raise (IsADirectoryError (PyPath.render ["data"; "src"; "a.txt"])), Demo.w0))
  ∧ (∀ c, fs Demo.w0 !! ["data"; "src"; "a.txt"] = Some (File c) → -1 < 0 →
     split_archive sample_arc_bytes ["data"; "src"; "a.txt"] (-1) Demo.w0
     = (Raise (ValueError "read length must be non-negative or -1"), Demo.w0)).
Proof.
  assert (["data"; "src"; "a.txt"] ≠ []) as H1 by done.
  split; [assumption|].
  exact (split_archive_refusals sample_arc_bytes ["data"; "src"; "a.txt"] (-1) Demo.w0 H1).
Defined.

(** The sample file split with a negative size, and with size 1. *)
Example split_archive_runs :
  (split_archive sample_arc_bytes ["data"; "src"; "a.txt"] (-1) Demo.w0).1
  = Raise (ValueError "read length must be non-negative or -1")
  ∧ (split_archive sample_arc_bytes ["data"; "src"; "a.txt"] 1 Demo.w0).1
    = Ok [["data"; "src"; "a.001"]]
  ∧ (split_archive sample_arc_bytes ["data"; "plain.zip"] 1 Demo.w0).1
    = Ok [["data"; "plain.001"]].
Proof. vm_compute. repeat split; reflexivity. Qed.

(** *** Merging *)

Lemma for_each_app {A} (l1 l2 : list A) (body : A → M unit) (w : world) :
  for_each (l1 ++ l2) body w
  = match for_each l1 body w with
    | (Ok _, w1) => for_each l2 body w1
    | (Raise e, w1) => (Raise e, w1)
    end.
Proof.
  revert w. induction l1 as [|x l1 IH]; intros w; [done|].
  cbn [app for_each]. unfold mbind, M_bind.
  destruct (body x w) as [[[]|e] w1]; [apply IH|done].
Qed.

(** [os.makedirs] of a directory that is there changes nothing. *)
Lemma makedirs_existing (d : path) (w : world) :
  (∀ q, q `prefix_of` d → q ≠ [] → fs w !! q = Some Dir) →
  Os.makedirs d w = (Ok tt, w).
Proof.
  intros Hd. destruct (makedirs_below_root d w) as (m' & Hrun & Hdirs & Hframe).
  { intros q c Hq Hne. by rewrite (Hd q Hq Hne). }
  rewrite Hrun. f_equal. rewrite <- (with_fs_same w) at 2. f_equal.
  apply map_eq. intros q. destruct (decide (q `prefix_of` d ∧ q ≠ [])) as [[Hq Hne]|Hn].
  - by rewrite (Hdirs q Hq Hne), (Hd q Hq Hne).
  - apply Hframe. destruct (decide (q = [])); [by right|left]. intros ?. by apply Hn.
Qed.

Lemma dirs_above (m : gmap path node) (d : path) :
  fs_wf m → Os.node_at m d = Some Dir → ∀ q, q `prefix_of` d → q ≠ [] → m !! q = Some Dir.
Proof.
  intros Hwf Hd q Hq Hne. destruct (decide (q = d)) as [->|Hqd].
  - by rewrite <- (node_at_ne m d Hne).
  - apply (Hwf d q); [|done|done|done].
    destruct d; [by apply prefix_nil_inv in Hq|]. cbn [Os.node_at] in Hd. by rewrite Hd.
Qed.

Section merge_loop.

Context (arc_bytes : ArchiveKind → option string → list member → list Byte.byte).
Context (out : path).

(** The loop over the parts: each is read and its bytes are added to the
    output. *)
Lemma merge_loop_run (l : list path) (cs : list (list Byte.byte)) (acc : list Byte.byte) w :
  fs w !! out = Some (File (Raw acc)) →
  Forall2 (λ p ch, p ≠ [] ∧ p ≠ out
                   ∧ ∃ c, fs w !! p = Some (File c) ∧ file_bytes arc_bytes c = ch) l cs →
  ∃ m', for_each l (λ part_file,
          c ← Os.read_file part_file;
          append_bytes arc_bytes out (file_bytes arc_bytes c)) w
        = (Ok tt, with_fs m' w)
        ∧ m' !! out = Some (File (Raw (acc ++ concat cs)))
        ∧ ∀ p, p ≠ out → m' !! p = fs w !! p.
Proof.
  revert cs acc w. induction l as [|p l IH]; intros cs acc w Hacc Hall.
  { apply Forall2_nil_inv_l in Hall as ->.
    exists (fs w). rewrite with_fs_same. simpl. by rewrite (right_id_L [] (++)). }
  apply Forall2_cons_inv_l in Hall as (ch & cs' & Hp & Hall & ->).
  destruct Hp as (Hpne & Hpo & c & Hpf & Hch).
  set (w1 := with_fs (<[out := File (Raw (acc ++ ch))]> (fs w)) w).
  destruct (IH cs' (acc ++ ch) w1) as (m' & Hrun & Hm' & Hframe).
  { unfold w1. cbn [with_fs fs]. by rewrite lookup_insert_eq. }
  { eapply Forall2_impl; [exact Hall|]. intros q chq (? & ? & cq & ? & ?).
    split; [done|]. split; [done|]. exists cq. split; [|done].
    unfold w1. cbn [with_fs fs]. by rewrite lookup_insert_ne. }
  clear IH.
  exists m'. split; [|split].
  - cbn [for_each]. unfold mbind at 1, M_bind at 1.
    unfold mbind at 1, M_bind at 1. unfold Os.read_file, Os.stat. munfold.
    rewrite (node_at_ne _ _ Hpne), Hpf. unfold append_bytes, modify_fs. cbn [fs].
    assert (alter (λ n, match n with
                        | File c0 => File (Raw (file_bytes arc_bytes c0 ++ file_bytes arc_bytes c))
                        | Dir => Dir
                        end) out (fs w)
            = <[out := File (Raw (acc ++ ch))]> (fs w)) as ->.
    { apply map_eq. intros q. destruct (decide (q = out)) as [->|Hq].
      - by rewrite lookup_alter_eq, lookup_insert_eq, Hacc, Hch.
      - by rewrite lookup_alter_ne, lookup_insert_ne. }
    exact Hrun.
  - cbn [concat]. by rewrite (assoc_L (++)).
  - intros q Hq. rewrite Hframe by done. unfold w1. cbn [with_fs fs].
    by rewrite lookup_insert_ne.
Qed.

End merge_loop.

(** X12.  [merge_archive_parts] puts the parts into the order of their path
    strings itself: the order in which the caller lists them makes no
    difference to what the call does.  (Different parts have different
    path strings.) *)
Theorem merge_archive_parts_any_order
    (arc_bytes : ArchiveKind → option string → list member → list Byte.byte)
    (part_files part_files' : list path) (output_path : path) (w : world) :
  part_files ≡ₚ part_files' →
  (∀ p q, p ∈ part_files → q ∈ part_files → PyPath.render p = PyPath.render q → p = q) →
  merge_archive_parts arc_bytes part_files output_path w
  = merge_archive_parts arc_bytes part_files' output_path w.
Proof.
  intros Hperm Hinj. unfold merge_archive_parts.
  assert (merge_sort path_le part_files = merge_sort path_le part_files') as ->; [|done].
  apply (StronglySorted_unique_strong path_le).
  - intros p q Hp Hq Hpq Hqp. rewrite merge_sort_Permutation in Hp, Hq.
    rewrite <- Hperm in Hq. apply (Hinj p q Hp Hq). by apply String.leb_antisym.
  - apply StronglySorted_merge_sort; apply _.
  - apply StronglySorted_merge_sort; apply _.
  - by rewrite !merge_sort_Permutation.
Qed.

Lemma merge_archive_parts_any_order_witness :
  [["data"; "src"; "b"; "c.txt"]; ["data"; "src"; "a.txt"]]
  ≡ₚ [["data"; "src"; "a.txt"]; ["data"; "src"; "b"; "c.txt"]]
  ∧ (∀ p q, p ∈ [["data"; "src"; "b"; "c.txt"]; ["data"; "src"; "a.txt"]] →
            q ∈ [["data"; "src"; "b"; "c.txt"]; ["data"; "src"; "a.txt"]] →
            PyPath.render p = PyPath.render q → p = q)
  ∧ merge_archive_parts sample_arc_bytes
      [["data"; "src"; "b"; "c.txt"]; ["data"; "src"; "a.txt"]] ["out"; "joined"] Demo.w0
    = merge_archive_parts sample_arc_bytes
        [["data"; "src"; "a.txt"]; ["data"; "src"; "b"; "c.txt"]] ["out"; "joined"] Demo.w0.
Proof.
  assert ([["data"; "src"; "b"; "c.txt"]; ["data"; "src"; "a.txt"]]
          ≡ₚ [["data"; "src"; "a.txt"]; ["data"; "src"; "b"; "c.txt"]]) as H1
    by apply Permutation_swap.
  assert (∀ p q, p ∈ [["data"; "src"; "b"; "c.txt"]; ["data"; "src"; "a.txt"]] →
                 q ∈ [["data"; "src"; "b"; "c.txt"]; ["data"; "src"; "a.txt"]] →
                 PyPath.render p = PyPath.render q → p = q) as H2.
  { intros p q Hp Hq.
    repeat (apply elem_of_cons in Hp as [->|Hp]); [| |by apply elem_of_nil in Hp];
      (repeat (apply elem_of_cons in Hq as [->|Hq]); [| |by apply elem_of_nil in Hq]);
      by vm_compute. }
  split; [assumption|]. split; [assumption|].
  exact (merge_archive_parts_any_order sample_arc_bytes _ _ ["out"; "joined"] Demo.w0 H1 H2).
Defined.

(** The sample files merged: the bytes come in the order of the names. *)
Example merge_archive_parts_run :
  fs (merge_archive_parts sample_arc_bytes
        [["data"; "src"; "b"; "c.txt"]; ["data"; "src"; "a.txt"]] ["out"; "joined"] Demo.w0).2
    !! ["out"; "joined"]
  = Some (File (Raw (String.list_byte_of_string "helloworld"))).
Proof. vm_compute. reflexivity. Qed.

(** X13.  Splitting a file and merging the parts that [split_archive]
    returns gives the bytes of the file back, as long as there are no more
    than 999 parts, so that the part names are in the order of their
    numbers when [sorted] compares them.  The output path is none of the
    part paths and its directory is there. *)
Theorem split_merge_round_trip
    (arc_bytes : ArchiveKind → option string → list member → list Byte.byte)
    (archive out : path) (part_size_mb : Z) (c : content) (w : world) :
  0 < part_size_mb →
  fs_wf (fs w) →
  archive ≠ [] →
  fs w !! archive = Some (File c) →
  (length (file_bytes arc_bytes c) ≤ 999 * Z.to_nat (part_size_mb * 1024 * 1024))%nat →
  (∀ k, part_name (splitext_root archive) k ≠ archive) →
  (∀ k, fs w !! part_name (splitext_root archive) k ≠ Some Dir) →
  out ≠ [] →
  Os.node_at (fs w) (PyPath.parent out) = Some Dir →
  fs w !! out ≠ Some Dir →
  (∀ k, out ≠ part_name (splitext_root archive) k) →
  ∃ parts w1 w2,
    split_archive arc_bytes archive part_size_mb w = (Ok parts, w1)
    ∧ merge_archive_parts arc_bytes parts out w1 = (Ok out, w2)
    ∧ fs w2 !! out = Some (File (Raw (file_bytes arc_bytes c))).
Proof.
  intros Hsize Hwf Hne Hf Hlen Hapart Hnodir Hone Hup Hodir Hopart.
  set (base := splitext_root archive) in *.
  assert (Os.node_at (fs w) (PyPath.parent archive) = Some Dir) as Haup.
  { destruct (PyPath.parent archive) as [|c0 up] eqn:Hpar; [done|]. cbn [Os.node_at].
    apply (Hwf archive); [by rewrite Hf| | |done].
    - rewrite <- Hpar. apply parent_prefix.
    - rewrite <- Hpar. by apply parent_strict. }
  destruct (split_loop_run arc_bytes archive base c
              (part_size_mb * 1024 * 1024) ltac:(lia) Hne Hapart
              (S (length (file_bytes arc_bytes c))) 0 1 [] w Hf)
    as (cs & m1 & Hrun & Hcat & Hcs & Hparts & Hframe & Hcount).
  { unfold base. by rewrite splitext_root_parent. }
  { done. }
  { rewrite drop_0. lia. }
  rewrite drop_0 in Hcat, Hcount. specialize (Hcount 999%nat Hlen). rewrite (left_id_L [] (++)) in Hrun.
  assert (∀ p, (∀ k, p ≠ part_name base k) → m1 !! p = fs w !! p) as Hframe'.
  { intros p Hp. apply Hframe. intros i _. apply Hp. }
  exists (part_name base <$> seq 1 (length cs)), (with_fs m1 w).
  assert (∀ q, q `prefix_of` PyPath.parent out → q ≠ [] → m1 !! q = Some Dir) as Hdirs.
  { intros q Hq Hq0. rewrite Hframe'.
    - by apply (dirs_above (fs w) (PyPath.parent out)).
    - intros k Heq. apply (Hnodir k). rewrite <- Heq.
      by apply (dirs_above (fs w) (PyPath.parent out)). }
  assert (Os.write_file out (Raw []) (with_fs m1 w)
          = (Ok tt, with_fs (<[out := File (Raw [])]> m1) w)) as Hopen.
  { rewrite write_file_ok; [done|done| |].
    - cbn [with_fs fs]. destruct (PyPath.parent out) as [|c0 up] eqn:Hpar; [done|].
      cbn [Os.node_at]. apply Hdirs; done.
    - cbn [with_fs fs]. by rewrite Hframe'. }
  destruct (merge_loop_run arc_bytes out (part_name base <$> seq 1 (length cs)) cs []
              (with_fs (<[out := File (Raw [])]> m1) w)) as (m2 & Hloop & Hm2 & _).
  { cbn [with_fs fs]. by rewrite lookup_insert_eq. }
  { apply Forall2_fmap_l, Forall2_lookup. intros i.
    destruct (cs !! i) as [ch|] eqn:Hi.
    - rewrite (lookup_seq_lt _ _ i) by (by eapply lookup_lt_Some).
      constructor. split; [apply part_name_ne|]. split; [intros Heq; by apply (Hopart (1 + i)%nat)|].
      exists (Raw ch). split; [|done]. cbn [with_fs fs].
      rewrite lookup_insert_ne by done. by apply Hparts.
    - rewrite lookup_seq_ge by (by apply lookup_ge_None). constructor. }
  eexists. split; [|split].
  - by rewrite (split_archive_unfold arc_bytes archive part_size_mb c w Hne Hf).
  - unfold merge_archive_parts, _ensure_dir. unfold mbind at 1, M_bind at 1.
    rewrite (makedirs_existing (PyPath.parent out) (with_fs m1 w) Hdirs).
    unfold mbind at 1, M_bind at 1. rewrite Hopen.
    unfold mbind at 1, M_bind at 1. rewrite (sorted_part_names base _ Hcount).
    rewrite Hloop. reflexivity.
  - cbn [with_fs fs]. by rewrite Hm2, Hcat.
Qed.

Lemma split_merge_round_trip_witness :
  0 < 1
  ∧ fs_wf (fs Demo.w0)
  ∧ ["data"; "src"; "a.txt"] ≠ []
  ∧ fs Demo.w0 !! ["data"; "src"; "a.txt"] = Some (File Demo.hello)
  ∧ (length (file_bytes sample_arc_bytes Demo.hello) ≤ 999 * Z.to_nat (1 * 1024 * 1024))%nat
  ∧ (∀ k, part_name (splitext_root ["data"; "src"; "a.txt"]) k ≠ ["data"; "src"; "a.txt"])
  ∧ (∀ k, fs Demo.w0 !! part_name (splitext_root ["data"; "src"; "a.txt"]) k ≠ Some Dir)
  ∧ ["data"; "joined"] ≠ []
  ∧ Os.node_at (fs Demo.w0) (PyPath.parent ["data"; "joined"]) = Some Dir
  ∧ fs Demo.w0 !! ["data"; "joined"] ≠ Some Dir
  ∧ (∀ k, ["data"; "joined"] ≠ part_name (splitext_root ["data"; "src"; "a.txt"]) k)
  ∧ ∃ parts w1 w2,
      split_archive sample_arc_bytes ["data"; "src"; "a.txt"] 1 Demo.w0 = (Ok parts, w1)
      ∧ merge_archive_parts sample_arc_bytes parts ["data"; "joined"] w1
        = (Ok ["data"; "joined"], w2)
      ∧ fs w2 !! ["data"; "joined"] = Some (File (Raw (file_bytes sample_arc_bytes Demo.hello))).
Proof.
  assert (0 < 1) as H1 by lia.
  assert (fs_wf (fs Demo.w0)) as H2 by (apply fs_wf_b_sound; vm_compute; reflexivity).
  assert (["data"; "src"; "a.txt"] ≠ []) as H3 by done.
  assert (fs Demo.w0 !! ["data"; "src"; "a.txt"] = Some (File Demo.hello)) as H4
    by (vm_compute; reflexivity).
  assert (length (file_bytes sample_arc_bytes Demo.hello) ≤ 999 * Z.to_nat (1 * 1024 * 1024))%nat
    as H5.
  { change (length (file_bytes sample_arc_bytes Demo.hello)) with 5%nat. lia. }
  assert (∀ k, part_name (splitext_root ["data"; "src"; "a.txt"]) k
               = ["data"; "src"; "a." +:+ fmt_03d k]) as Hname by done.
  assert (∀ k, part_name (splitext_root ["data"; "src"; "a.txt"]) k ≠ ["data"; "src"; "a.txt"])
    as H6.
  { intros k. rewrite Hname. intros [= Heq]. change (fmt_03d k = "txt") in Heq.
    pose proof (fmt_03d_decode k) as Hd. by rewrite Heq in Hd. }
  assert (∀ k, fs Demo.w0 !! part_name (splitext_root ["data"; "src"; "a.txt"]) k ≠ Some Dir)
    as H7.
  { intros k. rewrite Hname. intros Hd. apply elem_of_list_to_map_2 in Hd.
    repeat (apply elem_of_cons in Hd as [Hd|Hd]; [by simplify_eq|]).
    by apply elem_of_nil in Hd. }
  assert (["data"; "joined"] ≠ []) as H8 by done.
  assert (Os.node_at (fs Demo.w0) (PyPath.parent ["data"; "joined"]) = Some Dir) as H9
    by (vm_compute; reflexivity).
  assert (fs Demo.w0 !! ["data"; "joined"] ≠ Some Dir) as H10 by (vm_compute; discriminate).
  assert (∀ k, ["data"; "joined"] ≠ part_name (splitext_root ["data"; "src"; "a.txt"]) k)
    as H11.
  { intros k. by rewrite Hname. }
  repeat (split; [assumption|]).
  exact (split_merge_round_trip sample_arc_bytes ["data"; "src"; "a.txt"] ["data"; "joined"] 1
           Demo.hello Demo.w0 H1 H2 H3 H4 H5 H6 H7 H8 H9 H10 H11).
Defined.

(** X14.  From the thousandth part on, the names that [split_archive] gives
    its parts are no longer in the order of their numbers for [sorted]:
    [<base>.1000] comes before [<base>.999].  So [merge_archive_parts]
    does not read a thousand parts or more in the order in which they
    were cut. *)
Theorem part_names_out_of_order (base : path) (n : nat) :
  (1000 ≤ n)%nat →
  merge_sort path_le (part_name base <$> seq 1 n) ≠ part_name base <$> seq 1 n.
Proof.
  intros Hn Heq.
  assert (StronglySorted path_le (part_name base <$> seq 1 n)) as Hs.
  { rewrite <- Heq. apply StronglySorted_merge_sort; apply _. }
  replace n with (999 + (n - 999))%nat in Hs by lia.
  rewrite seq_app, fmap_app in Hs.
  assert (path_le (part_name base 999) (part_name base 1000)) as Hle.
  { eapply StronglySorted_app_1_elem_of; [exact Hs| |].
    - apply list_elem_of_fmap. exists 999%nat. split; [done|]. apply elem_of_seq. lia.
    - apply list_elem_of_fmap. exists 1000%nat. split; [done|]. apply elem_of_seq. lia. }
  unfold path_le, part_name in Hle. rewrite !render_add_text, !string_leb_app in Hle.
  by vm_compute in Hle.
Qed.

Lemma part_names_out_of_order_witness :
  (1000 ≤ 1000)%nat
  ∧ merge_sort path_le (part_name ["data"; "big"] <$> seq 1 1000)
    ≠ part_name ["data"; "big"] <$> seq 1 1000.
Proof.
  assert (1000 ≤ 1000)%nat as H1 by lia.
  split; [assumption|].
  exact (part_names_out_of_order ["data"; "big"] 1000 H1).
Defined.

(** X15.  [merge_archive_parts] opens the output before it reads any part:
    when a part is missing the call raises [FileNotFoundError] for it, and
    the output then holds the bytes of the parts that come before the
    missing one in the order of the names, whatever it held before. *)
Theorem merge_archive_parts_missing_part
    (arc_bytes : ArchiveKind → option string → list member → list Byte.byte)
    (part_files before after : list path) (missing out : path)
    (cs : list (list Byte.byte)) (w : world) :
  fs_wf (fs w) →
  out ≠ [] →
  Os.node_at (fs w) (PyPath.parent out) = Some Dir →
  fs w !! out ≠ Some Dir →
  merge_sort path_le part_files = before ++ missing :: after →
  Forall2 (λ p ch, p ≠ [] ∧ p ≠ out
                   ∧ ∃ c, fs w !! p = Some (File c) ∧ file_bytes arc_bytes c = ch) before cs →
  missing ≠ [] →
  missing ≠ out →
  fs w !! missing = None →
  ∃ w', merge_archive_parts arc_bytes part_files out w
        = (Raise (FileNotFoundError (PyPath.render missing)), w')
        ∧ fs w' !! out = Some (File (Raw (concat cs)))
        ∧ ∀ p, p ≠ out → fs w' !! p = fs w !! p.
Proof.
  intros Hwf Hone Hup Hodir Hsorted Hbefore Hmne Hmo Hmiss.
  assert (Os.write_file out (Raw []) w = (Ok tt, with_fs (<[out := File (Raw [])]> (fs w)) w))
    as Hopen by (by apply write_file_ok).
  destruct (merge_loop_run arc_bytes out before cs []
              (with_fs (<[out := File (Raw [])]> (fs w)) w)) as (m2 & Hloop & Hm2 & Hframe).
  { cbn [with_fs fs]. by rewrite lookup_insert_eq. }
  { eapply Forall2_impl; [exact Hbefore|]. intros q chq (? & ? & cq & ? & ?).
    split; [done|]. split; [done|]. exists cq. split; [|done].
    cbn [with_fs fs]. by rewrite lookup_insert_ne. }
  cbn [with_fs fs] in Hframe.
  exists (with_fs m2 w). split; [|split].
  - unfold merge_archive_parts, _ensure_dir. unfold mbind at 1, M_bind at 1.
    rewrite (makedirs_existing (PyPath.parent out) w (dirs_above _ _ Hwf Hup)).
    unfold mbind at 1, M_bind at 1. rewrite Hopen.
    unfold mbind at 1, M_bind at 1. rewrite Hsorted, for_each_app, Hloop.
    cbn [for_each]. unfold mbind at 1, M_bind at 1.
    unfold mbind at 1, M_bind at 1. unfold Os.read_file, Os.stat. munfold.
    cbn [with_fs fs]. rewrite (node_at_ne _ _ Hmne), (Hframe missing Hmo).
    by rewrite lookup_insert_ne, Hmiss.
  - done.
  - intros p Hp. cbn [with_fs fs]. rewrite (Hframe p Hp). by rewrite lookup_insert_ne.
Qed.

Lemma merge_archive_parts_missing_part_witness :
  fs_wf (fs Demo.w0)
  ∧ ["data"; "joined"] ≠ []
  ∧ Os.node_at (fs Demo.w0) (PyPath.parent ["data"; "joined"]) = Some Dir
  ∧ fs Demo.w0 !! ["data"; "joined"] ≠ Some Dir
  ∧ merge_sort path_le [["nowhere"]; ["data"; "src"; "a.txt"]]
    = [["data"; "src"; "a.txt"]] ++ ["nowhere"] :: []
  ∧ Forall2 (λ p ch, p ≠ [] ∧ p ≠ ["data"; "joined"]
                     ∧ ∃ c, fs Demo.w0 !! p = Some (File c)
                            ∧ file_bytes sample_arc_bytes c = ch)
      [["data"; "src"; "a.txt"]] [String.list_byte_of_string "hello"]
  ∧ ["nowhere"] ≠ []
  ∧ ["nowhere"] ≠ ["data"; "joined"]
  ∧ fs Demo.w0 !! ["nowhere"] = None
  ∧ ∃ w', merge_archive_parts sample_arc_bytes [["nowhere"]; ["data"; "src"; "a.txt"]]
            ["data"; "joined"] Demo.w0
          = (Raise (FileNotFoundError (PyPath.render ["nowhere"])), w')
          ∧ fs w' !! ["data"; "joined"]
            = Some (File (Raw (concat [String.list_byte_of_string "hello"])))
          ∧ ∀ p, p ≠ ["data"; "joined"] → fs w' !! p = fs Demo.w0 !! p.
Proof.
  assert (fs_wf (fs Demo.w0)) as H1 by (apply fs_wf_b_sound; vm_compute; reflexivity).
  assert (["data"; "joined"] ≠ []) as H2 by done.
  assert (Os.node_at (fs Demo.w0) (PyPath.parent ["data"; "joined"]) = Some Dir) as H3
    by (vm_compute; reflexivity).
  assert (fs Demo.w0 !! ["data"; "joined"] ≠ Some Dir) as H4 by (vm_compute; discriminate).
  assert (merge_sort path_le [["nowhere"]; ["data"; "src"; "a.txt"]]
          = [["data"; "src"; "a.txt"]] ++ ["nowhere"] :: []) as H5 by (vm_compute; reflexivity).
  assert (Forall2 (λ p ch, p ≠ [] ∧ p ≠ ["data"; "joined"]
                           ∧ ∃ c, fs Demo.w0 !! p = Some (File c)
                                  ∧ file_bytes sample_arc_bytes c = ch)
            [["data"; "src"; "a.txt"]] [String.list_byte_of_string "hello"]) as H6.
  { constructor; [|constructor]. split; [done|]. split; [done|].
    exists Demo.hello. split; [vm_compute; reflexivity|reflexivity]. }
  assert (["nowhere"] ≠ []) as H7 by done.
  assert (["nowhere"] ≠ ["data"; "joined"]) as H8 by done.
  assert (fs Demo.w0 !! ["nowhere"] = None) as H9 by (vm_compute; reflexivity).
  repeat (split; [assumption|]).
  exact (merge_archive_parts_missing_part sample_arc_bytes [["nowhere"]; ["data"; "src"; "a.txt"]]
           [["data"; "src"; "a.txt"]] [] ["nowhere"] ["data"; "joined"]
           [String.list_byte_of_string "hello"] Demo.w0 H1 H2 H3 H4 H5 H6 H7 H8 H9).
Defined.

(** *** Extracting chosen members *)

Lemma NoDup_fmap_eq {A B} (f : A → B) (l : list A) (x y : A) :
  NoDup (f <$> l) → x ∈ l → y ∈ l → f x = f y → x = y.
Proof.
  induction l as [|a l IH]; intros Hnd Hx Hy Hf; [by apply elem_of_nil in Hx|].
  rewrite fmap_cons in Hnd. apply NoDup_cons in Hnd as [Ha Hnd].
  apply elem_of_cons in Hx as [->|Hx]; apply elem_of_cons in Hy as [->|Hy].
  - done.
  - exfalso. apply Ha. rewrite Hf. by apply list_elem_of_fmap_2.
  - exfalso. apply Ha. rewrite <- Hf. by apply list_elem_of_fmap_2.
  - by apply IH.
Qed.

Lemma zip_getinfo_found (zf : option string * list member) (name : string) :
  name ∈ Zipfile.namelist zf →
  ∃ m, zip_getinfo zf name = Some m ∧ m ∈ zf.2 ∧ PyPath.render_rel m.1 = name.
Proof.
  unfold Zipfile.namelist, zip_getinfo. intros Hin.
  apply list_elem_of_fmap in Hin as (m0 & Hname & Hm0).
  destruct (List.find _ (List.rev zf.2)) as [m|] eqn:Hfind.
  - apply List.find_some in Hfind as [Hm Heq]. exists m. split; [done|]. split.
    + apply list_elem_of_In. by apply in_rev.
    + by apply String.eqb_eq.
  - exfalso. pose proof (List.find_none _ _ Hfind m0) as Hnone. simpl in Hnone.
    rewrite Hname, String.eqb_refl in Hnone. 
    assert (false = true); [|done]. symmetry. apply Hnone. apply in_rev.
    rewrite rev_involutive. by apply list_elem_of_In.
Qed.

Section extract_again.

Context (out : path) (m1 : gmap path node).
Context (Hout : out ≠ []).

(** Extracting once more a member that is there already changes nothing. *)
Lemma extract_one_again E enc pwd done_ m mb w :
  unlocks enc pwd →
  extracting out m1 done_ m →
  mb ∈ done_ →
  mb.1 ≠ [] →
  Zipfile.extract_one E enc pwd out mb (with_fs m w) = (Ok tt, with_fs m w).
Proof.
  destruct mb as [rel c]. simpl. intros Hpw (HF & HI1 & HI2) Hin Hrel.
  assert (m !! (out ++ PyPath.parent rel) = Some Dir) as Hup.
  { apply HI2. destruct (decide (PyPath.parent rel = [])) as [|Hp]; [by left|right].
    exists (rel, c). split; [done|]. by apply (prefix_parent _ _ Hrel). }
  assert (m !! (out ++ rel) = Some (File c)) as Hfile by (by apply HI1).
  assert (∀ r, out ++ r ≠ []) as Hone by (intros r; by destruct out).
  unfold Zipfile.extract_one. cbn [fst snd]. rewrite (parent_app out rel Hrel).
  unfold mbind at 1, M_bind at 1. rewrite exists_run. cbn [with_fs fs].
  rewrite (node_at_ne m _ (Hone _)), Hup.
  rewrite bool_decide_eq_true_2 by done. cbn [negb].
  unfold mbind at 1, M_bind at 1. cbn [mret M_ret].
  unfold mbind at 1, M_bind at 1. rewrite (check_password_ok _ _ _ _ _ Hpw).
  rewrite write_file_ok.
  - cbn [with_fs fs]. by rewrite insert_id.
  - apply Hone.
  - cbn [with_fs fs]. rewrite (parent_app out rel Hrel).
    by rewrite (node_at_ne m _ (Hone _)).
  - cbn [with_fs fs]. by rewrite Hfile.
Qed.

End extract_again.

Section chosen.

Context (E : Env).
Context (out : path) (m1 : gmap path node).
Context (Hout : out ≠ []).
Context (Hroot : ∀ c, m1 !! [] ≠ Some (File c)).
Context (Habove : ∀ q, q `prefix_of` out → q ≠ out → q ≠ [] → m1 !! q = Some Dir).
Context (enc pwd : option string) (ms : list member).
Context (Hpw : unlocks enc pwd).
Context (Hok : names_ok ms).
Context (Hnames : NoDup (Zipfile.namelist (enc, ms))).

Lemma same_name_same_member (x y : member) :
  x ∈ ms → y ∈ ms → PyPath.render_rel x.1 = PyPath.render_rel y.1 → x = y.
Proof.
  intros Hx Hy Heq.
  by apply (NoDup_fmap_eq (λ m : member, PyPath.render_rel m.1) ms x y Hnames).
Qed.

(** The loop over the wanted names: the members extracted in the end are
    those extracted before and those that were asked for. *)
Lemma chosen_loop (todo : list string) (done_ : list member) (m : gmap path node) w :
  extracting out m1 done_ m →
  (∀ x, x ∈ done_ → x ∈ ms) →
  ∃ done' m',
    for_each todo (λ file_name,
      if bool_decide (file_name ∈ Zipfile.namelist (enc, ms))
      then zip_extract E (enc, ms) pwd file_name out
      else mret tt) (with_fs m w) = (Ok tt, with_fs m' w)
    ∧ extracting out m1 done' m'
    ∧ ∀ x, x ∈ done' ↔ x ∈ done_ ∨ (x ∈ ms ∧ PyPath.render_rel x.1 ∈ todo).
Proof.
  revert done_ m. induction todo as [|name todo IH]; intros done_ m Hinv Hsub.
  { exists done_, m. split; [done|]. split; [done|]. intros x. split; [by left|].
    intros [?|[_ Hx]]; [done|]. by apply elem_of_nil in Hx. }
  cbn [for_each]. unfold mbind, M_bind.
  destruct (decide (name ∈ Zipfile.namelist (enc, ms))) as [Hin|Hnot].
  2:{ rewrite bool_decide_eq_false_2 by done. cbn [mret M_ret].
      destruct (IH done_ m Hinv Hsub) as (done' & m' & Hrun & Hinv' & Hiff).
      exists done', m'. split; [done|]. split; [done|]. intros x. rewrite Hiff.
      split; intros [?|[Hx Hn]]; try by left.
      - right. split; [done|]. by right.
      - apply elem_of_cons in Hn as [Hn|Hn]; [|by right].
        exfalso. apply Hnot. rewrite <- Hn. unfold Zipfile.namelist.
        apply (list_elem_of_fmap_2 (λ m0 : member, PyPath.render_rel m0.1)). done. }
  rewrite bool_decide_eq_true_2 by done.
  destruct (zip_getinfo_found (enc, ms) name Hin) as (mb & Hget & Hmb & Hname).
  cbn [snd] in Hmb. unfold zip_extract. rewrite Hget. cbn [fst].
  assert (mb.1 ≠ []) as Hne by (by apply (proj1 (proj2 Hok))).
  destruct (decide (mb.1 ∈ done_.*1)) as [Hold|Hnew].
  - assert (mb ∈ done_) as Hmbd.
    { apply list_elem_of_fmap in Hold as (x & Hx1 & Hx).
      assert (x = mb) as <-; [|done].
      apply same_name_same_member; [by apply Hsub|done|by rewrite Hx1]. }
    rewrite (extract_one_again out m1 Hout E enc pwd done_ m mb w Hpw Hinv Hmbd Hne).
    destruct (IH done_ m Hinv Hsub) as (done' & m' & Hrun & Hinv' & Hiff).
    exists done', m'. split; [done|]. split; [done|]. intros x. rewrite Hiff.
    split; intros [?|[Hx Hn]]; try by left.
    + right. split; [done|]. by right.
    + apply elem_of_cons in Hn as [Hn|Hn]; [|by right].
      left. assert (x = mb) as ->; [|done].
      apply same_name_same_member; [done|done|by rewrite Hn].
  - destruct (extract_one_ok out m1 Hout Hroot Habove E enc pwd done_ m mb w Hpw Hinv Hne)
      as (m2 & Hrun2 & Hinv2).
    { intros mb' Hmb'. split; intros Hp.
      - apply Hnew. rewrite (proj2 (proj2 Hok) mb mb' Hmb (Hsub _ Hmb') Hp).
        by apply list_elem_of_fmap_2.
      - apply Hnew. rewrite <- (proj2 (proj2 Hok) mb' mb (Hsub _ Hmb') Hmb Hp).
        by apply list_elem_of_fmap_2. }
    rewrite Hrun2.
    destruct (IH (done_ ++ [mb]) m2 Hinv2) as (done' & m' & Hrun & Hinv' & Hiff).
    { intros x [Hx|Hx%list_elem_of_singleton]%elem_of_app; [by apply Hsub|by subst]. }
    exists done', m'. split; [done|]. split; [done|]. intros x. rewrite Hiff.
    rewrite elem_of_app, list_elem_of_singleton. split.
    + intros [[?| ->]|[Hx Hn]]; [by left| |].
      * right. split; [done|]. rewrite Hname. by left.
      * right. split; [done|]. by right.
    + intros [?|[Hx Hn]]; [by left; left|].
      apply elem_of_cons in Hn as [Hn|Hn]; [|by right].
      left; right. apply same_name_same_member; [done|done|by rewrite Hn].
Qed.

End chosen.

(** X16.  From a ZIP archive [extract_specific_files] extracts the members
    whose names are in the list, and only those: a name that the archive
    does not have is passed over without an error, and a name listed twice
    is extracted twice to the same file.  Into a new directory, the regular
    files below the destination are in the end exactly the members that
    were asked for. *)
Theorem extract_specific_files_zip (E : Env)
    (py7zr_extract : option node → option string → list string → list member * option string)
    (rarfile_extract : string → option node → string → option string
                       → list member * option string)
    (archive : path) (file_list : list string) (out : path) (password enc : option string)
    (ms : list member) (w : world) :
  PyStr.lower (PyPath.suffix archive) = ".zip" →
  fs w !! archive = Some (File (Arc Zip enc ms)) →
  unlocks enc (if PyStr.truthy password then password else None) →
  names_ok ms →
  plain_names ms →
  NoDup (Zipfile.namelist (enc, ms)) →
  creatable (fs w) out →
  vacant (fs w) out →
  ∃ w', extract_specific_files E py7zr_extract rarfile_extract archive file_list out password w
        = (Ok out, w')
        ∧ (∀ rel c, fs w' !! (out ++ rel) = Some (File c)
                    ↔ (rel, c) ∈ ms ∧ PyPath.render_rel rel ∈ file_list)
        ∧ trace w' = trace w.
Proof.
  intros Hsfx Hf Hpw Hok _ Hnames Hcre Hvac.
  assert (archive ≠ []) as Hane by (by intros ->).
  assert (out ≠ []) as Hone.
  { intros ->. by rewrite (Hvac archive (prefix_nil _)) in Hf. }
  destruct (makedirs_ok out w Hcre) as (ma & Hmk & Hdirs & Hframe).
  destruct (extractall_into_new_dir E None None [] out w I) as (w1 & m0 & Hdir & Hex & Htr & _ & Hinv);
    [by repeat split; try constructor; intros; set_solver|done|done|done|].
  unfold _ensure_dir in Hdir. rewrite Hmk in Hdir. injection Hdir as <-.
  unfold Zipfile.extractall in Hex. cbn [snd for_each mret M_ret] in Hex.
  injection Hex as <-. cbn [with_fs fs] in Hinv.
  destruct (chosen_loop E out ma Hone) with (enc := enc)
    (pwd := if PyStr.truthy password then password else None) (ms := ms)
    (todo := file_list) (done_ := @nil member) (m := ma) (w := w)
    as (done' & m' & Hloop & (_ & HI1 & _) & Hiff); try done.
  { intros c. rewrite Hframe; [apply Hcre, prefix_nil|by right]. }
  { intros q Hq _ Hq0. by apply Hdirs. }
  { intros x Hx. by apply elem_of_nil in Hx. }
  exists (with_fs m' w). split; [|split; [|done]].
  - unfold extract_specific_files, _ensure_dir. unfold mbind at 1, M_bind at 1. rewrite Hmk.
    cbv zeta. rewrite Hsfx. cbn [String.eqb Ascii.eqb Bool.eqb].
    unfold mbind at 1, M_bind at 1. unfold mbind at 1, M_bind at 1.
    assert (Zipfile.open_r archive (with_fs ma w) = (Ok (enc, ms), with_fs ma w)) as ->.
    { unfold Zipfile.open_r, Os.stat. munfold. cbn [with_fs fs].
      rewrite (node_at_ne _ _ Hane), Hframe, Hf; [done|]. left. intros Hp.
      by apply (Hcre archive (Arc Zip enc ms) Hp). }
    rewrite Hloop. reflexivity.
  - intros rel c. cbn [with_fs fs]. rewrite HI1, Hiff. split.
    + intros [Hx|Hx]; [by apply elem_of_nil in Hx|done].
    + intros Hx. by right.
Qed.

Lemma extract_specific_files_zip_witness :
  PyStr.lower (PyPath.suffix ["data"; "plain.zip"]) = ".zip"
  ∧ fs Demo.w0 !! ["data"; "plain.zip"]
    = Some (File (Arc Zip None [(["a.txt"], Demo.hello); (["b"; "c.txt"], Demo.world_)]))
  ∧ unlocks None (if PyStr.truthy None then None else None)
  ∧ names_ok [(["a.txt"], Demo.hello); (["b"; "c.txt"], Demo.world_)]
  ∧ plain_names [(["a.txt"], Demo.hello); (["b"; "c.txt"], Demo.world_)]
  ∧ NoDup (Zipfile.namelist (None, [(["a.txt"], Demo.hello); (["b"; "c.txt"], Demo.world_)]))
  ∧ creatable (fs Demo.w0) ["unpacked"]
  ∧ vacant (fs Demo.w0) ["unpacked"]
  ∧ ∃ w', extract_specific_files (Demo.env Demo.all_installed)
            (λ _ _ _, ([], None)) (λ _ _ _ _, ([], None))
            ["data"; "plain.zip"] ["b/c.txt"; "missing.txt"; "b/c.txt"] ["unpacked"] None Demo.w0
          = (Ok ["unpacked"], w')
          ∧ (∀ rel c, fs w' !! (["unpacked"] ++ rel) = Some (File c)
                      ↔ (rel, c) ∈ [(["a.txt"], Demo.hello); (["b"; "c.txt"], Demo.world_)]
                        ∧ PyPath.render_rel rel ∈ ["b/c.txt"; "missing.txt"; "b/c.txt"])
          ∧ trace w' = trace Demo.w0.
Proof.
  assert (PyStr.lower (PyPath.suffix ["data"; "plain.zip"]) = ".zip") as H1 by reflexivity.
  assert (fs Demo.w0 !! ["data"; "plain.zip"]
          = Some (File (Arc Zip None [(["a.txt"], Demo.hello); (["b"; "c.txt"], Demo.world_)])))
    as H2 by (vm_compute; reflexivity).
  assert (unlocks None (if PyStr.truthy None then None else None)) as H3 by exact I.
  assert (names_ok [(["a.txt"], Demo.hello); (["b"; "c.txt"], Demo.world_)]) as H4
    by (apply names_ok_b_sound; vm_compute; reflexivity).
  assert (plain_names [(["a.txt"], Demo.hello); (["b"; "c.txt"], Demo.world_)]) as H5
    by (apply plain_names_b_sound; vm_compute; reflexivity).
  assert (NoDup (Zipfile.namelist
                   (None, [(["a.txt"], Demo.hello); (["b"; "c.txt"], Demo.world_)]))) as H6
    by (apply (bool_decide_unpack _); vm_compute; exact I).
  assert (creatable (fs Demo.w0) ["unpacked"]) as H7
    by (apply creatable_b_sound; vm_compute; reflexivity).
  assert (vacant (fs Demo.w0) ["unpacked"]) as H8
    by (apply vacant_b_sound; vm_compute; reflexivity).
  repeat (split; [assumption|]).
  exact (extract_specific_files_zip (Demo.env Demo.all_installed)
           (λ _ _ _, ([], None)) (λ _ _ _ _, ([], None))
           ["data"; "plain.zip"] ["b/c.txt"; "missing.txt"; "b/c.txt"] ["unpacked"] None None
           [(["a.txt"], Demo.hello); (["b"; "c.txt"], Demo.world_)] Demo.w0
           H1 H2 H3 H4 H5 H6 H7 H8).
Defined.

(** The sample archive, one member of it asked for. *)
Example extract_specific_files_run :
  let w' := (extract_specific_files (Demo.env Demo.all_installed)
               (λ _ _ _, ([], None)) (λ _ _ _ _, ([], None))
               ["data"; "plain.zip"] ["b/c.txt"; "missing.txt"; "b/c.txt"] ["unpacked"]
               None Demo.w0).2 in
  file_at (fs w') ["unpacked"; "b"; "c.txt"] = Some Demo.world_
  ∧ file_at (fs w') ["unpacked"; "a.txt"] = None.
Proof. vm_compute. split; reflexivity. Qed.

(** X17.  An archive of a kind that [extract_specific_files] does not read
    is no error to it: when the suffix is none of [.zip], [.7z], [.rar], or
    it is [.rar] and the [rarfile] module is not there, the call makes the
    destination directory, extracts nothing and returns the directory as if
    all had gone well, whatever names were asked for. *)
Theorem extract_specific_files_unread_format (E : Env)
    (py7zr_extract : option node → option string → list string → list member * option string)
    (rarfile_extract : string → option node → string → option string
                       → list member * option string)
    (archive : path) (file_list : list string) (out : path) (password : option string)
    (w : world) :
  let ext := PyStr.lower (PyPath.suffix archive) in
  ext ≠ ".zip" →
  ext ≠ ".7z" →
  ext ≠ ".rar" ∨ rarfile_imported E = false →
  extract_specific_files E py7zr_extract rarfile_extract archive file_list out password w
  = (_ensure_dir out ;; mret out) w.
Proof.
  intros ext Hzip H7z Hrar. unfold extract_specific_files. fold ext.
  destruct (String.eqb_spec ext ".zip") as [|_]; [done|].
  destruct (String.eqb_spec ext ".7z") as [|_]; [done|].
  assert ((if String.eqb ext ".rar"
           then can ← _rarfile_can_extract E;
                (if can : bool
                 then names ← RarFile_namelist E archive;
                      for_each file_list (λ file_name,
                        if bool_decide (file_name ∈ names)
                        then RarFile_extract rarfile_extract archive file_name out password
                        else mret tt)
                 else mret tt)
           else mret tt) = (λ w0, (Ok tt, w0))) as ->.
  { destruct (String.eqb_spec ext ".rar") as [Heq|_]; [|done].
    destruct Hrar as [|Hno]; [done|].
    unfold _rarfile_can_extract. by rewrite Hno. }
  unfold mbind, M_bind. by destruct (_ensure_dir out w) as [[[]|e] w1].
Qed.

Lemma extract_specific_files_unread_format_witness :
  PyStr.lower (PyPath.suffix ["data"; "in.tar"]) ≠ ".zip"
  ∧ PyStr.lower (PyPath.suffix ["data"; "in.tar"]) ≠ ".7z"
  ∧ (PyStr.lower (PyPath.suffix ["data"; "in.tar"]) ≠ ".rar"
     ∨ rarfile_imported (Demo.env Demo.all_installed) = false)
  ∧ extract_specific_files (Demo.env Demo.all_installed)
      (λ _ _ _, ([], None)) (λ _ _ _ _, ([], None))
      ["data"; "in.tar"] ["a.txt"] ["unpacked"] None Demo.w0
    = (_ensure_dir ["unpacked"] ;; mret ["unpacked"]) Demo.w0.
Proof.
  assert (PyStr.lower (PyPath.suffix ["data"; "in.tar"]) ≠ ".zip") as H1
    by (vm_compute; discriminate).
  assert (PyStr.lower (PyPath.suffix ["data"; "in.tar"]) ≠ ".7z") as H2
    by (vm_compute; discriminate).
  assert (PyStr.lower (PyPath.suffix ["data"; "in.tar"]) ≠ ".rar"
          ∨ rarfile_imported (Demo.env Demo.all_installed) = false) as H3
    by (left; vm_compute; discriminate).
  repeat (split; [assumption|]).
  exact (extract_specific_files_unread_format (Demo.env Demo.all_installed)
           (λ _ _ _, ([], None)) (λ _ _ _ _, ([], None))
           ["data"; "in.tar"] ["a.txt"] ["unpacked"] None Demo.w0 H1 H2 H3).
Defined.

(** X18.  [create_archive] makes the directory of the output before it looks
    at the extension: for an extension that is none of [.zip], [.tar],
    [.gz], [.tgz] (as [.7z] or [.rar], or none at all) it raises
    [ValueError] naming the extension in lower case, the directory of the
    output has been made all the same, and nothing is written at the
    output path. *)
Theorem create_archive_unsupported_extension (E : Env)
    (tarfile_add : bool → option node → list member → content * option exn)
    (files_dir out : path) (w : world) :
  let ext := PyStr.lower (PyPath.suffix out) in
  ext ≠ ".zip" →
  ext ≠ ".tar" →
  ext ≠ ".gz" →
  ext ≠ ".tgz" →
  out ≠ [] →
  creatable (fs w) (PyPath.parent out) →
  ∃ w1, create_archive E tarfile_add files_dir out w
        = (Raise (ValueError ("Unsupported archive extension: " +:+ ext)), w1)
        ∧ (∀ q, q `prefix_of` PyPath.parent out → q ≠ [] → fs w1 !! q = Some Dir)
        ∧ fs w1 !! out = fs w !! out
        ∧ trace w1 = trace w.
Proof.
  intros ext Hzip Htar Hgz Htgz Hne Hcre.
  destruct (makedirs_ok (PyPath.parent out) w Hcre) as (m1 & Hmk & Hdirs & Hframe).
  exists (with_fs m1 w). split; [|split; [done|split; [|done]]].
  - unfold create_archive. cbv zeta. fold ext. unfold _ensure_dir, mbind, M_bind.
    rewrite Hmk.
    destruct (String.eqb_spec ext ".zip") as [|_]; [done|].
    destruct (String.eqb_spec ext ".tar") as [|_]; [done|].
    destruct (String.eqb_spec ext ".gz") as [|_]; [done|].
    destruct (String.eqb_spec ext ".tgz") as [|_]; [done|].
    reflexivity.
  - cbn [with_fs fs]. apply Hframe. left. intros Hp. apply prefix_length in Hp.
    destruct (exists_last Hne) as (l & a & Hl). rewrite Hl, parent_last in Hp.
    rewrite length_app in Hp. simpl in Hp. lia.
Qed.

Lemma create_archive_unsupported_extension_witness :
  PyStr.lower (PyPath.suffix ["out"; "x.7z"]) ≠ ".zip"
  ∧ PyStr.lower (PyPath.suffix ["out"; "x.7z"]) ≠ ".tar"
  ∧ PyStr.lower (PyPath.suffix ["out"; "x.7z"]) ≠ ".gz"
  ∧ PyStr.lower (PyPath.suffix ["out"; "x.7z"]) ≠ ".tgz"
  ∧ ["out"; "x.7z"] ≠ []
  ∧ creatable (fs Demo.w0) (PyPath.parent ["out"; "x.7z"])
  ∧ ∃ w1, create_archive (Demo.env Demo.all_installed) (λ _ _ ms, (Arc Tar None ms, None))
            ["data"; "src"] ["out"; "x.7z"] Demo.w0
          = (Raise (ValueError ("Unsupported archive extension: "
                                +:+ PyStr.lower (PyPath.suffix ["out"; "x.7z"]))), w1)
          ∧ (∀ q, q `prefix_of` PyPath.parent ["out"; "x.7z"] → q ≠ [] → fs w1 !! q = Some Dir)
          ∧ fs w1 !! ["out"; "x.7z"] = fs Demo.w0 !! ["out"; "x.7z"]
          ∧ trace w1 = trace Demo.w0.
Proof.
  assert (PyStr.lower (PyPath.suffix ["out"; "x.7z"]) ≠ ".zip") as H1
    by (vm_compute; discriminate).
  assert (PyStr.lower (PyPath.suffix ["out"; "x.7z"]) ≠ ".tar") as H2
    by (vm_compute; discriminate).
  assert (PyStr.lower (PyPath.suffix ["out"; "x.7z"]) ≠ ".gz") as H3
    by (vm_compute; discriminate).
  assert (PyStr.lower (PyPath.suffix ["out"; "x.7z"]) ≠ ".tgz") as H4
    by (vm_compute; discriminate).
  assert (["out"; "x.7z"] ≠ []) as H5 by done.
  assert (creatable (fs Demo.w0) (PyPath.parent ["out"; "x.7z"])) as H6
    by (apply creatable_b_sound; vm_compute; reflexivity).
  repeat (split; [assumption|]).
  exact (create_archive_unsupported_extension (Demo.env Demo.all_installed)
           (λ _ _ ms, (Arc Tar None ms, None)) ["data"; "src"] ["out"; "x.7z"] Demo.w0
           H1 H2 H3 H4 H5 H6).
Defined.

(** X19.  [extract_archive] makes the destination directory before it opens
    the archive: on a path that ends in [.zip] and holds no ZIP archive it
    raises, [FileNotFoundError] when nothing is there and [BadZipFile]
    when the file is no ZIP archive, and the destination directory is left
    behind, empty if it is new. *)
Theorem extract_archive_unreadable_zip (E : Env) (p out : path) (password : option string)
    (w : world) :
  PyStr.endswith (PyStr.lower (PyPath.render p)) ".zip" = true →
  creatable (fs w) out →
  out ≠ [] →
  ¬ p `prefix_of` out →
  (fs w !! p = None ∨ ∃ bs, fs w !! p = Some (File (Raw bs))) →
  ∃ w1 e, extract_archive E p out password w = (Raise e, w1)
        ∧ (fs w !! p = None → ∃ msg, e = FileNotFoundError msg)
        ∧ (fs w !! p ≠ None → ∃ msg, e = BadZipFile msg)
        ∧ fs w1 !! out = Some Dir
        ∧ (∀ rel, rel ≠ [] → fs w1 !! (out ++ rel) = fs w !! (out ++ rel))
        ∧ trace w1 = trace w.
Proof.
  intros Hname Hcre Hne Hpo Hp.
  assert (p ≠ []) as Hpne by (by intros ->).
  destruct (makedirs_ok out w Hcre) as (m1 & Hmk & Hdirs & Hframe).
  assert (∃ e, extract_archive E p out password w = (Raise e, with_fs m1 w)
               ∧ (fs w !! p = None → ∃ msg, e = FileNotFoundError msg)
               ∧ (fs w !! p ≠ None → ∃ msg, e = BadZipFile msg)) as (e & Hrun & Hnone & Hbad).
  { rewrite (extract_archive_zip E p out password w (with_fs m1 w) Hname Hmk).
    unfold mbind at 1, M_bind at 1. unfold Zipfile.open_r, Os.stat. munfold.
    cbn [with_fs fs]. rewrite (node_at_ne _ _ Hpne), Hframe by (by left).
    destruct Hp as [Hp|[bs Hp]]; rewrite Hp; eexists; (split; [reflexivity|]);
      split; intros ?; by eauto. }
  exists (with_fs m1 w), e. split; [done|]. split; [done|]. split; [done|].
  split; [|split; [|done]].
  - cbn [with_fs fs]. by apply Hdirs.
  - intros rel Hrel. cbn [with_fs fs]. apply Hframe. left. intros Hpre.
    apply prefix_length in Hpre. rewrite length_app in Hpre. destruct rel; [done|].
    simpl in Hpre. lia.
Qed.

Lemma extract_archive_unreadable_zip_witness :
  PyStr.endswith (PyStr.lower (PyPath.render ["data"; "broken.zip"])) ".zip" = true
  ∧ creatable (fs Demo.w0) ["unpacked"]
  ∧ ["unpacked"] ≠ []
  ∧ ¬ ["data"; "broken.zip"] `prefix_of` ["unpacked"]
  ∧ (fs Demo.w0 !! ["data"; "broken.zip"] = None
     ∨ ∃ bs, fs Demo.w0 !! ["data"; "broken.zip"] = Some (File (Raw bs)))
  ∧ ∃ w1 e, extract_archive (Demo.env Demo.all_installed) ["data"; "broken.zip"] ["unpacked"]
            None Demo.w0 = (Raise e, w1)
          ∧ (fs Demo.w0 !! ["data"; "broken.zip"] = None → ∃ msg, e = FileNotFoundError msg)
          ∧ (fs Demo.w0 !! ["data"; "broken.zip"] ≠ None → ∃ msg, e = BadZipFile msg)
          ∧ fs w1 !! ["unpacked"] = Some Dir
          ∧ (∀ rel, rel ≠ [] → fs w1 !! (["unpacked"] ++ rel) = fs Demo.w0 !! (["unpacked"] ++ rel))
          ∧ trace w1 = trace Demo.w0.
Proof.
  assert (PyStr.endswith (PyStr.lower (PyPath.render ["data"; "broken.zip"])) ".zip" = true)
    as H1 by reflexivity.
  assert (creatable (fs Demo.w0) ["unpacked"]) as H2
    by (apply creatable_b_sound; vm_compute; reflexivity).
  assert (["unpacked"] ≠ []) as H3 by done.
  assert (¬ ["data"; "broken.zip"] `prefix_of` ["unpacked"]) as H4 by (by intros [k [=]]).
  assert (fs Demo.w0 !! ["data"; "broken.zip"] = None
          ∨ ∃ bs, fs Demo.w0 !! ["data"; "broken.zip"] = Some (File (Raw bs))) as H5
    by (right; exists []; vm_compute; reflexivity).
  repeat (split; [assumption|]).
  exact (extract_archive_unreadable_zip (Demo.env Demo.all_installed) ["data"; "broken.zip"]
           ["unpacked"] None Demo.w0 H1 H2 H3 H4 H5).
Defined.

(** *** What an external reader leaves below a directory *)

Lemma put_dirs_lookup (l : list path) (m : gmap path node) (q : path) :
  foldr (λ q acc, <[q := Dir]> acc) m l !! q
  = if decide (q ∈ l) then Some Dir else m !! q.
Proof.
  induction l as [|a l IH]; cbn [foldr].
  { destruct (decide (q ∈ [])) as [H|_]; [by apply elem_of_nil in H|done]. }
  destruct (decide (a = q)) as [->|Hne].
  - rewrite lookup_insert_eq. destruct (decide (q ∈ q :: l)) as [_|H]; [done|].
    exfalso. apply H. by left.
  - rewrite lookup_insert_ne by done. rewrite IH.
    destruct (decide (q ∈ l)) as [Hin|Hin]; destruct (decide (q ∈ a :: l)) as [Hin'|Hin'];
      try done.
    + exfalso. apply Hin'. by right.
    + apply elem_of_cons in Hin' as [->|?]; done.
Qed.

Lemma put_member_lookup (d : path) (mb : member) (m : gmap path node) (q : path) :
  Os.put_member d mb m !! q
  = if decide (q = d ++ mb.1) then Some (File mb.2)
    else if decide (q `prefix_of` PyPath.parent (d ++ mb.1) ∧ q ≠ []) then Some Dir
    else m !! q.
Proof.
  unfold Os.put_member. destruct (decide (q = d ++ mb.1)) as [->|Hne].
  { by rewrite lookup_insert_eq. }
  rewrite lookup_insert_ne by done. rewrite put_dirs_lookup.
  destruct (decide (q ∈ _)) as [Hin|Hin]; destruct (decide (_ ∧ _)) as [Hp|Hp]; try done.
  - exfalso. apply Hp. by apply ancestors_or_self_elem.
  - exfalso. apply Hin. by apply ancestors_or_self_elem.
Qed.

(** Outside the directory nothing changes, when the directories above it
    are there. *)
Lemma put_members_outside (d : path) (ms : list member) (m : gmap path node) :
  (∀ q, q `prefix_of` d → q ≠ d → q ≠ [] → m !! q = Some Dir) →
  ∀ p, ¬ d `prefix_of` p →
       foldl (λ acc mb, Os.put_member d mb acc) m ms !! p = m !! p.
Proof.
  revert m. induction ms as [|mb ms IH]; intros m Hd p Hp; [done|]. simpl.
  assert (∀ q, ¬ d `prefix_of` q → Os.put_member d mb m !! q = m !! q) as Hone.
  { intros q Hq. rewrite put_member_lookup.
    destruct (decide (q = d ++ mb.1)) as [->|_].
    { exfalso. apply Hq. by apply prefix_app_r. }
    destruct (decide _) as [[Hpre Hne]|_]; [|done].
    symmetry. destruct (prefix_weak_total q d (d ++ mb.1)) as [H|H]; [| |  |done].
    - etrans; [done|]. apply parent_prefix.
    - by apply prefix_app_r.
    - apply Hd; [done| |done]. intros ->. by apply Hq. }
  rewrite IH; [by apply Hone| |done].
  intros q Hq Hqd Hne. rewrite Hone; [by apply Hd|].
  intros Hdq. apply Hqd. by apply (anti_symm prefix).
Qed.

Section put_members.

Context (out : path) (m1 : gmap path node).
Context (Hout : out ≠ []).
Context (Habove : ∀ q, q `prefix_of` out → q ≠ out → q ≠ [] → m1 !! q = Some Dir).

(** One more member put below [out]: the files there are again the
    members put so far. *)
Lemma put_member_ok (done_ : list member) (m : gmap path node) (mb : member) :
  extracting out m1 done_ m →
  mb.1 ≠ [] →
  (∀ mb', mb' ∈ done_ → ¬ mb.1 `prefix_of` mb'.1 ∧ ¬ mb'.1 `prefix_of` mb.1) →
  extracting out m1 (done_ ++ [mb]) (Os.put_member out mb m).
Proof.
  destruct mb as [rel c]. simpl. intros (HF & HI1 & HI2) Hrel Hinc.
  assert (∀ r, Os.put_member out (rel, c) m !! (out ++ r)
               = if decide (r = rel) then Some (File c)
                 else if decide (r `prefix_of` PyPath.parent rel) then Some Dir
                 else m !! (out ++ r)) as Hin.
  { intros r. rewrite put_member_lookup. cbn [fst snd]. rewrite (parent_app out rel Hrel).
    destruct (decide (out ++ r = out ++ rel)) as [Heq|Hne]; destruct (decide (r = rel)) as [->|Hne'];
      try done.
    { by apply app_inv_head in Heq. }
    destruct (decide (_ ∧ _)) as [[Hp _]|Hn]; destruct (decide (r `prefix_of` _)) as [Hr|Hr];
      try done.
    - exfalso. apply Hr. by apply prefix_app_inv in Hp.
    - exfalso. apply Hn. split; [by apply prefix_app|]. by destruct out. }
  split; [|split].
  - intros p Hp. rewrite <- (HF p Hp).
    apply (put_members_outside out [(rel, c)] m); [|done].
    intros q Hq Hqo Hne. rewrite HF; [by apply Habove|].
    intros Hoq. apply Hqo. by apply (anti_symm prefix).
  - intros r c0. rewrite Hin, elem_of_app, list_elem_of_singleton.
    destruct (decide (r = rel)) as [->|Hne].
    + split.
      * intros [= ->]. by right.
      * intros [Hd|[= ->]]; [|done]. by destruct (Hinc _ Hd) as [[] _].
    + destruct (decide _) as [Hr|Hr].
      * split; [done|]. intros [Hd|[= -> _]]; [|done].
        apply (prefix_parent _ _ Hrel) in Hr as [Hr _].
        by destruct (Hinc _ Hd) as [_ []].
      * rewrite HI1. split; [by left|]. intros [?|[= -> _]]; done.
  - intros r. rewrite Hin. destruct (decide (r = rel)) as [->|Hne].
    + split; [done|].
      intros [->|(mb' & Hd & Hpre & Hneq)]; [done|].
      apply elem_of_app in Hd as [Hd|Hd%list_elem_of_singleton].
      * by destruct (Hinc _ Hd) as [[] _].
      * subst mb'. done.
    + destruct (decide _) as [Hr|Hr].
      * split; [|done]. intros _. destruct (decide (r = [])) as [->|Hr0]; [by left|right].
        exists (rel, c). rewrite elem_of_app, list_elem_of_singleton. split; [by right|].
        by apply (prefix_parent _ _ Hrel).
      * rewrite HI2. split.
        -- intros [->|(mb' & Hd & Hpre & Hneq)]; [by left|right].
           exists mb'. rewrite elem_of_app. split; [by left|done].
        -- intros [->|(mb' & Hd & Hpre & Hneq)]; [by left|].
           apply elem_of_app in Hd as [Hd|Hd%list_elem_of_singleton].
           ++ right. by exists mb'.
           ++ subst mb'. exfalso. apply Hr. by apply (prefix_parent _ _ Hrel).
Qed.

Lemma put_members_ok (todo done_ : list member) (m : gmap path node) :
  names_ok (done_ ++ todo) →
  extracting out m1 done_ m →
  extracting out m1 (done_ ++ todo) (foldl (λ acc mb, Os.put_member out mb acc) m todo).
Proof.
  revert done_ m. induction todo as [|mb todo IH]; intros done_ m Hok Hinv.
  { by rewrite (right_id_L [] (++)). }
  destruct (names_ok_next _ _ _ Hok) as [Hne Hinc]. simpl.
  rewrite (assoc_L (++) done_ [mb] todo : done_ ++ mb :: todo = (done_ ++ [mb]) ++ todo).
  apply IH.
  - by rewrite <- (assoc_L (++)).
  - by apply put_member_ok.
Qed.

End put_members.

(** *** Converting a RAR archive to ZIP *)

Lemma with_TemporaryDirectory_run {A} (body : path → M A) (w : world) :
  Os.with_TemporaryDirectory body w
  = finally (body (Os.fresh_tmp (fs w))) (Os.rmtree (Os.fresh_tmp (fs w))) (entered w).
Proof. reflexivity. Qed.

Section rar_to_zip.

Context (E : Env) (rar : path) (password : option string) (w : world).
Context (Hrar : rar ≠ []).
Context (Hthere : is_Some (fs w !! rar)).
Context (Htmp : ∀ c, fs w !! ["tmp"] ≠ Some (File c)).

(** The staging directory is made; the archive is where it was. *)
Lemma rar_staged :
  ∃ m1, _ensure_dir (staging_dir w) (entered w) = (Ok tt, with_fs m1 (entered w))
        ∧ (∀ q, q `prefix_of` staging_dir w → q ≠ [] → m1 !! q = Some Dir)
        ∧ (∀ q, ¬ q `prefix_of` staging_dir w ∨ q = [] → m1 !! q = fs (entered w) !! q)
        ∧ (∀ rel, rel ≠ [] → m1 !! (staging_dir w ++ rel) = None)
        ∧ m1 !! rar = fs w !! rar.
Proof.
  destruct (staging_ready w "extracted" Htmp) as [Hcre Hvac]. fold (staging_dir w) in Hcre, Hvac.
  destruct (makedirs_below_root (staging_dir w) (entered w) Hcre) as (m1 & Hmk & Hdirs & Hframe).
  exists m1. split; [done|]. split; [done|]. split; [done|]. split.
  - intros rel Hrel. rewrite Hframe; [by apply Hvac, prefix_app_r|]. left. intros Hp.
    apply prefix_length in Hp. rewrite length_app in Hp. destruct rel; [done|]. simpl in Hp. lia.
  - destruct Hthere as [n Hn].
    assert (¬ Os.fresh_tmp (fs w) `prefix_of` rar) as Hnf.
    { intros Hp. by rewrite (fresh_tmp_fresh (fs w) rar Hp) in Hn. }
    destruct (decide (rar `prefix_of` staging_dir w)) as [Hp|Hp].
    + destruct (above_fresh_tmp (fs w) ["extracted"] rar Hp Hnf) as [->| ->]; [done|].
      rewrite (Hdirs ["tmp"] Hp) by done. rewrite Hn. destruct n as [|c]; [done|].
      by destruct (Htmp c).
    + rewrite Hframe by (by left). unfold entered. cbn [fs]. apply lookup_insert_ne.
      intros <-. by apply Hnf.
Qed.

(** The members that a reader has put into the staging directory are the
    members of the archive that is written in the end. *)
Lemma rar_to_zip_zips_staged (out : path) (ms : list member) (m1 : gmap path node) (w3 : world) :
  (∀ l, walk_order E l ≡ₚ l) →
  names_ok ms →
  out ≠ [] →
  ¬ ["tmp"] `prefix_of` out →
  creatable (fs w) (PyPath.parent out) →
  fs w !! out ≠ Some Dir →
  _ensure_dir (staging_dir w) (entered w) = (Ok tt, with_fs m1 (entered w)) →
  (∀ q, q `prefix_of` staging_dir w → q ≠ [] → m1 !! q = Some Dir) →
  (∀ q, ¬ q `prefix_of` staging_dir w ∨ q = [] → m1 !! q = fs (entered w) !! q) →
  (∀ rel, rel ≠ [] → m1 !! (staging_dir w ++ rel) = None) →
  fs w3 = foldl (λ acc mb, Os.put_member (staging_dir w) mb acc) m1 ms →
  (∀ A (k : M A),
     (can ← _rarfile_can_extract E;
      extracted ← (if can : bool
                   then try_except
                          (RarFile_extractall E rar (staging_dir w) password ;; mret true)
                          (λ _, mret false)
                   else mret false);
      (if negb extracted
       then _extract_with_7z E rar (staging_dir w) password ;; mret tt
       else mret tt) ;;
      k) (with_fs m1 (entered w)) = k w3) →
  ∃ w' ms',
    rar_to_zip E rar out password w = (Ok out, w')
    ∧ fs w' !! out = Some (File (Arc Zip None ms'))
    ∧ ms' ≡ₚ ms.
Proof.
  intros Hperm Hok Hone Hout Hocre Hodir Hmk Hdirs Hframe Hvac Hfs3 Hstage.
  assert (staging_dir w ≠ []) as Hsne by done.
  assert (extracting (staging_dir w) m1 ms (fs w3)) as (HI0 & HI1 & _).
  { rewrite Hfs3.
    apply (put_members_ok (staging_dir w) m1 Hsne) with (done_ := []); [|done|].
    - intros q Hq _ Hne. by apply Hdirs.
    - split; [done|]. split.
      + intros rel c. rewrite elem_of_nil. split; [|done]. intros Hf.
        destruct (decide (rel = [])) as [->|Hrel].
        * rewrite (right_id_L [] (++)), Hdirs in Hf; done.
        * by rewrite Hvac in Hf.
      + intros rel. split.
        * intros Hd. left. destruct (decide (rel = [])) as [|Hrel]; [done|].
          by rewrite Hvac in Hd.
        * intros [->|(mb & Hin & _)]; [|by apply elem_of_nil in Hin].
          rewrite (right_id_L [] (++)). by apply Hdirs. }
  assert (∀ p, ¬ ["tmp"] `prefix_of` p → fs w3 !! p = fs w !! p) as Houtside.
  { intros p Hp.
    assert (¬ staging_dir w `prefix_of` p) as Hsp.
    { intros Hsp. apply Hp. etrans; [|done]. unfold staging_dir, PyPath.join, Os.fresh_tmp.
      apply prefix_cons, prefix_nil. }
    rewrite (HI0 p Hsp), <- (entered_outside w p Hp). apply Hframe.
    destruct (decide (p = [])) as [|Hp0]; [by right|left]. intros Hps. apply Hp.
    unfold staging_dir, PyPath.join, Os.fresh_tmp in Hps.
    destruct p as [|c1 p]; [done|]. apply prefix_cons_inv_1 in Hps as ->.
    apply prefix_cons, prefix_nil. }
  assert (∀ q, q `prefix_of` out → ¬ ["tmp"] `prefix_of` q) as Habove.
  { intros q Hq Ht. apply Hout. by etrans. }
  destruct (_zip_directory_ok E Hperm (staging_dir w) out true w3)
    as (w4 & ms' & Hzip & Hat & Hms & Hnd & Hrest); [done| | | |].
  { intros q c Hq. rewrite Houtside.
    - by apply Hocre.
    - apply Habove. etrans; [done|]. apply parent_prefix. }
  { by rewrite Houtside. }
  { intros Hp. apply Hout. etrans; [|done]. unfold staging_dir, PyPath.join, Os.fresh_tmp.
    apply prefix_cons, prefix_nil. }
  eexists _, ms'. split; [|split].
  - unfold rar_to_zip. unfold mbind at 1, M_bind at 1. rewrite exists_run.
    rewrite (node_at_ne _ _ Hrar), bool_decide_eq_true_2 by done. cbn [negb].
    rewrite with_TemporaryDirectory_run. unfold finally.
    change (PyPath.join (Os.fresh_tmp (fs w)) "extracted") with (staging_dir w).
    unfold mbind at 1, M_bind at 1. rewrite Hmk.
    rewrite (Hstage _ (_zip_directory E (staging_dir w) out true)), Hzip.
    rewrite rmtree_run. reflexivity.
  - cbn [fs]. apply map_lookup_filter_Some. split; [done|]. cbn [fst].
    intros Hp. apply Hout. etrans; [|done]. unfold Os.fresh_tmp. apply prefix_cons, prefix_nil.
  - apply NoDup_Permutation.
    + by apply (NoDup_fmap_1 fst).
    + apply (NoDup_fmap_1 fst). apply Hok.
    + intros [rel c]. rewrite Hms, HI1. split; [by intros [_ ?]|].
      intros Hm. split; [|done]. by apply (proj1 (proj2 Hok) (rel, c)).
Qed.

End rar_to_zip.

(** X20.  [rar_to_zip] with the [rarfile] module at hand: when its reader
    extracts the archive without an error, the call returns the output
    path, and the ZIP archive written there has exactly the files the
    reader extracted, each once, with their contents.  The output lies
    outside the temporary root. *)
Theorem rar_to_zip_by_rarfile (E : Env) (rar out : path) (password : option string)
    (ms : list member) (w : world) :
  (∀ l, walk_order E l ≡ₚ l) →
  rar ≠ [] →
  is_Some (fs w !! rar) →
  creatable (fs w) ["tmp"] →
  rarfile_imported E = true →
  (∀ tool, rarfile_extractall E tool (fs w !! rar) password = (ms, None)) →
  names_ok ms →
  out ≠ [] →
  ¬ ["tmp"] `prefix_of` out →
  creatable (fs w) (PyPath.parent out) →
  fs w !! out ≠ Some Dir →
  ∃ w' ms',
    rar_to_zip E rar out password w = (Ok out, w')
    ∧ fs w' !! out = Some (File (Arc Zip None ms'))
    ∧ ms' ≡ₚ ms.
Proof.
  intros Hperm Hrar Hthere Htmp Himp Hread Hok Hone Hout Hocre Hodir.
  assert (∀ c, fs w !! ["tmp"] ≠ Some (File c)) as Htmp' by (intros c; by apply Htmp).
  destruct (rar_staged rar w Hrar Hthere Htmp') as (m1 & Hmk & Hdirs & Hframe & Hvac & Hrar1).
  destruct (_rarfile_can_extract_total E (with_fs m1 (entered w))) as (w2 & Hcan & Hfs2 & _).
  rewrite Himp in Hcan. cbn [with_fs fs] in Hfs2.
  apply (rar_to_zip_zips_staged E rar password w Hrar Hthere out ms m1
           (World (foldl (λ acc mb, Os.put_member (staging_dir w) mb acc) m1 ms)
                  (trace w2 ++ [EvRarfileExtractall rar (staging_dir w) password])
                  (UNRAR_TOOL w2) (zip_open w2))); try done.
  intros A k. unfold mbind at 1, M_bind at 1. rewrite Hcan.
  unfold RarFile_extractall, Os.put_members. munfold.
  rewrite Hfs2. cbn [fs trace UNRAR_TOOL zip_open]. rewrite Hrar1, Hread.
  cbn [fst snd negb]. reflexivity.
Qed.

Lemma rar_to_zip_by_rarfile_witness :
  (∀ l, walk_order (Demo.env Demo.all_installed) l ≡ₚ l)
  ∧ ["data"; "in.rar"] ≠ []
  ∧ is_Some (fs Demo.w0 !! ["data"; "in.rar"])
  ∧ creatable (fs Demo.w0) ["tmp"]
  ∧ rarfile_imported (Demo.env Demo.all_installed) = true
  ∧ (∀ tool, rarfile_extractall (Demo.env Demo.all_installed) tool
               (fs Demo.w0 !! ["data"; "in.rar"]) None
             = ([(["a.txt"], Demo.hello)], None))
  ∧ names_ok [(["a.txt"], Demo.hello)]
  ∧ ["out"; "x.zip"] ≠ []
  ∧ ¬ ["tmp"] `prefix_of` ["out"; "x.zip"]
  ∧ creatable (fs Demo.w0) (PyPath.parent ["out"; "x.zip"])
  ∧ fs Demo.w0 !! ["out"; "x.zip"] ≠ Some Dir
  ∧ ∃ w' ms',
      rar_to_zip (Demo.env Demo.all_installed) ["data"; "in.rar"] ["out"; "x.zip"] None Demo.w0
      = (Ok ["out"; "x.zip"], w')
      ∧ fs w' !! ["out"; "x.zip"] = Some (File (Arc Zip None ms'))
      ∧ ms' ≡ₚ [(["a.txt"], Demo.hello)].
Proof.
  assert (∀ l, walk_order (Demo.env Demo.all_installed) l ≡ₚ l) as H1 by done.
  assert (["data"; "in.rar"] ≠ []) as H2 by done.
  assert (is_Some (fs Demo.w0 !! ["data"; "in.rar"])) as H3 by (vm_compute; eauto).
  assert (creatable (fs Demo.w0) ["tmp"]) as H4
    by (apply creatable_b_sound; vm_compute; reflexivity).
  assert (rarfile_imported (Demo.env Demo.all_installed) = true) as H5 by reflexivity.
  assert (∀ tool, rarfile_extractall (Demo.env Demo.all_installed) tool
                    (fs Demo.w0 !! ["data"; "in.rar"]) None
                  = ([(["a.txt"], Demo.hello)], None)) as H6
    by (intros tool; vm_compute; reflexivity).
  assert (names_ok [(["a.txt"], Demo.hello)]) as H7
    by (apply names_ok_b_sound; vm_compute; reflexivity).
  assert (["out"; "x.zip"] ≠ []) as H8 by done.
  assert (¬ ["tmp"] `prefix_of` ["out"; "x.zip"]) as H9 by (by intros [k [=]]).
  assert (creatable (fs Demo.w0) (PyPath.parent ["out"; "x.zip"])) as H10
    by (apply creatable_b_sound; vm_compute; reflexivity).
  assert (fs Demo.w0 !! ["out"; "x.zip"] ≠ Some Dir) as H11 by (vm_compute; discriminate).
  repeat (split; [assumption|]).
  exact (rar_to_zip_by_rarfile (Demo.env Demo.all_installed) ["data"; "in.rar"] ["out"; "x.zip"]
           None [(["a.txt"], Demo.hello)] Demo.w0 H1 H2 H3 H4 H5 H6 H7 H8 H9 H10 H11).
Defined.

(** X21.  [rar_to_zip] by way of the 7-Zip command: when the [rarfile]
    module is not there, or its reader fails before it has written
    anything, and a 7-Zip is on the PATH whose run ends with exit code 0,
    the call returns the output path, and the ZIP archive written there
    has exactly the files that 7-Zip extracted, each once, with their
    contents.  The error of [rarfile] is not seen by the caller. *)
Theorem rar_to_zip_by_7z (E : Env) (rar out : path) (password : option string)
    (sevenz : string) (ms : list member) (w : world) :
  (∀ l, walk_order E l ≡ₚ l) →
  rar ≠ [] →
  is_Some (fs w !! rar) →
  creatable (fs w) ["tmp"] →
  (rarfile_imported E = false
   ∨ ∀ tool, ∃ msg, rarfile_extractall E tool (fs w !! rar) password = ([], Some msg)) →
  _detect_tool E ["7z"; "7za"; "7zz"] = Some sevenz →
  sevenzip_x E (fs w !! rar) (if PyStr.truthy password then password else None) = (0, ms) →
  names_ok ms →
  out ≠ [] →
  ¬ ["tmp"] `prefix_of` out →
  creatable (fs w) (PyPath.parent out) →
  fs w !! out ≠ Some Dir →
  ∃ w' ms',
    rar_to_zip E rar out password w = (Ok out, w')
    ∧ fs w' !! out = Some (File (Arc Zip None ms'))
    ∧ ms' ≡ₚ ms.
Proof.
  intros Hperm Hrar Hthere Htmp Hno Htool Hrun Hok Hone Hout Hocre Hodir.
  assert (∀ c, fs w !! ["tmp"] ≠ Some (File c)) as Htmp' by (intros c; by apply Htmp).
  destruct (rar_staged rar w Hrar Hthere Htmp') as (m1 & Hmk & Hdirs & Hframe & Hvac & Hrar1).
  destruct (_rarfile_can_extract_total E (with_fs m1 (entered w))) as (w2 & Hcan & Hfs2 & _).
  cbn [with_fs fs] in Hfs2.
  assert (∀ w2' A (k : M A),
            fs w2' = m1 →
            ((_extract_with_7z E rar (staging_dir w) password ;; mret tt) ;; k) w2'
            = k (World (foldl (λ acc mb, Os.put_member (staging_dir w) mb acc) m1 ms)
                       (trace w2' ++ [EvSubprocess
                                        (sevenzip_x_cmd sevenz rar (staging_dir w) password) None])
                       (UNRAR_TOOL w2') (zip_open w2'))) as H7z.
  { intros w2' A k Hfs. unfold _extract_with_7z. rewrite Htool, sevenzip_x_cmd_eq.
    unfold Subprocess.run, sevenzip_extract, Os.put_members. munfold.
    cbn [fs trace UNRAR_TOOL zip_open]. rewrite Hfs, Hrar1, Hrun. reflexivity. }
  destruct (rarfile_imported E) eqn:Himp.
  - destruct Hno as [?|Hfail]; [done|].
    destruct (Hfail (UNRAR_TOOL w2)) as [msg Hmsg].
    eapply (rar_to_zip_zips_staged E rar password w Hrar Hthere out ms m1); try done.
    2:{ intros A k. unfold mbind at 1, M_bind at 1. rewrite Hcan.
        unfold mbind at 1, M_bind at 1.
        unfold RarFile_extractall, Os.put_members, try_except.
        unfold mbind at 1 2 3 4 5, M_bind at 1 2 3 4 5. unfold log, gets, modify_fs.
        cbn [fs trace UNRAR_TOOL zip_open]. rewrite Hfs2, Hrar1, Hmsg.
        cbn [fst snd raise mret M_ret negb foldl].
        apply H7z. reflexivity. }
    reflexivity.
  - eapply (rar_to_zip_zips_staged E rar password w Hrar Hthere out ms m1); try done.
    2:{ intros A k. unfold mbind at 1, M_bind at 1. rewrite Hcan.
        unfold mbind at 1, M_bind at 1. cbn [mret M_ret negb].
        by apply H7z. }
    reflexivity.
Qed.

Lemma rar_to_zip_by_7z_witness :
  (∀ l, walk_order (Demo.env Demo.rarfile_broken) l ≡ₚ l)
  ∧ ["data"; "in.rar"] ≠ []
  ∧ is_Some (fs Demo.w0 !! ["data"; "in.rar"])
  ∧ creatable (fs Demo.w0) ["tmp"]
  ∧ (rarfile_imported (Demo.env Demo.rarfile_broken) = false
     ∨ ∀ tool, ∃ msg, rarfile_extractall (Demo.env Demo.rarfile_broken) tool
                        (fs Demo.w0 !! ["data"; "in.rar"]) None = ([], Some msg))
  ∧ _detect_tool (Demo.env Demo.rarfile_broken) ["7z"; "7za"; "7zz"] = Some "/usr/bin/7z"
  ∧ sevenzip_x (Demo.env Demo.rarfile_broken) (fs Demo.w0 !! ["data"; "in.rar"])
      (if PyStr.truthy None then None else None) = (0, [(["a.txt"], Demo.hello)])
  ∧ names_ok [(["a.txt"], Demo.hello)]
  ∧ ["out"; "x.zip"] ≠ []
  ∧ ¬ ["tmp"] `prefix_of` ["out"; "x.zip"]
  ∧ creatable (fs Demo.w0) (PyPath.parent ["out"; "x.zip"])
  ∧ fs Demo.w0 !! ["out"; "x.zip"] ≠ Some Dir
  ∧ ∃ w' ms',
      rar_to_zip (Demo.env Demo.rarfile_broken) ["data"; "in.rar"] ["out"; "x.zip"] None Demo.w0
      = (Ok ["out"; "x.zip"], w')
      ∧ fs w' !! ["out"; "x.zip"] = Some (File (Arc Zip None ms'))
      ∧ ms' ≡ₚ [(["a.txt"], Demo.hello)].
Proof.
  assert (∀ l, walk_order (Demo.env Demo.rarfile_broken) l ≡ₚ l) as H1 by done.
  assert (["data"; "in.rar"] ≠ []) as H2 by done.
  assert (is_Some (fs Demo.w0 !! ["data"; "in.rar"])) as H3 by (vm_compute; eauto).
  assert (creatable (fs Demo.w0) ["tmp"]) as H4
    by (apply creatable_b_sound; vm_compute; reflexivity).
  assert (rarfile_imported (Demo.env Demo.rarfile_broken) = false
          ∨ ∀ tool, ∃ msg, rarfile_extractall (Demo.env Demo.rarfile_broken) tool
                             (fs Demo.w0 !! ["data"; "in.rar"]) None = ([], Some msg)) as H5
    by (right; intros tool; eexists; vm_compute; reflexivity).
  assert (_detect_tool (Demo.env Demo.rarfile_broken) ["7z"; "7za"; "7zz"] = Some "/usr/bin/7z")
    as H6 by (vm_compute; reflexivity).
  assert (sevenzip_x (Demo.env Demo.rarfile_broken) (fs Demo.w0 !! ["data"; "in.rar"])
            (if PyStr.truthy None then None else None) = (0, [(["a.txt"], Demo.hello)])) as H7
    by (vm_compute; reflexivity).
  assert (names_ok [(["a.txt"], Demo.hello)]) as H8
    by (apply names_ok_b_sound; vm_compute; reflexivity).
  assert (["out"; "x.zip"] ≠ []) as H9 by done.
  assert (¬ ["tmp"] `prefix_of` ["out"; "x.zip"]) as H10 by (by intros [k [=]]).
  assert (creatable (fs Demo.w0) (PyPath.parent ["out"; "x.zip"])) as H11
    by (apply creatable_b_sound; vm_compute; reflexivity).
  assert (fs Demo.w0 !! ["out"; "x.zip"] ≠ Some Dir) as H12 by (vm_compute; discriminate).
  repeat (split; [assumption|]).
  exact (rar_to_zip_by_7z (Demo.env Demo.rarfile_broken) ["data"; "in.rar"] ["out"; "x.zip"]
           None "/usr/bin/7z" [(["a.txt"], Demo.hello)] Demo.w0
           H1 H2 H3 H4 H5 H6 H7 H8 H9 H10 H11 H12).
Defined.

(** With every tool installed, a RAR archive converted to ZIP. *)
Example rar_to_zip_run :
  fs (rar_to_zip (Demo.env Demo.all_installed) ["data"; "in.rar"] ["out"; "x.zip"] None
        Demo.w0).2 !! ["out"; "x.zip"]
  = Some (File (Arc Zip None [(["a.txt"], Demo.hello)])).
Proof. vm_compute; reflexivity. Qed.

(** X22.  [rar_to_zip] with no extractor that works: when the [rarfile]
    module is not there or its reader raises, whatever its error, and no
    7-Zip is on the PATH, the call raises the [RuntimeError] that says
    7-Zip was not found; no archive is written, and the disk is as it was
    before the call, what [rarfile] had extracted before it failed
    included. *)
Theorem rar_to_zip_no_extractor (E : Env) (rar out : path) (password : option string)
    (w : world) :
  rar ≠ [] →
  is_Some (fs w !! rar) →
  fs w !! ["tmp"] = Some Dir →
  _detect_tool E ["7z"; "7za"; "7zz"] = None →
  (rarfile_imported E = false
   ∨ ∀ tool, (rarfile_extractall E tool (fs w !! rar) password).2 ≠ None) →
  ∃ w', rar_to_zip E rar out password w
        = (Raise (RuntimeError "7-Zip (7z) not found. Install 7-Zip or add it to PATH."), w')
        ∧ fs w' = fs w.
Proof.
  intros Hrar Hthere Htmp Htool Hno.
  assert (∀ c, fs w !! ["tmp"] ≠ Some (File c)) as Htmp' by (intros c; by rewrite Htmp).
  destruct (rar_staged rar w Hrar Hthere Htmp') as (m1 & Hmk & Hdirs & Hframe & Hvac & Hrar1).
  assert (∃ w3, (∀ p, ¬ staging_dir w `prefix_of` p → fs w3 !! p = m1 !! p)
            ∧ ∀ A (k : M A),
                (can ← _rarfile_can_extract E;
                 extracted ← (if can : bool
                              then try_except
                                     (RarFile_extractall E rar (staging_dir w) password ;; mret true)
                                     (λ _, mret false)
                              else mret false);
                 (if negb extracted
                  then _extract_with_7z E rar (staging_dir w) password ;; mret tt
                  else mret tt) ;;
                 k) (with_fs m1 (entered w))
                = (Raise (RuntimeError "7-Zip (7z) not found. Install 7-Zip or add it to PATH."),
                   w3)) as (w3 & Hfs3 & Hstage).
  { destruct (_rarfile_can_extract_total E (with_fs m1 (entered w))) as (w2 & Hcan & Hfs2 & _).
    cbn [with_fs fs] in Hfs2.
    destruct (rarfile_imported E) eqn:Himp.
    - destruct Hno as [?|Hfail]; [done|].
      exists (World (foldl (λ acc mb, Os.put_member (staging_dir w) mb acc) m1
                       (rarfile_extractall E (UNRAR_TOOL w2) (fs w !! rar) password).1)
                (trace w2 ++ [EvRarfileExtractall rar (staging_dir w) password])
                (UNRAR_TOOL w2) (zip_open w2)).
      split.
      + intros p Hp. cbn [fs]. apply put_members_outside; [|done].
        intros q Hq _ Hne. by apply Hdirs.
      + intros A k. unfold mbind at 1, M_bind at 1. rewrite Hcan.
        unfold mbind at 1, M_bind at 1.
        unfold RarFile_extractall, Os.put_members, try_except.
        unfold mbind at 1 2 3 4 5, M_bind at 1 2 3 4 5. unfold log, gets, modify_fs.
        cbn [fs trace UNRAR_TOOL zip_open]. rewrite Hfs2, Hrar1.
        specialize (Hfail (UNRAR_TOOL w2)).
        destruct (rarfile_extractall E (UNRAR_TOOL w2) (fs w !! rar) password) as [part [msg|]];
          [|done].
        cbn [fst snd raise mret M_ret negb].
        unfold mbind at 1, M_bind at 1. unfold mbind at 1, M_bind at 1.
        rewrite (_extract_with_7z_no_tool E _ _ _ _ Htool). reflexivity.
    - exists w2. split; [intros p _; by rewrite Hfs2|].
      intros A k. unfold mbind at 1, M_bind at 1. rewrite Hcan.
      unfold mbind at 1, M_bind at 1. cbn [mret M_ret negb].
      unfold mbind at 1, M_bind at 1. unfold mbind at 1, M_bind at 1.
      rewrite (_extract_with_7z_no_tool E _ _ _ _ Htool). reflexivity. }
  eexists. split.
  - unfold rar_to_zip. unfold mbind at 1, M_bind at 1. rewrite exists_run.
    rewrite (node_at_ne _ _ Hrar), bool_decide_eq_true_2 by done. cbn [negb].
    rewrite with_TemporaryDirectory_run. unfold finally.
    change (PyPath.join (Os.fresh_tmp (fs w)) "extracted") with (staging_dir w).
    unfold mbind at 1, M_bind at 1. rewrite Hmk.
    rewrite (Hstage _ (_zip_directory E (staging_dir w) out true)).
    rewrite rmtree_run. reflexivity.
  - cbn [fs]. apply map_eq. intros p.
    destruct (decide (Os.fresh_tmp (fs w) `prefix_of` p)) as [Hp|Hp].
    { rewrite (fresh_tmp_fresh (fs w) p Hp). apply map_lookup_filter_None. right.
      intros n _ Hn. by apply Hn. }
    assert (fs w3 !! p = fs w !! p) as Hsame.
    { rewrite Hfs3.
      2:{ intros Hs. apply Hp. etrans; [|done]. by apply prefix_app_r. }
      destruct (decide (p `prefix_of` staging_dir w ∧ p ≠ [])) as [[Hps Hne]|Hn].
      - destruct (above_fresh_tmp (fs w) ["extracted"] p Hps Hp) as [->| ->]; [done|].
        by rewrite (Hdirs ["tmp"] Hps), Htmp.
      - rewrite Hframe.
        + unfold entered. cbn [fs]. apply lookup_insert_ne. intros <-. by apply Hp.
        + destruct (decide (p = [])); [by right|left]. intros ?. by apply Hn. }
    rewrite <- Hsame.
    destruct (fs w3 !! p) as [n|] eqn:Hn.
    + apply map_lookup_filter_Some. done.
    + apply map_lookup_filter_None. by left.
Qed.

Lemma rar_to_zip_no_extractor_witness :
  ["data"; "in.rar"] ≠ []
  ∧ is_Some (fs Demo.w0 !! ["data"; "in.rar"])
  ∧ fs Demo.w0 !! ["tmp"] = Some Dir
  ∧ _detect_tool (Demo.env (Demo.Setup false false true true false)) ["7z"; "7za"; "7zz"] = None
  ∧ (rarfile_imported (Demo.env (Demo.Setup false false true true false)) = false
     ∨ ∀ tool, (rarfile_extractall (Demo.env (Demo.Setup false false true true false)) tool
                  (fs Demo.w0 !! ["data"; "in.rar"]) (Some "pw")).2 ≠ None)
  ∧ ∃ w', rar_to_zip (Demo.env (Demo.Setup false false true true false))
            ["data"; "in.rar"] ["out"; "x.zip"] (Some "pw") Demo.w0
          = (Raise (RuntimeError "7-Zip (7z) not found. Install 7-Zip or add it to PATH."), w')
          ∧ fs w' = fs Demo.w0.
Proof.
  assert (["data"; "in.rar"] ≠ []) as H1 by done.
  assert (is_Some (fs Demo.w0 !! ["data"; "in.rar"])) as H2 by (vm_compute; eauto).
  assert (fs Demo.w0 !! ["tmp"] = Some Dir) as H3 by (vm_compute; reflexivity).
  assert (_detect_tool (Demo.env (Demo.Setup false false true true false)) ["7z"; "7za"; "7zz"]
          = None) as H4 by (vm_compute; reflexivity).
  assert (rarfile_imported (Demo.env (Demo.Setup false false true true false)) = false
          ∨ ∀ tool, (rarfile_extractall (Demo.env (Demo.Setup false false true true false)) tool
                       (fs Demo.w0 !! ["data"; "in.rar"]) (Some "pw")).2 ≠ None) as H5
    by (right; intros tool; vm_compute; discriminate).
  repeat (split; [assumption|]).
  exact (rar_to_zip_no_extractor (Demo.env (Demo.Setup false false true true false))
           ["data"; "in.rar"] ["out"; "x.zip"] (Some "pw") Demo.w0 H1 H2 H3 H4 H5).
Defined.



(** With every tool installed, a ZIP archive converted to RAR. *)
Example zip_to_rar_run :
  (zip_to_rar (Demo.env Demo.all_installed) ["data"; "plain.zip"] ["out"; "x.rar"]
     (Some "pw") None Demo.w0).1 = Ok ["out"; "x.rar"]
  ∧ fs (zip_to_rar (Demo.env Demo.all_installed) ["data"; "plain.zip"] ["out"; "x.rar"]
          (Some "pw") None Demo.w0).2 !! ["out"; "x.rar"]
    = Some (File (Arc Rar (Some "pw") [(["b"; "c.txt"], Demo.world_); (["a.txt"], Demo.hello)])).
Proof. split; vm_compute; reflexivity. Qed.
